(** * Model version manager of the water-potability service

    A shallow embedding of [src/src/model_manager.py] (class
    [ModelVersionManager]) and of the handlers of [src/main.py], with the
    properties of the version registry, of incremental retraining and of
    the prediction adapter.

    The libraries and the file system are seen through an environment: it
    says which calls raise and what the numeric library computes.  A
    write that raises leaves its file as the code does, untouched when the
    call raised before opening it and cut short when it raised after.
    The records of a registry hold the keys the manager writes, and the
    artifact paths of a record are relative file names. *)

From Stdlib Require Import ZArith Lia Bool List Ascii String Sorted Permutation.
From Stdlib Require Import Floats.PrimFloat.
From stdpp Require Import base option list gmap strings.

Local Open Scope Z_scope.

(** ** Python strings and integers *)

(** A Python [str] is modelled as a [string] whose characters are the code
    points below 256.  The interpreter's optional cap on the number of
    digits of a decimal conversion is not modelled. *)
Module Py.

(** [s.startswith("V")] *)
Definition startswith_V (s : string) : bool :=
  match s with
  | String c _ => Ascii.eqb c "V"
  | EmptyString => false
  end.

(** [s.replace("V", "")]: every occurrence of the one-character pattern
    is dropped. *)
Fixpoint replace_V (s : string) : string :=
  match s with
  | EmptyString => EmptyString
  | String c r => if Ascii.eqb c "V" then replace_V r else String c (replace_V r)
  end.

(** [s.encode('ascii', 'ignore').decode('ascii')]: the code points above
    127 are dropped. *)
Fixpoint ascii_ignore (s : string) : string :=
  match s with
  | EmptyString => EmptyString
  | String c r =>
      if (N_of_ascii c <? 128)%N then String c (ascii_ignore r) else ascii_ignore r
  end.

Fixpoint is_ascii (s : string) : bool :=
  match s with
  | EmptyString => true
  | String c r => (N_of_ascii c <? 128)%N && is_ascii r
  end.

(** *** [str(n)] for an integer *)

Definition digit_char (d : Z) : ascii := ascii_of_N (48 + Z.to_N d).

(** Decimal digits of a natural number, most significant first. *)
Fixpoint digits_of (fuel : nat) (n : Z) : list Z :=
  match fuel with
  | O => [n mod 10]
  | S f => if n <? 10 then [n] else digits_of f (n / 10) ++ [n mod 10]
  end.

Definition string_of_digits (ds : list Z) : string :=
  string_of_list_ascii (List.map digit_char ds).

Definition str_nat (n : Z) : string :=
  string_of_digits (digits_of (Z.to_nat (Z.log2 n)) n).

Definition str (n : Z) : string :=
  if n <? 0 then String "-" (str_nat (- n)) else str_nat n.

(** *** [int(s)] for a string, base 10 *)

(** White space skipped around the literal: TAB, LF, VT, FF, CR, space,
    and in the upper half NEL and the no-break space. *)
Definition is_space (c : ascii) : bool :=
  let n := N_of_ascii c in
  ((9 <=? n) && (n <=? 13) || (n =? 32) || (n =? 133) || (n =? 160))%N.

Definition digit_val (c : ascii) : option Z :=
  let n := N_of_ascii c in
  if ((48 <=? n) && (n <=? 57))%N then Some (Z.of_N n - 48) else None.

Fixpoint skip_space (s : string) : string :=
  match s with
  | String c r => if is_space c then skip_space r else s
  | EmptyString => EmptyString
  end.

Fixpoint all_space (s : string) : bool :=
  match s with
  | String c r => is_space c && all_space r
  | EmptyString => true
  end.

(** The digits after the first one: a single underscore may separate two
    digits; what follows the literal must be white space up to the end.
    [us] tells that the previous character was an underscore. *)
Fixpoint scan_digits (s : string) (acc : Z) (us : bool) : option Z :=
  match s with
  | EmptyString => if us then None else Some acc
  | String c r =>
      match digit_val c with
      | Some d => scan_digits r (10 * acc + d) false
      | None =>
          if Ascii.eqb c "_" then
            if us then None else scan_digits r acc true
          else if us then None
          else if all_space s then Some acc else None
      end
  end.

Definition parse_unsigned (s : string) : option Z :=
  match s with
  | String c r =>
      match digit_val c with
      | Some d => scan_digits r d false
      | None => None
      end
  | EmptyString => None
  end.

(** [int(s)]: leading white space, an optional sign, the literal, trailing
    white space.  [None] stands for the [ValueError]. *)
Definition int (s : string) : option Z :=
  match skip_space s with
  | String c r =>
      if Ascii.eqb c "-" then option_map Z.opp (parse_unsigned r)
      else if Ascii.eqb c "+" then parse_unsigned r
      else parse_unsigned (String c r)
  | EmptyString => None
  end.

End Py.

(** ** Data model *)

(** Exceptions, with the text [str(e)] gives. *)
Inductive exn :=
| ValueError (msg : string)
| RuntimeError (msg : string)
| FileNotFoundError (msg : string)
| AttributeError (msg : string)
| IndexError (msg : string)
| LibraryError (msg : string)
| HTTPException (status_code : Z) (detail : string).

Definition exn_str (e : exn) : string :=
  match e with
  | ValueError m | RuntimeError m | FileNotFoundError m
  | AttributeError m | IndexError m | LibraryError m => m
  | HTTPException _ d => d
  end.

Inductive outcome (A : Type) :=
| Returns (a : A)
| Raises (e : exn).
Arguments Returns {A} a.
Arguments Raises {A} e.

(** A Python [dict] with string keys, in insertion order. *)
Definition dict (V : Type) := list (string * V).

Definition dict_keys {V} (d : dict V) : list string := List.map fst d.

(** [d[k]] / [k in d] *)
Fixpoint dict_get {V} (k : string) (d : dict V) : option V :=
  match d with
  | [] => None
  | (k', v) :: r => if String.eqb k k' then Some v else dict_get k r
  end.

Definition dict_contains {V} (k : string) (d : dict V) : bool :=
  match dict_get k d with Some _ => true | None => false end.

(** [d[k] = v]: an existing key keeps its place, a new one goes last. *)
Fixpoint dict_set {V} (k : string) (v : V) (d : dict V) : dict V :=
  match d with
  | [] => [(k, v)]
  | (k', v') :: r =>
      if String.eqb k k' then (k', v) :: r else (k', v') :: dict_set k v r
  end.

(** [del d[k]] *)
Definition dict_del {V} (k : string) (d : dict V) : dict V :=
  List.filter (fun kv => negb (String.eqb k (fst kv))) d.

(** One entry of [metadata["versions"]], as the manager writes it: the
    five keys the methods subscript are there, the keys [list_versions]
    reads with [get], and [incremental_samples], may be missing.  A
    metadata file edited by hand so that a record lacks one of the five is
    outside the model. *)
Record version_info := {
  created_at : string;
  description : string;
  training_samples : Z;
  incremental_samples : option Z;
  model_path : string;
  scaler_path : string;
  accuracy : option float;
  cv_accuracy : option float
}.

(** [self.metadata] *)
Record registry := {
  current_version : string;
  versions : dict version_info
}.

(** One row of the training tables: the nine features and the label. *)
Record row := {
  ph : float;
  Hardness : float;
  Solids : float;
  Chloramines : float;
  Sulfate : float;
  Conductivity : float;
  Organic_carbon : float;
  Trihalomethanes : float;
  Turbidity : float;
  Potability : Z
}.

Definition FEATURES : list string :=
  ["ph"; "Hardness"; "Solids"; "Chloramines"; "Sulfate"; "Conductivity";
   "Organic_carbon"; "Trihalomethanes"; "Turbidity"].

(** The cell of a row under a feature column. *)
Definition row_column (name : string) (r : row) : option float :=
  if String.eqb name "ph" then Some (ph r)
  else if String.eqb name "Hardness" then Some (Hardness r)
  else if String.eqb name "Solids" then Some (Solids r)
  else if String.eqb name "Chloramines" then Some (Chloramines r)
  else if String.eqb name "Sulfate" then Some (Sulfate r)
  else if String.eqb name "Conductivity" then Some (Conductivity r)
  else if String.eqb name "Organic_carbon" then Some (Organic_carbon r)
  else if String.eqb name "Trihalomethanes" then Some (Trihalomethanes r)
  else if String.eqb name "Turbidity" then Some (Turbidity r)
  else None.

(** A fitted estimator or scaler, seen through the methods the program
    calls on it.  A method the object lacks is [None] ([hasattr] is false).
    [predict_method x] stands for [int(obj.predict(x)[0])],
    [predict_proba_method x] for [obj.predict_proba(x)[0]] and
    [transform_method x] for [obj.transform(x)], on a one-row input. *)
Record pyobject := {
  predict_method : option (list float -> outcome Z);
  predict_proba_method : option (list float -> outcome (list float));
  transform_method : option (list float -> outcome (list float))
}.

(** The library and file-system calls that may raise. *)
Inductive stage :=
| LoadMetadata | SaveMetadata
| LoadModel | LoadScaler
| ReadIncremental | WriteIncremental | ReadBase
| FitScaler | FitModel | CrossValidate | Score
| DumpModel | DumpScaler
| UnlinkModel | UnlinkScaler.

#[global] Instance stage_eq_dec : EqDecision stage.
Proof. solve_decision. Defined.

(** What one call of a method meets outside the program: the clock, the
    calls that raise (with the text of the exception), and what the
    numeric library computes from a training table.  A write opens its
    file, which creates or empties it, and then fills it: for a write that
    raises, [opened] says whether the file had been opened, [written] how
    many rows of the table had reached it by then, and [garbled] is the
    text of the error [json.load] gives on a metadata file left that
    way. *)
Record env := {
  now : string;
  fault : stage -> option string;
  opened : stage -> bool;
  written : nat;
  garbled : string;
  fitted_scaler : list row -> pyobject;
  fitted_model : list row -> pyobject;
  cv_scores : list row -> list float;
  cv_mean : list row -> float;
  train_accuracy : list row -> float
}.

(** What the metadata file holds: the registry of the last [json.dump]
    that returned, or the beginning of a text whose [json.dump] raised,
    which is no JSON document. *)
Inductive json_file :=
| Json (r : registry)
| Truncated.

(** The state of the process and of its files.  [train_dataset] is
    [Data-set/train_dataset.csv]; [joblib_files] holds the files
    [joblib.load] can read, by path.  The metadata file and the
    incremental table are kept apart from the joblib files: the artifact
    names the manager writes in a record, [model_<name>.joblib] and
    [scaler_<name>.joblib], are not the names of those two files.
    [model] and [scaler] are the globals of [main.py]. *)
Record world := {
  metadata : registry;
  metadata_file : option json_file;
  training_data_file : option (list row);
  train_dataset : option (list row);
  joblib_files : gmap string pyobject;
  model : option pyobject;
  scaler : option pyobject
}.

Definition set_metadata (r : registry) (w : world) : world :=
  {| metadata := r; metadata_file := metadata_file w;
     training_data_file := training_data_file w;
     train_dataset := train_dataset w; joblib_files := joblib_files w;
     model := model w; scaler := scaler w |}.

Definition set_metadata_file (f : option json_file) (w : world) : world :=
  {| metadata := metadata w; metadata_file := f;
     training_data_file := training_data_file w;
     train_dataset := train_dataset w; joblib_files := joblib_files w;
     model := model w; scaler := scaler w |}.

Definition set_training_data_file (f : option (list row)) (w : world) : world :=
  {| metadata := metadata w; metadata_file := metadata_file w;
     training_data_file := f;
     train_dataset := train_dataset w; joblib_files := joblib_files w;
     model := model w; scaler := scaler w |}.

Definition set_joblib_files (f : gmap string pyobject) (w : world) : world :=
  {| metadata := metadata w; metadata_file := metadata_file w;
     training_data_file := training_data_file w;
     train_dataset := train_dataset w; joblib_files := f;
     model := model w; scaler := scaler w |}.

Definition set_globals (m s : option pyobject) (w : world) : world :=
  {| metadata := metadata w; metadata_file := metadata_file w;
     training_data_file := training_data_file w;
     train_dataset := train_dataset w; joblib_files := joblib_files w;
     model := m; scaler := s |}.

(** ** Methods as state transformers that may raise *)

Definition M (A : Type) : Type := env -> world -> world * outcome A.

Definition ret {A} (a : A) : M A := fun _ w => (w, Returns a).

Definition bind {A B} (m : M A) (k : A -> M B) : M B :=
  fun e w =>
    match m e w with
    | (w', Returns a) => k a e w'
    | (w', Raises x) => (w', Raises x)
    end.

Definition raise {A} (x : exn) : M A := fun _ w => (w, Raises x).

Definition get_world : M world := fun _ w => (w, Returns w).

Definition get_env : M env := fun e w => (w, Returns e).

Definition modify (f : world -> world) : M unit := fun _ w => (f w, Returns tt).

(** [try: m except Exception as e: h e] *)
Definition try_except {A} (m : M A) (h : exn -> M A) : M A :=
  fun e w =>
    match m e w with
    | (w', Returns a) => (w', Returns a)
    | (w', Raises x) => h x e w'
    end.

Declare Scope py_scope.
Delimit Scope py_scope with py.
Notation "x <- m ;; k" := (bind m (fun x => k))
  (at level 100, m at next level, right associativity) : py_scope.
Notation "m ;; k" := (bind m (fun _ => k))
  (at level 100, right associativity) : py_scope.
Local Open Scope py_scope.

(** A call into a library or the file system: raises what [fault] says. *)
Definition library_call (s : stage) : M unit :=
  fun e w =>
    match fault e s with
    | Some msg => (w, Raises (LibraryError msg))
    | None => (w, Returns tt)
    end.

(** ** [ModelVersionManager] *)

(** [Path(a) / b] for a relative file name [b]. *)
Definition path_join (a b : string) : string := a +:+ "/" +:+ b.

(** The global instance is built with the default [models_dir]. *)
Definition models_dir : string := "models".
Definition versions_dir : string := path_join models_dir "versions".

(** [self.metadata_file] and [self.training_data_file], as paths. *)
Definition metadata_file_path : string := path_join versions_dir "metadata.json".
Definition training_data_file_path : string :=
  path_join versions_dir "incremental_training_data.csv".

(** The registry [_load_metadata] creates when there is no metadata file. *)
#[warnings="-inexact-float"]
Definition initial_metadata (created : string) : registry :=
  {| current_version := "Original";
     versions :=
       [("Original",
         {| created_at := created;
            description := "Original ensemble model (RF + XGBoost + GB)";
            training_samples := 2293;
            incremental_samples := None;
            model_path := "model.joblib";
            scaler_path := "scaler.joblib";
            accuracy := Some 0.8439%float;
            cv_accuracy := Some 0.6424%float |})] |}.

(** [open(path, 'w')] creates or empties the file before anything is
    written to it: a write that raises after the file is opened leaves
    [cut] at the path, one that raises before leaves the file as it
    was. *)
Definition left_by_write {A} (s : stage) (cut before : option A) (e : env)
  : option A :=
  if opened e s then cut else before.

(** [with open(self.metadata_file, 'w') as f: json.dump(self.metadata, fp=f)] *)
Definition _save_metadata : M unit :=
  fun e w =>
    match fault e SaveMetadata with
    | Some msg =>
        (set_metadata_file
           (left_by_write SaveMetadata (Some Truncated) (metadata_file w) e) w,
         Raises (LibraryError msg))
    | None => (set_metadata_file (Some (Json (metadata w))) w, Returns tt)
    end.

Definition _load_metadata : M unit :=
  w <- get_world ;;
  match metadata_file w with
  | Some f =>
      library_call LoadMetadata ;;
      match f with
      | Json r => modify (set_metadata r)
      | Truncated =>
          (* json.JSONDecodeError, a ValueError *)
          e <- get_env ;; raise (ValueError (garbled e))
      end
  | None =>
      e <- get_env ;;
      modify (set_metadata (initial_metadata (now e))) ;;
      _save_metadata
  end.

(** The constructor: the directories are created, then the metadata read. *)
Definition __init__ : M unit := _load_metadata.

Definition get_current_version (w : world) : string :=
  current_version (metadata w).

(** One element of the list [list_versions] returns. *)
Record version_view := {
  version : string;
  v_created_at : string;
  v_description : string;
  v_training_samples : Z;
  v_accuracy : float;
  v_cv_accuracy : float;
  is_current : bool
}.

Definition view_of (current : string) (kv : string * version_info) : version_view :=
  {| version := fst kv;
     v_created_at := created_at (snd kv);
     v_description := description (snd kv);
     v_training_samples := training_samples (snd kv);
     v_accuracy := default 0%float (accuracy (snd kv));
     v_cv_accuracy := default 0%float (cv_accuracy (snd kv));
     is_current := String.eqb (fst kv) current |}.

(** The local function [sort_key] of [list_versions], on the name. *)
Definition sort_key (name : string) : Z * Z :=
  if String.eqb name "Original" then (0, 0)
  else match Py.int (Py.replace_V name) with
       | Some num => (1, num)
       | None => (2, 0)
       end.

(** [<] on pairs of integers. *)
Definition tuple_lt (a b : Z * Z) : bool :=
  (fst a <? fst b) || ((fst a =? fst b) && (snd a <? snd b)).

(** [list.sort(key=...)]: the sort is stable, an element stays behind the
    earlier elements whose key is not greater. *)
Fixpoint sort_insert {A} (key : A -> Z * Z) (x : A) (l : list A) : list A :=
  match l with
  | [] => [x]
  | y :: r =>
      if tuple_lt (key y) (key x) then y :: sort_insert key x r
      else x :: y :: r
  end.

Fixpoint py_sort {A} (key : A -> Z * Z) (l : list A) : list A :=
  match l with
  | [] => []
  | x :: r => sort_insert key x (py_sort key r)
  end.

Definition list_versions (w : world) : list version_view :=
  py_sort (fun v => sort_key (version v))
    (List.map (view_of (current_version (metadata w))) (versions (metadata w))).

Definition switch_version (version_name : string) : M bool :=
  w <- get_world ;;
  if negb (dict_contains version_name (versions (metadata w))) then ret false
  else
    modify (fun w => set_metadata
              {| current_version := version_name;
                 versions := versions (metadata w) |} w) ;;
    _save_metadata ;;
    ret true.

Definition joblib_load (s : stage) (path : string) : M pyobject :=
  library_call s ;;
  w <- get_world ;;
  match joblib_files w !! path with
  | Some o => ret o
  | None =>
      raise (FileNotFoundError
               ("[Errno 2] No such file or directory: '" +:+ path +:+ "'"))
  end.

(** What a dump that raises may leave at the path is not kept: the path
    is that of a version not registered yet, and the next dump to it
    replaces the file. *)
Definition joblib_dump (s : stage) (o : pyobject) (path : string) : M unit :=
  library_call s ;;
  modify (fun w => set_joblib_files (<[path := o]> (joblib_files w)) w).

Definition load_model_and_scaler (version_name : option string)
  : M (pyobject * pyobject) :=
  w <- get_world ;;
  let version_name := default (current_version (metadata w)) version_name in
  match dict_get version_name (versions (metadata w)) with
  | None => raise (ValueError ("Version " +:+ version_name +:+ " not found"))
  | Some version_info =>
      let dir :=
        if String.eqb version_name "Original" then models_dir else versions_dir in
      m <- joblib_load LoadModel (path_join dir (model_path version_info)) ;;
      s <- joblib_load LoadScaler (path_join dir (scaler_path version_info)) ;;
      ret (m, s)
  end.

(** The list [version_nums] of [_get_next_version_number]. *)
Definition version_num (version_name : string) : option Z :=
  if Py.startswith_V version_name then Py.int (Py.replace_V version_name)
  else None.

Definition version_nums (vs : dict version_info) : list Z :=
  omap version_num (dict_keys vs).

(** [max(l)] of a list that is not empty. *)
Definition py_max (x : Z) (l : list Z) : Z := fold_left Z.max l x.

Definition next_num (vs : dict version_info) : Z :=
  match version_nums vs with
  | [] => 1
  | x :: l => py_max x l + 1
  end.

Definition _get_next_version_number (w : world) : string :=
  "V" +:+ Py.str (next_num (versions (metadata w))).

(** The dictionary [_do_retrain] returns. *)
Record retrain_result := {
  r_success : bool;
  r_version : string;
  r_training_samples : Z;
  r_incremental_samples : Z;
  r_accuracy : float;
  r_cv_accuracy : float;
  r_cv_scores : list float;
  r_message : string
}.

Definition len {A} (l : list A) : Z := Z.of_nat (length l).

(** The row built from the request: [new_data.get(name, 0)] per feature. *)
Definition new_row (new_data : gmap string float) (actual_label : Z) : row :=
  {| ph := default 0%float (new_data !! "ph");
     Hardness := default 0%float (new_data !! "Hardness");
     Solids := default 0%float (new_data !! "Solids");
     Chloramines := default 0%float (new_data !! "Chloramines");
     Sulfate := default 0%float (new_data !! "Sulfate");
     Conductivity := default 0%float (new_data !! "Conductivity");
     Organic_carbon := default 0%float (new_data !! "Organic_carbon");
     Trihalomethanes := default 0%float (new_data !! "Trihalomethanes");
     Turbidity := default 0%float (new_data !! "Turbidity");
     Potability := actual_label |}.

Definition read_train_dataset : M (list row) :=
  library_call ReadBase ;;
  w <- get_world ;;
  match train_dataset w with
  | Some t => ret t
  | None =>
      raise (FileNotFoundError
               "[Errno 2] No such file or directory: 'Data-set/train_dataset.csv'")
  end.

(** [incremental_df.to_csv(self.training_data_file, index=False)]: the
    file is emptied, then the rows are written. *)
Definition to_csv (incremental_df : list row) : M unit :=
  fun e w =>
    match fault e WriteIncremental with
    | Some msg =>
        (set_training_data_file
           (left_by_write WriteIncremental
              (Some (take (written e) incremental_df)) (training_data_file w) e) w,
         Raises (LibraryError msg))
    | None => (set_training_data_file (Some incremental_df) w, Returns tt)
    end.

(** The body of the [try] of [_do_retrain].  Whether the fit accepts the
    frame is the library's: the frame built without an incremental table
    starts from an empty one whose columns have no numeric type. *)
Definition retrain_body (new_data : gmap string float) (actual_label : Z)
  : M retrain_result :=
  _ <- load_model_and_scaler None ;;
  w <- get_world ;;
  incremental_df <-
    match training_data_file w with
    | Some t => library_call ReadIncremental ;; ret t
    | None => ret []
    end ;;
  let incremental_df := incremental_df ++ [new_row new_data actual_label] in
  to_csv incremental_df ;;
  original_train <- read_train_dataset ;;
  let combined_df := original_train ++ incremental_df in
  e <- get_env ;;
  library_call FitScaler ;;
  let new_scaler := fitted_scaler e combined_df in
  library_call FitModel ;;
  let new_model := fitted_model e combined_df in
  library_call CrossValidate ;;
  library_call Score ;;
  w <- get_world ;;
  let new_version_name := _get_next_version_number w in
  let model_filename := "model_" +:+ new_version_name +:+ ".joblib" in
  let scaler_filename := "scaler_" +:+ new_version_name +:+ ".joblib" in
  joblib_dump DumpModel new_model (path_join versions_dir model_filename) ;;
  joblib_dump DumpScaler new_scaler (path_join versions_dir scaler_filename) ;;
  modify (fun w => set_metadata
            {| current_version := current_version (metadata w);
               versions :=
                 dict_set new_version_name
                   {| created_at := now e;
                      description :=
                        "Retrained with " +:+ Py.str (len incremental_df)
                        +:+ " additional sample(s)";
                      training_samples := len combined_df;
                      incremental_samples := Some (len incremental_df);
                      model_path := model_filename;
                      scaler_path := scaler_filename;
                      accuracy := Some (train_accuracy e combined_df);
                      cv_accuracy := Some (cv_mean e combined_df) |}
                   (versions (metadata w)) |} w) ;;
  modify (fun w => set_metadata
            {| current_version := new_version_name;
               versions := versions (metadata w) |} w) ;;
  _save_metadata ;;
  ret {| r_success := true;
         r_version := new_version_name;
         r_training_samples := len combined_df;
         r_incremental_samples := len incremental_df;
         r_accuracy := train_accuracy e combined_df;
         r_cv_accuracy := cv_mean e combined_df;
         r_cv_scores := cv_scores e combined_df;
         r_message :=
           "Model " +:+ new_version_name +:+ " trained successfully with "
           +:+ Py.str (len combined_df) +:+ " samples" |}.

Definition _do_retrain (new_data : gmap string float) (actual_label : Z)
  : M retrain_result :=
  try_except (retrain_body new_data actual_label)
    (fun e =>
       let error_str := Py.ascii_ignore (exn_str e) in
       raise (RuntimeError ("Retraining error: " +:+ error_str))).

(** [retrain_incremental] only silences the output streams around
    [_do_retrain]. *)
Definition retrain_incremental (new_data : gmap string float) (actual_label : Z)
  : M retrain_result :=
  _do_retrain new_data actual_label.

Definition path_exists (path : string) (w : world) : bool :=
  match joblib_files w !! path with Some _ => true | None => false end.

Definition unlink (s : stage) (path : string) : M unit :=
  library_call s ;;
  modify (fun w => set_joblib_files (delete path (joblib_files w)) w).

Definition delete_version (version_name : string) : M bool :=
  if String.eqb version_name "Original" then ret false
  else
    w <- get_world ;;
    if String.eqb version_name (current_version (metadata w)) then ret false
    else
      match dict_get version_name (versions (metadata w)) with
      | None => ret false
      | Some version_info =>
          let model_path := path_join versions_dir (model_path version_info) in
          let scaler_path := path_join versions_dir (scaler_path version_info) in
          (w <- get_world ;;
           if path_exists model_path w then unlink UnlinkModel model_path
           else ret tt) ;;
          (w <- get_world ;;
           if path_exists scaler_path w then unlink UnlinkScaler scaler_path
           else ret tt) ;;
          modify (fun w => set_metadata
                    {| current_version := current_version (metadata w);
                       versions := dict_del version_name (versions (metadata w)) |}
                    w) ;;
          _save_metadata ;;
          ret true
      end.

(** ** The prediction handler of [main.py] *)

Definition MODEL_PATH : string := "models/model.joblib".
Definition SCALER_PATH : string := "models/scaler.joblib".

(** The validated request body. *)
Module WaterQualityFeatures.
Record t := {
  ph : float;
  Hardness : float;
  Solids : float;
  Chloramines : float;
  Sulfate : float;
  Conductivity : float;
  Organic_carbon : float;
  Trihalomethanes : float;
  Turbidity : float
}.
End WaterQualityFeatures.

Record PredictionResponse := {
  potability : Z;
  potability_label : string;
  confidence : float
}.

Definition set_model (m : option pyobject) (w : world) : world :=
  set_globals m (scaler w) w.

Definition set_scaler (s : option pyobject) (w : world) : world :=
  set_globals (model w) s w.

Definition load_model : M unit :=
  try_except
    (w <- get_world ;;
     let current_version := get_current_version w in
     ms <- load_model_and_scaler (Some current_version) ;;
     modify (set_globals (Some (fst ms)) (Some (snd ms))))
    (fun _ =>
       w <- get_world ;;
       if negb (path_exists MODEL_PATH w) then
         raise (FileNotFoundError
                  ("Model file not found at " +:+ MODEL_PATH +:+
                   ". Please train the model first by running: dvc repro"))
       else
         m <- joblib_load LoadModel MODEL_PATH ;;
         modify (set_model (Some m)) ;;
         w <- get_world ;;
         if path_exists SCALER_PATH w then
           s <- joblib_load LoadScaler SCALER_PATH ;;
           modify (set_scaler (Some s))
         else ret tt).

(** [a[i]] on a one-dimensional array: a negative index counts from the
    end. *)
Definition py_index (a : list float) (i : Z) : outcome float :=
  let n := len a in
  let j := if i <? 0 then i + n else i in
  if (0 <=? j) && (j <? n) then
    match nth_error a (Z.to_nat j) with
    | Some x => Returns x
    | None => Raises (IndexError "index out of bounds")
    end
  else Raises (IndexError "index out of bounds").

Definition lift_outcome {A} (o : outcome A) : M A :=
  fun _ w => (w, o).

(** [obj.name(x)] for a method the object may lack. *)
Definition call_method {A B} (name : string) (meth : option (A -> outcome B)) (x : A)
  : M B :=
  match meth with
  | Some f => lift_outcome (f x)
  | None => raise (AttributeError ("object has no attribute '" +:+ name +:+ "'"))
  end.

(** The bounds the request model puts on the fields ([ge=0], and [le=14]
    for [ph]). *)
Definition valid_features (features : WaterQualityFeatures.t) : bool :=
  (0 <=? WaterQualityFeatures.ph features)%float
  && (WaterQualityFeatures.ph features <=? 14)%float
  && (0 <=? WaterQualityFeatures.Hardness features)%float
  && (0 <=? WaterQualityFeatures.Solids features)%float
  && (0 <=? WaterQualityFeatures.Chloramines features)%float
  && (0 <=? WaterQualityFeatures.Sulfate features)%float
  && (0 <=? WaterQualityFeatures.Conductivity features)%float
  && (0 <=? WaterQualityFeatures.Organic_carbon features)%float
  && (0 <=? WaterQualityFeatures.Trihalomethanes features)%float
  && (0 <=? WaterQualityFeatures.Turbidity features)%float.

(** The one-row array [np.array([[...]])] built from the request. *)
Definition input_array (features : WaterQualityFeatures.t) : list float :=
  [WaterQualityFeatures.ph features;
   WaterQualityFeatures.Hardness features;
   WaterQualityFeatures.Solids features;
   WaterQualityFeatures.Chloramines features;
   WaterQualityFeatures.Sulfate features;
   WaterQualityFeatures.Conductivity features;
   WaterQualityFeatures.Organic_carbon features;
   WaterQualityFeatures.Trihalomethanes features;
   WaterQualityFeatures.Turbidity features].

Definition predict (features : WaterQualityFeatures.t) : M PredictionResponse :=
  w <- get_world ;;
  (match model w with
   | None =>
       try_except load_model
         (fun e => raise (HTTPException 503 ("Model not available: " +:+ exn_str e)))
   | Some _ => ret tt
   end) ;;
  try_except
    (let input_data := input_array features in
     w <- get_world ;;
     input_data <-
       match scaler w with
       | Some s => call_method "transform" (transform_method s) input_data
       | None => ret input_data
       end ;;
     m <- match model w with
          | Some m => ret m
          | None => raise (AttributeError "'NoneType' object has no attribute 'predict'")
          end ;;
     prediction <- call_method "predict" (predict_method m) input_data ;;
     confidence <-
       match predict_proba_method m with
       | Some proba =>
           probabilities <- lift_outcome (proba input_data) ;;
           lift_outcome (py_index probabilities prediction)
       | None => ret 1%float
       end ;;
     let potability_label := if prediction =? 1 then "Potable" else "Not Potable" in
     ret {| potability := prediction;
            potability_label := potability_label;
            confidence := confidence |})
    (fun e => raise (HTTPException 500 ("Prediction failed: " +:+ exn_str e))).

(** ** Runs of the registry operations *)

Inductive op :=
| Bootstrap
| Switch (version_name : string)
| Retrain (new_data : gmap string float) (actual_label : Z)
| Delete (version_name : string).

Definition run_op (o : op) (e : env) (w : world) : world :=
  match o with
  | Bootstrap => fst (__init__ e w)
  | Switch n => fst (switch_version n e w)
  | Retrain d l => fst (retrain_incremental d l e w)
  | Delete n => fst (delete_version n e w)
  end.

(** Each operation runs in the environment it meets; an operation that
    raises leaves the state it reached. *)
Fixpoint run (ops : list (op * env)) (w : world) : world :=
  match ops with
  | [] => w
  | (o, e) :: r => run r (run_op o e w)
  end.

(** The registry names its current version among its versions. *)
Definition current_registered (r : registry) : Prop :=
  dict_contains (current_version r) (versions r) = true.

Definition registry_ok (w : world) : Prop :=
  current_registered (metadata w) /\
  match metadata_file w with
  | Some (Json r) => current_registered r
  | _ => True
  end.

(** ** The other handlers of [main.py] *)

(** [startup_event]: a failure to load is only printed. *)
Definition startup_event : M unit :=
  try_except load_model (fun _ => ret tt).

(** The response of [health_check]. *)
Record HealthResponse := {
  status : string;
  model_loaded : bool
}.

Definition health_check : M HealthResponse :=
  w <- get_world ;;
  ret {| status := "healthy";
         model_loaded := match model w with Some _ => true | None => false end |}.

(** One turn of the loop of [predict_batch]: the request is scaled,
    classified and given a confidence, as in the [try] of [predict]. *)
Definition predict_one (features : WaterQualityFeatures.t) : M PredictionResponse :=
  let input_data := input_array features in
  w <- get_world ;;
  input_data <-
    match scaler w with
    | Some s => call_method "transform" (transform_method s) input_data
    | None => ret input_data
    end ;;
  m <- match model w with
       | Some m => ret m
       | None => raise (AttributeError "'NoneType' object has no attribute 'predict'")
       end ;;
  prediction <- call_method "predict" (predict_method m) input_data ;;
  confidence <-
    match predict_proba_method m with
    | Some proba =>
        probabilities <- lift_outcome (proba input_data) ;;
        lift_outcome (py_index probabilities prediction)
    | None => ret 1%float
    end ;;
  let potability_label := if prediction =? 1 then "Potable" else "Not Potable" in
  ret {| potability := prediction;
         potability_label := potability_label;
         confidence := confidence |}.

(** The [for] loop of [predict_batch], [predictions] being the list
    appended to. *)
Fixpoint predict_loop (features_list : list WaterQualityFeatures.t)
    (predictions : list PredictionResponse) : M (list PredictionResponse) :=
  match features_list with
  | [] => ret predictions
  | features :: rest =>
      p <- predict_one features ;;
      predict_loop rest (predictions ++ [p])
  end.

Record BatchResponse := {
  predictions : list PredictionResponse;
  count : Z
}.

Definition predict_batch (features_list : list WaterQualityFeatures.t)
  : M BatchResponse :=
  w <- get_world ;;
  (match model w with
   | None =>
       try_except load_model
         (fun e => raise (HTTPException 503 ("Model not available: " +:+ exn_str e)))
   | Some _ => ret tt
   end) ;;
  try_except
    (predictions <- predict_loop features_list [] ;;
     ret {| predictions := predictions; count := len predictions |})
    (fun e => raise (HTTPException 500 ("Batch prediction failed: " +:+ exn_str e))).

(** The body of a [/retrain] request. *)
Record RetrainRequest := {
  water_quality : WaterQualityFeatures.t;
  actual_potability : Z
}.

Record RetrainResponse := {
  rr_success : bool;
  rr_version : string;
  rr_training_samples : Z;
  rr_incremental_samples : Z;
  rr_accuracy : float;
  rr_cv_accuracy : float;
  rr_message : string
}.

(** The dictionary [water_data] built from the request. *)
Definition water_data (q : WaterQualityFeatures.t) : gmap string float :=
  <["ph" := WaterQualityFeatures.ph q]>
  (<["Hardness" := WaterQualityFeatures.Hardness q]>
  (<["Solids" := WaterQualityFeatures.Solids q]>
  (<["Chloramines" := WaterQualityFeatures.Chloramines q]>
  (<["Sulfate" := WaterQualityFeatures.Sulfate q]>
  (<["Conductivity" := WaterQualityFeatures.Conductivity q]>
  (<["Organic_carbon" := WaterQualityFeatures.Organic_carbon q]>
  (<["Trihalomethanes" := WaterQualityFeatures.Trihalomethanes q]>
  (<["Turbidity" := WaterQualityFeatures.Turbidity q]> ∅)))))))).

Definition retrain_model (request : RetrainRequest) : M RetrainResponse :=
  try_except
    (let water_data := water_data (water_quality request) in
     result <- retrain_incremental water_data (actual_potability request) ;;
     load_model ;;
     ret {| rr_success := r_success result;
            rr_version := r_version result;
            rr_training_samples := r_training_samples result;
            rr_incremental_samples := r_incremental_samples result;
            rr_accuracy := r_accuracy result;
            rr_cv_accuracy := r_cv_accuracy result;
            rr_message := "Model " +:+ r_version result +:+ " trained successfully" |})
    (fun e =>
       let error_msg := Py.ascii_ignore (exn_str e) in
       raise (HTTPException 500 ("Retraining failed: " +:+ error_msg))).

Record VersionsResponse := {
  vr_current_version : string;
  vr_versions : list version_view;
  vr_total_versions : Z
}.

Definition list_model_versions : M VersionsResponse :=
  try_except
    (w <- get_world ;;
     let versions := list_versions w in
     let current_version := get_current_version w in
     ret {| vr_current_version := current_version;
            vr_versions := versions;
            vr_total_versions := len versions |})
    (fun e => raise (HTTPException 500 ("Failed to list versions: " +:+ exn_str e))).

Record SwitchResponse := {
  sr_success : bool;
  sr_message : string;
  sr_current_version : string
}.

(** [except HTTPException: raise], then [except Exception as e]. *)
Definition reraise_http {A} (prefix : string) (e : exn) : M A :=
  match e with
  | HTTPException _ _ => raise e
  | _ => raise (HTTPException 500 (prefix +:+ exn_str e))
  end.

Definition switch_model_version (request_version : string) : M SwitchResponse :=
  try_except
    (success <- switch_version request_version ;;
     (if negb success then
        raise (HTTPException 404 ("Version '" +:+ request_version +:+ "' not found"))
      else ret tt) ;;
     load_model ;;
     w <- get_world ;;
     ret {| sr_success := true;
            sr_message := "Switched to model version: " +:+ request_version;
            sr_current_version := get_current_version w |})
    (reraise_http "Failed to switch version: ").

Record CurrentModelResponse := {
  cm_version : string;
  cm_info : option version_view
}.

Definition get_current_model : M CurrentModelResponse :=
  try_except
    (w <- get_world ;;
     let current_version := get_current_version w in
     let versions := list_versions w in
     let current_info :=
       List.find (fun v => String.eqb (version v) current_version) versions in
     ret {| cm_version := current_version; cm_info := current_info |})
    (fun e => raise (HTTPException 500 ("Failed to get current model: " +:+ exn_str e))).

(** ** Vocabulary of the statements *)

(** A decimal digit. *)
Definition is_digit (d : Z) : Prop := 0 <= d <= 9.

(** The number a list of digits writes, after the digits already read. *)
Definition digits_value (ds : list Z) (acc : Z) : Z :=
  fold_left (fun a d => 10 * a + d) ds acc.

(** [<=] on pairs of integers. *)
Definition tuple_le (a b : Z * Z) : Prop := tuple_lt b a = false.

(** The order of two elements by their keys. *)
Definition key_le {A} (key : A -> Z * Z) (x y : A) : Prop :=
  tuple_le (key x) (key y).

(** The incremental table once the request is appended. *)
Definition appended_table (new_data : gmap string float) (actual_label : Z)
    (w : world) : list row :=
  default [] (training_data_file w) ++ [new_row new_data actual_label].

(** The append is reached and made: the current artifacts load, the
    incremental table is read and written. *)
Definition append_made (e : env) (w : world) : Prop :=
  (exists ms, load_model_and_scaler None e w = (w, Returns ms)) /\
  (training_data_file w <> None -> fault e ReadIncremental = None) /\
  fault e WriteIncremental = None.

(** No call raises. *)
Definition quiet (e : env) : Prop := forall s, fault e s = None.

(** A float between 0 and 1. *)
Definition probability (p : float) : Prop :=
  (0 <=? p)%float = true /\ (p <=? 1)%float = true.

(** The input the model sees: the request, through the scaler if any. *)
Definition model_input (w : world) (features : WaterQualityFeatures.t)
    (x : list float) : Prop :=
  match scaler w with
  | Some s =>
      exists t, transform_method s = Some t /\ t (input_array features) = Returns x
  | None => x = input_array features
  end.

(** The metadata file holds the registry the process has in memory. *)
Definition in_sync (w : world) : Prop :=
  metadata_file w = Some (Json (metadata w)).

(** A name the manager itself gives: ["Original"], or [V<n>] for a
    positive [n]. *)
Definition minted_name (name : string) : Prop :=
  name = "Original" \/ exists n, 1 <= n /\ name = "V" +:+ Py.str n.

(** The names of a registry the manager has built: distinct, among them
    ["Original"], each one given by the manager. *)
Definition names_ok (r : registry) : Prop :=
  NoDup (dict_keys (versions r)) /\
  "Original" ∈ dict_keys (versions r) /\
  Forall minted_name (dict_keys (versions r)).

(** ... in memory and in the metadata file. *)
Definition names_kept (w : world) : Prop :=
  names_ok (metadata w) /\
  match metadata_file w with
  | Some (Json r) => names_ok r
  | _ => True
  end.

(** The artifact names of the records the manager writes: those of
    ["Original"] apart, [model_<name>.joblib] and [scaler_<name>.joblib]. *)
Definition paths_ok (r : registry) : Prop :=
  Forall (fun kv =>
            fst kv = "Original" \/
            (model_path (snd kv) = "model_" +:+ fst kv +:+ ".joblib" /\
             scaler_path (snd kv) = "scaler_" +:+ fst kv +:+ ".joblib"))
    (versions r).

(** ... in memory and in the metadata file. *)
Definition paths_kept (w : world) : Prop :=
  paths_ok (metadata w) /\
  match metadata_file w with
  | Some (Json r) => paths_ok r
  | _ => True
  end.

(** The training table of a retrain: the base rows, then the incremental
    rows, the appended one last. *)
Definition combined_table (new_data : gmap string float) (actual_label : Z)
    (base : list row) (w : world) : list row :=
  base ++ appended_table new_data actual_label w.

(** The paths of the two files of a version. *)
Definition model_file (name : string) : string :=
  path_join versions_dir ("model_" +:+ name +:+ ".joblib").

Definition scaler_file (name : string) : string :=
  path_join versions_dir ("scaler_" +:+ name +:+ ".joblib").

(** The rows of the incremental table, none when there is no file. *)
Definition incremental_rows (w : world) : list row :=
  default [] (training_data_file w).

(** The write of the incremental table is not cut short: it returns, or
    raises before the file is opened. *)
Definition table_written_whole (e : env) : Prop :=
  fault e WriteIncremental = None \/ opened e WriteIncremental = false.

(** The retrains among the operations of a run. *)
Definition retrain_rows (ops : list (op * env)) : list row :=
  omap (fun oe => match fst oe with
                  | Retrain d l => Some (new_row d l)
                  | _ => None
                  end) ops.

(** The row a request carries: its nine features and its label. *)
Definition request_row (q : WaterQualityFeatures.t) (label : Z) : row :=
  {| ph := WaterQualityFeatures.ph q;
     Hardness := WaterQualityFeatures.Hardness q;
     Solids := WaterQualityFeatures.Solids q;
     Chloramines := WaterQualityFeatures.Chloramines q;
     Sulfate := WaterQualityFeatures.Sulfate q;
     Conductivity := WaterQualityFeatures.Conductivity q;
     Organic_carbon := WaterQualityFeatures.Organic_carbon q;
     Trihalomethanes := WaterQualityFeatures.Trihalomethanes q;
     Turbidity := WaterQualityFeatures.Turbidity q;
     Potability := label |}.

(** ** Sample environment and deployment *)

(** A classifier with a probability interface. *)
Definition sample_classifier : pyobject :=
  {| predict_method := Some (fun _ => Returns 1);
     predict_proba_method := Some (fun _ => Returns [0.25%float; 0.75%float]);
     transform_method := None |}.

(** A classifier without one. *)
Definition hard_classifier : pyobject :=
  {| predict_method := Some (fun _ => Returns 0);
     predict_proba_method := None;
     transform_method := None |}.

Definition sample_scaler : pyobject :=
  {| predict_method := None;
     predict_proba_method := None;
     transform_method := Some (fun x => Returns x) |}.

(** An environment in which no call raises. *)
Definition quiet_env : env :=
  {| now := "2024-01-01T00:00:00";
     fault := fun _ => None;
     opened := fun _ => true;
     written := 0%nat;
     garbled := "Expecting value: line 1 column 1 (char 0)";
     fitted_scaler := fun _ => sample_scaler;
     fitted_model := fun _ => sample_classifier;
     cv_scores := fun _ => [0.5%float; 0.75%float; 0.5%float; 0.75%float; 0.5%float];
     cv_mean := fun _ => 0.625%float;
     train_accuracy := fun _ => 0.875%float |}.

(** The same, except that the call at stage [s] raises [msg], a write
    after it has opened its file and before any row is written. *)
Definition failing_env (s : stage) (msg : string) : env :=
  {| now := now quiet_env;
     fault := fun s' => if decide (s' = s) then Some msg else None;
     opened := opened quiet_env;
     written := written quiet_env;
     garbled := garbled quiet_env;
     fitted_scaler := fitted_scaler quiet_env;
     fitted_model := fitted_model quiet_env;
     cv_scores := cv_scores quiet_env;
     cv_mean := cv_mean quiet_env;
     train_accuracy := train_accuracy quiet_env |}.

(** ... and one in which the write at stage [s] is refused before the
    file is opened. *)
Definition refusing_env (s : stage) (msg : string) : env :=
  {| now := now quiet_env;
     fault := fun s' => if decide (s' = s) then Some msg else None;
     opened := fun _ => false;
     written := written quiet_env;
     garbled := garbled quiet_env;
     fitted_scaler := fitted_scaler quiet_env;
     fitted_model := fitted_model quiet_env;
     cv_scores := cv_scores quiet_env;
     cv_mean := cv_mean quiet_env;
     train_accuracy := train_accuracy quiet_env |}.

Definition sample_row : row :=
  {| ph := 7%float; Hardness := 200%float; Solids := 20000%float;
     Chloramines := 7.5%float; Sulfate := 350%float; Conductivity := 400%float;
     Organic_carbon := 14%float; Trihalomethanes := 70%float;
     Turbidity := 4%float; Potability := 0 |}.

(** The request of the scenario: all nine features, label 1. *)
Definition sample_data : gmap string float :=
  <["ph" := 7%float]> (<["Hardness" := 200%float]> (<["Solids" := 20000%float]>
  (<["Chloramines" := 7.5%float]> (<["Sulfate" := 350%float]>
  (<["Conductivity" := 400%float]> (<["Organic_carbon" := 14%float]>
  (<["Trihalomethanes" := 70%float]> (<["Turbidity" := 4%float]> ∅)))))))).

(** A deployment before the first start: the base artifacts and a base
    table of 2293 rows, no metadata file, no incremental table. *)
Definition deployed : world :=
  {| metadata := {| current_version := ""; versions := [] |};
     metadata_file := None;
     training_data_file := None;
     train_dataset := Some (repeat sample_row 2293);
     joblib_files :=
       <[MODEL_PATH := sample_classifier]> (<[SCALER_PATH := sample_scaler]> ∅);
     model := None;
     scaler := None |}.

(** The process once the manager is constructed. *)
Definition started : world := fst (__init__ quiet_env deployed).

(** The first retrain of the deployment: the fit rejects the frame built
    without an incremental table, and the row of the request stays in the
    table. *)
Definition first_attempt : world :=
  fst (retrain_incremental sample_data 0
         (failing_env FitModel "Unknown label type: unknown") started).

(** ... and after one and two more retrains with the sample request. *)
Definition retrained : world :=
  fst (retrain_incremental sample_data 1 quiet_env first_attempt).

Definition retrained_twice : world :=
  fst (retrain_incremental sample_data 1 quiet_env retrained).

(** The registry after two retrains, the original version made current
    again. *)
Definition switched_back : world :=
  fst (switch_version "Original" quiet_env retrained_twice).

(** A message with a character above 127 in front. *)
Definition accented_message : string :=
  String (ascii_of_N 233) "chec de l'ajustement".

(** A registry read from a metadata file that names a version ["7"]. *)
Definition hand_edited : world :=
  let record name :=
    {| created_at := "2024-01-01T00:00:00"; description := name;
       training_samples := 2293; incremental_samples := None;
       model_path := "model_" +:+ name +:+ ".joblib";
       scaler_path := "scaler_" +:+ name +:+ ".joblib";
       accuracy := None; cv_accuracy := None |} in
  let r := {| current_version := "V9";
              versions := [("V9", record "V9"); ("7", record "7");
                           ("Original", record "Original")] |} in
  fst (__init__ quiet_env (set_metadata_file (Some (Json r)) deployed)).

(** The process once the handler has loaded the current model. *)
Definition serving : world := fst (load_model quiet_env retrained).

(** The same with a model that has no [predict_proba]. *)
Definition serving_hard : world := set_model (Some hard_classifier) serving.

Definition sample_features : WaterQualityFeatures.t :=
  {| WaterQualityFeatures.ph := 7%float;
     WaterQualityFeatures.Hardness := 200%float;
     WaterQualityFeatures.Solids := 20000%float;
     WaterQualityFeatures.Chloramines := 7.5%float;
     WaterQualityFeatures.Sulfate := 350%float;
     WaterQualityFeatures.Conductivity := 400%float;
     WaterQualityFeatures.Organic_carbon := 14%float;
     WaterQualityFeatures.Trihalomethanes := 70%float;
     WaterQualityFeatures.Turbidity := 4%float |}.

(** A scaler that checks its input as the scalers of the numeric library
    do: a value that is not finite is rejected. *)
Definition checking_scaler : pyobject :=
  {| predict_method := None;
     predict_proba_method := None;
     transform_method :=
       Some (fun x =>
               if forallb PrimFloat.is_finite x then Returns x
               else Raises (ValueError
                      "Input X contains infinity or a value too large for dtype('float64').")) |}.

(** The serving process with that scaler loaded. *)
Definition serving_checked : world := set_scaler (Some checking_scaler) serving.

(** A request within the bounds of the request model, none of which is
    an upper bound on [Solids]. *)
Definition unbounded_features : WaterQualityFeatures.t :=
  {| WaterQualityFeatures.ph := 7%float;
     WaterQualityFeatures.Hardness := 200%float;
     WaterQualityFeatures.Solids := infinity;
     WaterQualityFeatures.Chloramines := 7.5%float;
     WaterQualityFeatures.Sulfate := 350%float;
     WaterQualityFeatures.Conductivity := 400%float;
     WaterQualityFeatures.Organic_carbon := 14%float;
     WaterQualityFeatures.Trihalomethanes := 70%float;
     WaterQualityFeatures.Turbidity := 4%float |}.

(** The started process with the base model file removed. *)
Definition base_model_lost : world :=
  set_joblib_files (delete MODEL_PATH (joblib_files started)) started.

(** The serving process after the files of the current version are
    lost. *)
Definition files_lost : world :=
  set_joblib_files (delete (model_file "V1") (joblib_files serving)) serving.

(** * Properties *)

(** ** Decimal conversions *)

Section Decimal.

Lemma is_digit_cases d :
  is_digit d ->
  d = 0 \/ d = 1 \/ d = 2 \/ d = 3 \/ d = 4 \/ d = 5 \/ d = 6 \/ d = 7 \/ d = 8 \/ d = 9.
Proof. unfold is_digit. lia. Qed.

Ltac each_digit H :=
  apply is_digit_cases in H;
  repeat (destruct H as [H | H]; [subst; reflexivity |]); subst; reflexivity.

Lemma digit_val_char d : is_digit d -> Py.digit_val (Py.digit_char d) = Some d.
Proof. intros H. each_digit H. Qed.

Lemma digit_not_space d : is_digit d -> Py.is_space (Py.digit_char d) = false.
Proof. intros H. each_digit H. Qed.

Lemma digit_not_minus d : is_digit d -> Ascii.eqb (Py.digit_char d) "-" = false.
Proof. intros H. each_digit H. Qed.

Lemma digit_not_plus d : is_digit d -> Ascii.eqb (Py.digit_char d) "+" = false.
Proof. intros H. each_digit H. Qed.

Lemma digit_not_V d : is_digit d -> Ascii.eqb (Py.digit_char d) "V" = false.
Proof. intros H. each_digit H. Qed.

Lemma digits_value_snoc ds d acc :
  digits_value (ds ++ [d]) acc = 10 * digits_value ds acc + d.
Proof. unfold digits_value. now rewrite fold_left_app. Qed.

Lemma digits_of_spec fuel : forall n,
  0 <= n < 10 ^ (Z.of_nat fuel + 1) ->
  Forall is_digit (Py.digits_of fuel n) /\
  digits_value (Py.digits_of fuel n) 0 = n /\
  Py.digits_of fuel n <> [].
Proof.
  induction fuel as [| fuel IH]; intros n Hn.
  - change (10 ^ (Z.of_nat 0 + 1)) with 10 in Hn.
    cbn [Py.digits_of]. rewrite Z.mod_small by lia.
    split; [| split; [unfold digits_value; cbn [fold_left]; lia | discriminate]].
    constructor; [unfold is_digit; lia | constructor].
  - cbn [Py.digits_of]. destruct (Z.ltb_spec n 10) as [Hlt | Hge].
    + split; [| split; [unfold digits_value; cbn [fold_left]; lia | discriminate]].
      constructor; [unfold is_digit; lia | constructor].
    + assert (Hq : 0 <= n / 10 < 10 ^ (Z.of_nat fuel + 1)).
      { split; [apply Z.div_pos; lia |].
        apply Z.div_lt_upper_bound; [lia |].
        replace (Z.of_nat (S fuel) + 1) with (Z.succ (Z.of_nat fuel + 1)) in Hn by lia.
        rewrite Z.pow_succ_r in Hn by lia. lia. }
      destruct (IH _ Hq) as (Hd & Hv & Hne).
      split; [| split].
      * apply Forall_app. split; [exact Hd |].
        constructor; [| constructor].
        unfold is_digit. pose proof (Z.mod_pos_bound n 10). lia.
      * rewrite digits_value_snoc, Hv.
        pose proof (Z.div_mod n 10). lia.
      * intros Heq. apply app_eq_nil in Heq. destruct Heq; discriminate.
Qed.

Lemma log2_fuel n : 0 <= n -> 0 <= n < 10 ^ (Z.of_nat (Z.to_nat (Z.log2 n)) + 1).
Proof.
  intros Hn. split; [exact Hn |]. rewrite Z2Nat.id by apply Z.log2_nonneg.
  destruct (Z.eq_dec n 0) as [-> | Hnz]; [reflexivity |].
  pose proof (Z.log2_spec n ltac:(lia)) as [_ Hup].
  pose proof (Z.log2_nonneg n).
  eapply Z.lt_le_trans; [exact Hup |].
  replace (Z.succ (Z.log2 n)) with (Z.log2 n + 1) by lia.
  apply Z.pow_le_mono_l. lia.
Qed.

Lemma string_of_digits_cons d ds :
  Py.string_of_digits (d :: ds) = String (Py.digit_char d) (Py.string_of_digits ds).
Proof. reflexivity. Qed.

Lemma scan_digits_digits ds : forall acc,
  Forall is_digit ds ->
  Py.scan_digits (Py.string_of_digits ds) acc false = Some (digits_value ds acc).
Proof.
  induction ds as [| d ds IH]; intros acc Hds.
  - reflexivity.
  - inversion Hds as [| ? ? Hd Hrest]; subst.
    rewrite string_of_digits_cons. cbn [Py.scan_digits].
    rewrite (digit_val_char d Hd). apply IH, Hrest.
Qed.

Lemma replace_V_digits ds :
  Forall is_digit ds ->
  Py.replace_V (Py.string_of_digits ds) = Py.string_of_digits ds.
Proof.
  induction 1 as [| d ds Hd _ IH]; [reflexivity |].
  rewrite string_of_digits_cons. cbn [Py.replace_V].
  rewrite (digit_not_V d Hd). now rewrite IH.
Qed.

Lemma int_of_digits ds :
  Forall is_digit ds -> ds <> [] ->
  Py.int (Py.string_of_digits ds) = Some (digits_value ds 0).
Proof.
  intros Hds Hne. destruct ds as [| d ds]; [congruence |].
  inversion Hds as [| ? ? Hd Hrest]; subst.
  rewrite string_of_digits_cons. unfold Py.int. cbn [Py.skip_space].
  rewrite (digit_not_space d Hd), (digit_not_minus d Hd), (digit_not_plus d Hd).
  cbn [Py.parse_unsigned]. rewrite (digit_val_char d Hd).
  rewrite (scan_digits_digits ds d Hrest). reflexivity.
Qed.

Lemma parse_unsigned_digits ds :
  Forall is_digit ds -> ds <> [] ->
  Py.parse_unsigned (Py.string_of_digits ds) = Some (digits_value ds 0).
Proof.
  intros Hds Hne. destruct ds as [| d ds]; [congruence |].
  inversion Hds as [| ? ? Hd Hrest]; subst.
  rewrite string_of_digits_cons. cbn [Py.parse_unsigned].
  rewrite (digit_val_char d Hd), (scan_digits_digits ds d Hrest). reflexivity.
Qed.

(** [int(str(n)) == n] *)
Lemma int_str n : Py.int (Py.str n) = Some n.
Proof.
  unfold Py.str. destruct (Z.ltb_spec n 0) as [Hneg | Hpos].
  - destruct (digits_of_spec _ (- n) (log2_fuel (- n) ltac:(lia))) as (Hd & Hv & Hne).
    unfold Py.int. cbn [Py.skip_space].
    change (Py.is_space "-") with false. cbv iota.
    change (Ascii.eqb "-" "-") with true. cbv iota.
    unfold Py.str_nat. rewrite (parse_unsigned_digits _ Hd Hne), Hv.
    simpl. f_equal. lia.
  - destruct (digits_of_spec _ n (log2_fuel n Hpos)) as (Hd & Hv & Hne).
    unfold Py.str_nat. rewrite (int_of_digits _ Hd Hne), Hv. reflexivity.
Qed.

(** [str(n)] holds no ["V"]. *)
Lemma replace_V_str n : Py.replace_V (Py.str n) = Py.str n.
Proof.
  unfold Py.str. destruct (Z.ltb_spec n 0) as [Hneg | Hpos].
  - destruct (digits_of_spec _ (- n) (log2_fuel (- n) ltac:(lia))) as (Hd & _ & _).
    cbn [Py.replace_V]. change (Ascii.eqb "-" "V") with false. cbv iota.
    unfold Py.str_nat. now rewrite (replace_V_digits _ Hd).
  - destruct (digits_of_spec _ n (log2_fuel n Hpos)) as (Hd & _ & _).
    unfold Py.str_nat. apply replace_V_digits, Hd.
Qed.

End Decimal.

(** ** Dictionaries *)

Section Dict.
Context {V : Type}.
Implicit Types (d : dict V) (k : string) (v : V).

Lemma dict_contains_keys k d : dict_contains k d = true <-> k ∈ dict_keys d.
Proof.
  unfold dict_contains, dict_keys.
  induction d as [| [k' v'] d IH]; cbn [dict_get List.map fst].
  - split; [discriminate | intros H; inversion H].
  - destruct (String.eqb_spec k k') as [-> | Hne].
    + split; [intros _; constructor | reflexivity].
    + rewrite IH. split; [intros H; now constructor |].
      intros H. inversion H; subst; [congruence | assumption].
Qed.

Lemma dict_contains_false k d : dict_contains k d = false <-> k ∉ dict_keys d.
Proof.
  rewrite <- dict_contains_keys. destruct (dict_contains k d); split; congruence.
Qed.

Lemma dict_get_None k d : dict_get k d = None <-> k ∉ dict_keys d.
Proof.
  rewrite <- dict_contains_false. unfold dict_contains.
  destruct (dict_get k d); split; congruence.
Qed.

Lemma dict_get_Some_contains k d v : dict_get k d = Some v -> dict_contains k d = true.
Proof. unfold dict_contains. now intros ->. Qed.

Lemma dict_get_set k v d : dict_get k (dict_set k v d) = Some v.
Proof.
  induction d as [| [k' v'] d IH]; cbn [dict_set dict_get].
  - now rewrite String.eqb_refl.
  - destruct (String.eqb_spec k k') as [-> | Hne]; cbn [dict_get].
    + now rewrite String.eqb_refl.
    + destruct (String.eqb_spec k k'); [congruence | exact IH].
Qed.

Lemma dict_keys_set k k' v d :
  k' ∈ dict_keys (dict_set k v d) <-> k' = k \/ k' ∈ dict_keys d.
Proof.
  unfold dict_keys.
  induction d as [| [k0 v0] d IH]; cbn [dict_set List.map fst].
  - rewrite list_elem_of_singleton. split; [tauto |].
    intros [H | H]; [exact H | inversion H].
  - destruct (String.eqb_spec k k0) as [-> | Hne]; cbn [List.map fst].
    + rewrite elem_of_cons. tauto.
    + rewrite !elem_of_cons, IH. tauto.
Qed.

Lemma dict_set_fresh k v d : k ∉ dict_keys d -> dict_set k v d = d ++ [(k, v)].
Proof.
  unfold dict_keys.
  induction d as [| [k0 v0] d IH]; cbn [dict_set List.map fst app]; intros Hk.
  - reflexivity.
  - rewrite not_elem_of_cons in Hk. destruct Hk as [Hne Hk].
    destruct (String.eqb_spec k k0); [congruence |]. now rewrite IH.
Qed.

Lemma dict_keys_del k k' d :
  k' ∈ dict_keys (dict_del k d) <-> k' <> k /\ k' ∈ dict_keys d.
Proof.
  unfold dict_keys, dict_del.
  induction d as [| [k0 v0] d IH]; cbn [List.filter List.map fst].
  - split; [intros H; inversion H | intros [_ H]; inversion H].
  - destruct (String.eqb_spec k k0) as [-> | Hne]; cbn [negb List.map fst].
    + rewrite IH, elem_of_cons. split; [tauto |].
      intros [Hne [-> | H]]; [congruence | tauto].
    + rewrite !elem_of_cons, IH. split; [| tauto].
      intros [-> | H]; [split; [congruence | now left] | tauto].
Qed.

End Dict.

(** ** Version numbers *)

Lemma startswith_V_name s : Py.startswith_V ("V" +:+ s) = true.
Proof. reflexivity. Qed.

Lemma replace_V_name s : Py.replace_V ("V" +:+ s) = Py.replace_V s.
Proof. reflexivity. Qed.

(** The number of a name [V<n>] is [n]. *)
Lemma version_num_name n : version_num ("V" +:+ Py.str n) = Some n.
Proof.
  unfold version_num. rewrite startswith_V_name, replace_V_name, replace_V_str.
  apply int_str.
Qed.

Lemma name_injective n m : "V" +:+ Py.str n = "V" +:+ Py.str m -> n = m.
Proof.
  intros H. apply (f_equal version_num) in H.
  rewrite !version_num_name in H. congruence.
Qed.

Lemma py_max_le x l : x <= py_max x l.
Proof.
  unfold py_max. revert x. induction l as [| y l IH]; intros x; cbn [fold_left].
  - lia.
  - specialize (IH (Z.max x y)). lia.
Qed.

Lemma py_max_upper x l y : y ∈ x :: l -> y <= py_max x l.
Proof.
  unfold py_max. revert x. induction l as [| z l IH]; intros x Hy; cbn [fold_left].
  - apply list_elem_of_singleton in Hy. lia.
  - apply elem_of_cons in Hy. destruct Hy as [-> | Hy].
    + pose proof (py_max_le (Z.max x z) l) as H. unfold py_max in H. lia.
    + apply elem_of_cons in Hy. destruct Hy as [-> | Hy].
      * pose proof (py_max_le (Z.max x z) l) as H. unfold py_max in H. lia.
      * apply IH. now right.
Qed.

Lemma py_max_elem x l : py_max x l ∈ x :: l.
Proof.
  unfold py_max. revert x. induction l as [| z l IH]; intros x; cbn [fold_left].
  - left.
  - specialize (IH (Z.max x z)). apply elem_of_cons in IH.
    destruct IH as [-> | IH].
    + destruct (Z.max_spec x z) as [[_ ->] | [_ ->]]; [right; left | left].
    + right; now right.
Qed.

Lemma py_max_snoc x l y : py_max x (l ++ [y]) = Z.max (py_max x l) y.
Proof. unfold py_max. now rewrite fold_left_app. Qed.

Lemma next_num_above vs n : n ∈ version_nums vs -> n < next_num vs.
Proof.
  unfold next_num. destruct (version_nums vs) as [| x l]; intros Hn.
  - inversion Hn.
  - pose proof (py_max_upper x l n Hn). lia.
Qed.

Lemma version_nums_key vs n :
  "V" +:+ Py.str n ∈ dict_keys vs -> n ∈ version_nums vs.
Proof.
  intros Hk. unfold version_nums. apply list_elem_of_omap.
  exists ("V" +:+ Py.str n). split; [exact Hk | apply version_num_name].
Qed.

(** The minted name is not a key of the registry. *)
Lemma next_name_fresh vs :
  "V" +:+ Py.str (next_num vs) ∉ dict_keys vs.
Proof.
  intros Hk. apply version_nums_key, next_num_above in Hk. lia.
Qed.

Lemma version_nums_set_fresh vs name info :
  name ∉ dict_keys vs ->
  version_nums (dict_set name info vs) =
  version_nums vs ++ from_option (fun n => [n]) [] (version_num name).
Proof.
  intros Hk. rewrite (dict_set_fresh _ _ _ Hk).
  unfold version_nums, dict_keys. rewrite List.map_app, omap_app.
  cbn [List.map omap fst list_omap]. now destruct (version_num name).
Qed.

(** Once the minted name is registered, the next number is one more. *)
Lemma next_num_after_mint vs info :
  next_num (dict_set ("V" +:+ Py.str (next_num vs)) info vs) = next_num vs + 1.
Proof.
  pose proof (next_name_fresh vs) as Hfresh.
  pose proof (next_num_above vs) as Habove.
  unfold next_num at 1.
  rewrite (version_nums_set_fresh _ _ _ Hfresh), version_num_name.
  cbn [from_option].
  destruct (version_nums vs) as [| x l] eqn:Hnums; cbn [app].
  - unfold py_max. cbn [fold_left]. reflexivity.
  - rewrite py_max_snoc.
    assert (py_max x l < next_num vs) by (apply Habove, py_max_elem).
    lia.
Qed.

(** ** Running the methods *)

(** The fields of an updated state. *)
Ltac world_simpl :=
  cbn [metadata metadata_file training_data_file train_dataset joblib_files
       model scaler set_metadata set_metadata_file set_training_data_file
       set_joblib_files set_globals set_model set_scaler fst snd
       current_version versions from_option id] in *.

(** Unfolds the sequencing of a method. *)
Ltac run_unfold :=
  unfold _save_metadata, to_csv, joblib_load, joblib_dump, read_train_dataset,
    unlink, library_call, bind, ret, raise, get_world, get_env, modify,
    try_except, lift_outcome in *.

(** Follows the call at stage [s] of the method in the goal: the call
    raises or returns according to the case. *)
Ltac run_stage s :=
  match goal with
  | |- context [fault ?e s] =>
      let F := fresh "Hfault" in
      destruct (fault e s) eqn:F; cbv beta iota zeta; world_simpl
  end.

(** Follows what a write that raises leaves: the file cut short, or the
    file as it was. *)
Ltac run_cut :=
  unfold left_by_write in *;
  repeat match goal with
         | |- context [opened ?e ?s] => destruct (opened e s)
         end.

(** Follows the look-up of a file the method in the goal makes. *)
Ltac run_lookup :=
  match goal with
  | |- context [match ?files !! ?p with Some _ => _ | None => _ end] =>
      let F := fresh "Hlookup" in
      destruct (files !! p) eqn:F; cbv beta iota zeta; world_simpl
  end.

Lemma switch_version_unknown name e w :
  dict_contains name (versions (metadata w)) = false ->
  switch_version name e w = (w, Returns false).
Proof.
  intros H. unfold switch_version. run_unfold. now rewrite H.
Qed.

Lemma switch_version_known name e w :
  dict_contains name (versions (metadata w)) = true ->
  fault e SaveMetadata = None ->
  switch_version name e w =
  (let r := {| current_version := name; versions := versions (metadata w) |} in
   set_metadata_file (Some (Json r)) (set_metadata r w), Returns true).
Proof.
  intros H Hf. unfold switch_version. run_unfold. rewrite H. cbn [negb]. world_simpl.
  rewrite Hf. reflexivity.
Qed.

(** ** [switch_version] *)

(** C6: [switch_version] returns false and leaves the state, hence
    [get_current_version], as it was when the name is not a key of the
    registry; for a key of the registry (the metadata file being written)
    it returns true, makes the name the current version, writes the
    registry to the metadata file, and [get_current_version] then returns
    the name. *)
Theorem switch_version_spec (version_name : string) (e : env) (w : world) :
  (dict_contains version_name (versions (metadata w)) = false ->
   switch_version version_name e w = (w, Returns false)) /\
  (dict_contains version_name (versions (metadata w)) = true ->
   fault e SaveMetadata = None ->
   exists w',
     switch_version version_name e w = (w', Returns true) /\
     current_version (metadata w') = version_name /\
     versions (metadata w') = versions (metadata w) /\
     metadata_file w' = Some (Json (metadata w')) /\
     get_current_version w' = version_name).
Proof.
  split.
  - apply switch_version_unknown.
  - intros Hin Hsave. eexists. split.
    + apply switch_version_known; assumption.
    + repeat split.
Qed.

Lemma switch_version_spec_witness :
  switch_version "does-not-exist" quiet_env retrained = (retrained, Returns false) /\
  exists w',
    switch_version "Original" quiet_env retrained = (w', Returns true) /\
    get_current_version retrained = "V1" /\
    get_current_version w' = "Original".
Proof.
  pose proof (switch_version_spec "does-not-exist" quiet_env retrained) as [Hno _].
  pose proof (switch_version_spec "Original" quiet_env retrained) as [_ Hyes].
  split; [apply Hno; vm_compute; reflexivity |].
  destruct Hyes as (w' & Hrun & Hcur & _ & _ & Hget);
    [vm_compute; reflexivity | reflexivity |].
  exists w'. split; [exact Hrun |]. split; [vm_compute; reflexivity | exact Hget].
Defined.

(** ** Sorting *)

Section Sorting.
Context {A : Type} (key : A -> Z * Z).

Lemma tuple_lt_irrefl a : tuple_lt a a = false.
Proof. unfold tuple_lt. destruct a as [a1 a2]. cbn [fst snd]. lia. Qed.

Lemma tuple_le_trans a b c : tuple_le a b -> tuple_le b c -> tuple_le a c.
Proof.
  unfold tuple_le, tuple_lt. destruct a, b, c. cbn [fst snd]. lia.
Qed.

Lemma tuple_lt_le a b : tuple_lt a b = true -> tuple_le a b.
Proof. unfold tuple_le, tuple_lt. destruct a, b. cbn [fst snd]. lia. Qed.

Lemma sort_insert_perm x l : sort_insert key x l ≡ₚ x :: l.
Proof.
  induction l as [| y l IH]; cbn [sort_insert]; [reflexivity |].
  destruct (tuple_lt (key y) (key x)); [| reflexivity].
  rewrite IH. apply Permutation_swap.
Qed.

Lemma py_sort_perm l : py_sort key l ≡ₚ l.
Proof.
  induction l as [| x l IH]; cbn [py_sort]; [reflexivity |].
  rewrite sort_insert_perm. now rewrite IH.
Qed.

Lemma py_sort_elem x l : x ∈ py_sort key l <-> x ∈ l.
Proof. now rewrite py_sort_perm. Qed.

Lemma sort_insert_sorted x l :
  StronglySorted (key_le key) l -> StronglySorted (key_le key) (sort_insert key x l).
Proof.
  induction 1 as [| y l Hl IH Hy]; cbn [sort_insert].
  - repeat constructor.
  - destruct (tuple_lt (key y) (key x)) eqn:Hlt.
    + constructor; [exact IH |].
      rewrite Forall_forall. intros z Hz.
      rewrite sort_insert_perm, elem_of_cons in Hz.
      destruct Hz as [-> | Hz].
      * apply tuple_lt_le, Hlt.
      * rewrite Forall_forall in Hy. now apply Hy.
    + constructor; [now constructor |].
      constructor; [exact Hlt |].
      rewrite Forall_forall in Hy |- *. intros z Hz.
      eapply tuple_le_trans; [exact Hlt | now apply Hy].
Qed.

Lemma py_sort_sorted l : StronglySorted (key_le key) (py_sort key l).
Proof.
  induction l as [| x l IH]; cbn [py_sort]; [constructor |].
  now apply sort_insert_sorted.
Qed.

(** Stability: the elements of one key keep their order. *)
Lemma sort_insert_stable (k : Z * Z) x l :
  StronglySorted (key_le key) l ->
  List.filter (fun y => bool_decide (key y = k)) (sort_insert key x l) =
  List.filter (fun y => bool_decide (key y = k)) (x :: l).
Proof.
  induction 1 as [| y l Hl IH Hy]; cbn [sort_insert]; [reflexivity |].
  destruct (tuple_lt (key y) (key x)) eqn:Hlt; [| reflexivity].
  cbn [List.filter] in *. rewrite IH.
  destruct (bool_decide_reflect (key x = k)) as [Hx | Hx];
    destruct (bool_decide_reflect (key y = k)) as [Hyk | Hyk]; try reflexivity.
  rewrite Hx, Hyk, tuple_lt_irrefl in Hlt. discriminate.
Qed.

Lemma py_sort_stable (k : Z * Z) l :
  List.filter (fun y => bool_decide (key y = k)) (py_sort key l) =
  List.filter (fun y => bool_decide (key y = k)) l.
Proof.
  induction l as [| x l IH]; cbn [py_sort]; [reflexivity |].
  rewrite sort_insert_stable by apply py_sort_sorted.
  cbn [List.filter]. now rewrite IH.
Qed.

End Sorting.

Lemma list_versions_names w :
  List.map version (list_versions w) ≡ₚ dict_keys (versions (metadata w)).
Proof.
  unfold list_versions, dict_keys. rewrite py_sort_perm, List.map_map.
  reflexivity.
Qed.

Lemma list_versions_name w name :
  name ∈ List.map version (list_versions w) <->
  dict_contains name (versions (metadata w)) = true.
Proof. now rewrite list_versions_names, dict_contains_keys. Qed.

(** ** [delete_version] *)

Lemma delete_version_original e w :
  delete_version "Original" e w = (w, Returns false).
Proof. reflexivity. Qed.

Lemma delete_version_current e w :
  delete_version (current_version (metadata w)) e w = (w, Returns false).
Proof.
  unfold delete_version. destruct (String.eqb _ "Original"); [reflexivity |].
  run_unfold. now rewrite String.eqb_refl.
Qed.

Lemma delete_version_unknown name e w :
  dict_contains name (versions (metadata w)) = false ->
  delete_version name e w = (w, Returns false).
Proof.
  unfold dict_contains. intros H.
  unfold delete_version. destruct (String.eqb name "Original"); [reflexivity |].
  run_unfold. destruct (String.eqb name _); [reflexivity |].
  destruct (dict_get name _); [discriminate | reflexivity].
Qed.

Lemma delete_version_removes name info e w :
  name <> "Original" ->
  name <> current_version (metadata w) ->
  dict_get name (versions (metadata w)) = Some info ->
  fault e UnlinkModel = None -> fault e UnlinkScaler = None ->
  fault e SaveMetadata = None ->
  exists w',
    delete_version name e w = (w', Returns true) /\
    joblib_files w' !! path_join versions_dir (model_path info) = None /\
    joblib_files w' !! path_join versions_dir (scaler_path info) = None /\
    metadata w' =
      {| current_version := current_version (metadata w);
         versions := dict_del name (versions (metadata w)) |} /\
    metadata_file w' = Some (Json (metadata w')).
Proof.
  intros Hno Hnc Hget Hum Hus Hsave. unfold delete_version.
  destruct (String.eqb_spec name "Original"); [congruence |].
  run_unfold. destruct (String.eqb_spec name (current_version (metadata w)));
    [congruence |].
  rewrite Hget. unfold path_exists. cbv beta iota zeta.
  set (mp := path_join versions_dir (model_path info)).
  set (sp := path_join versions_dir (scaler_path info)).
  destruct (joblib_files w !! mp) eqn:Hm; rewrite ?Hum; world_simpl.
  - destruct (delete mp (joblib_files w) !! sp) eqn:Hs; rewrite ?Hus, Hsave;
      world_simpl; eexists; (split; [reflexivity |]); world_simpl.
    + rewrite lookup_delete_eq, lookup_delete.
      case_decide; [| rewrite lookup_delete_eq]; auto.
    + rewrite lookup_delete_eq. auto.
  - destruct (joblib_files w !! sp) eqn:Hs; rewrite ?Hus, Hsave;
      world_simpl; eexists; (split; [reflexivity |]); world_simpl.
    + rewrite lookup_delete_eq, lookup_delete. case_decide; auto.
    + auto.
Qed.

(** C5: [delete_version] returns false for ["Original"], for the current
    version and for a name that is not in the registry, and leaves the
    state; for a registered name that is neither (the file-system calls
    not raising) it returns true, no file is left at either artifact path,
    the entry is removed so that the name is no longer in
    [list_versions], and the registry is written to the metadata file. *)
Theorem delete_version_spec (version_name : string) (e : env) (w : world) :
  ((version_name = "Original" \/
    version_name = current_version (metadata w) \/
    dict_contains version_name (versions (metadata w)) = false) ->
   delete_version version_name e w = (w, Returns false)) /\
  (forall info,
   version_name <> "Original" ->
   version_name <> current_version (metadata w) ->
   dict_get version_name (versions (metadata w)) = Some info ->
   fault e UnlinkModel = None -> fault e UnlinkScaler = None ->
   fault e SaveMetadata = None ->
   exists w',
     delete_version version_name e w = (w', Returns true) /\
     joblib_files w' !! path_join versions_dir (model_path info) = None /\
     joblib_files w' !! path_join versions_dir (scaler_path info) = None /\
     versions (metadata w') = dict_del version_name (versions (metadata w)) /\
     current_version (metadata w') = current_version (metadata w) /\
     (version_name ∉ List.map version (list_versions w')) /\
     (forall other, other <> version_name ->
        (other ∈ List.map version (list_versions w') <->
         other ∈ List.map version (list_versions w))) /\
     metadata_file w' = Some (Json (metadata w'))).
Proof.
  split.
  - intros [-> | [-> | H]].
    + apply delete_version_original.
    + apply delete_version_current.
    + now apply delete_version_unknown.
  - intros info Hno Hnc Hget Hum Hus Hsave.
    destruct (delete_version_removes _ _ e w Hno Hnc Hget Hum Hus Hsave)
      as (w' & Hrun & Hm & Hs & Hmeta & Hfile).
    exists w'. rewrite !list_versions_names, Hmeta. cbn [versions current_version].
    split; [exact Hrun |]. split; [exact Hm |]. split; [exact Hs |].
    split; [reflexivity |]. split; [reflexivity |].
    split; [rewrite dict_keys_del; tauto |].
    split; [intros other Hother;
            rewrite !list_versions_names, Hmeta; cbn [versions];
            rewrite dict_keys_del; tauto |].
    now rewrite <- Hmeta.
Qed.

Lemma delete_version_spec_witness :
  delete_version "Original" quiet_env switched_back = (switched_back, Returns false) /\
  delete_version "V9" quiet_env switched_back = (switched_back, Returns false) /\
  exists w',
    delete_version "V1" quiet_env switched_back = (w', Returns true) /\
    List.map version (list_versions switched_back) = ["Original"; "V1"; "V2"] /\
    "V1" ∉ List.map version (list_versions w').
Proof.
  pose proof (delete_version_spec "Original" quiet_env switched_back) as [H1 _].
  pose proof (delete_version_spec "V9" quiet_env switched_back) as [H2 _].
  pose proof (delete_version_spec "V1" quiet_env switched_back) as [_ H3].
  split; [apply H1; now left |].
  split; [apply H2; right; right; vm_compute; reflexivity |].
  edestruct H3 as (w' & Hrun & _ & _ & _ & _ & Hgone & _);
    [discriminate | vm_compute; discriminate | vm_compute; reflexivity
    | reflexivity | reflexivity | reflexivity |].
  exists w'. split; [exact Hrun |]. split; [vm_compute; reflexivity | exact Hgone].
Defined.

(** ** [load_model_and_scaler] *)

(** Loading leaves the state as it is, whatever the outcome. *)
Lemma load_model_and_scaler_state v e w w' o :
  load_model_and_scaler v e w = (w', o) -> w' = w.
Proof.
  unfold load_model_and_scaler. run_unfold. world_simpl.
  destruct (dict_get _ _) as [info |]; [| congruence].
  run_stage LoadModel; [congruence |].
  run_lookup; [| congruence].
  run_stage LoadScaler; [congruence |].
  run_lookup; congruence.
Qed.

Lemma load_model_and_scaler_unknown name e w :
  dict_contains name (versions (metadata w)) = false ->
  load_model_and_scaler (Some name) e w =
  (w, Raises (ValueError ("Version " +:+ name +:+ " not found"))).
Proof.
  unfold dict_contains, load_model_and_scaler. run_unfold. world_simpl.
  now destruct (dict_get name _).
Qed.

Lemma load_model_and_scaler_returns name e w w' m s :
  load_model_and_scaler (Some name) e w = (w', Returns (m, s)) ->
  exists info,
    dict_get name (versions (metadata w)) = Some info /\
    let dir := if String.eqb name "Original" then models_dir else versions_dir in
    joblib_files w !! path_join dir (model_path info) = Some m /\
    joblib_files w !! path_join dir (scaler_path info) = Some s.
Proof.
  unfold load_model_and_scaler. run_unfold. world_simpl.
  destruct (dict_get name _) as [info |]; [| discriminate].
  run_stage LoadModel; [discriminate |].
  run_lookup; [| discriminate].
  run_stage LoadScaler; [discriminate |].
  run_lookup; [| discriminate].
  intros [= <- <- <-]. exists info. auto.
Qed.

Lemma load_model_and_scaler_found name info m s e w :
  dict_get name (versions (metadata w)) = Some info ->
  fault e LoadModel = None -> fault e LoadScaler = None ->
  (let dir := if String.eqb name "Original" then models_dir else versions_dir in
   joblib_files w !! path_join dir (model_path info) = Some m /\
   joblib_files w !! path_join dir (scaler_path info) = Some s) ->
  load_model_and_scaler (Some name) e w = (w, Returns (m, s)).
Proof.
  cbv zeta. intros Hget Hfm Hfs [Hm Hs].
  unfold load_model_and_scaler. run_unfold. world_simpl.
  now rewrite Hget, Hfm, Hm, Hfs, Hs.
Qed.

(** C9: [load_model_and_scaler] raises for a name that is not in the
    registry; when it returns, the model and the scaler are the files at
    the record's paths under the models directory for ["Original"] and
    under the versions directory for every other name, and it does return
    when those files are there and the loads do not raise. *)
Theorem load_model_and_scaler_spec (version_name : string) (e : env) (w : world) :
  (dict_contains version_name (versions (metadata w)) = false ->
   exists msg,
     load_model_and_scaler (Some version_name) e w = (w, Raises (ValueError msg))) /\
  (forall w' m s,
   load_model_and_scaler (Some version_name) e w = (w', Returns (m, s)) ->
   exists info,
     dict_get version_name (versions (metadata w)) = Some info /\
     (version_name = "Original" ->
      joblib_files w !! path_join models_dir (model_path info) = Some m /\
      joblib_files w !! path_join models_dir (scaler_path info) = Some s) /\
     (version_name <> "Original" ->
      joblib_files w !! path_join versions_dir (model_path info) = Some m /\
      joblib_files w !! path_join versions_dir (scaler_path info) = Some s)) /\
  (forall info m s,
   dict_get version_name (versions (metadata w)) = Some info ->
   fault e LoadModel = None -> fault e LoadScaler = None ->
   (if String.eqb version_name "Original"
    then joblib_files w !! path_join models_dir (model_path info) = Some m /\
         joblib_files w !! path_join models_dir (scaler_path info) = Some s
    else joblib_files w !! path_join versions_dir (model_path info) = Some m /\
         joblib_files w !! path_join versions_dir (scaler_path info) = Some s) ->
   load_model_and_scaler (Some version_name) e w = (w, Returns (m, s))) /\
  versions_dir = path_join models_dir "versions".
Proof.
  split; [| split; [| split; [| reflexivity]]].
  - intros H. eexists. now apply load_model_and_scaler_unknown.
  - intros w' m s H.
    destruct (load_model_and_scaler_returns _ _ _ _ _ _ H) as (info & Hget & Hm & Hs).
    exists info. split; [exact Hget |].
    destruct (String.eqb_spec version_name "Original"); split; intros; try congruence;
      now split.
  - intros info m s Hget Hfm Hfs Hfiles.
    apply (load_model_and_scaler_found _ info); try assumption.
    cbv zeta. now destruct (String.eqb version_name "Original").
Qed.

Lemma load_model_and_scaler_spec_witness :
  (exists msg, load_model_and_scaler (Some "V7") quiet_env retrained =
               (retrained, Raises (ValueError msg))) /\
  load_model_and_scaler (Some "Original") quiet_env retrained =
    (retrained, Returns (sample_classifier, sample_scaler)) /\
  joblib_files retrained !! "models/versions/model_V1.joblib" = Some sample_classifier /\
  load_model_and_scaler (Some "V1") quiet_env retrained =
    (retrained, Returns (sample_classifier, sample_scaler)).
Proof.
  pose proof (load_model_and_scaler_spec "V7" quiet_env retrained) as (H1 & _).
  pose proof (load_model_and_scaler_spec "Original" quiet_env retrained) as (_ & _ & H2 & _).
  pose proof (load_model_and_scaler_spec "V1" quiet_env retrained) as (_ & _ & H3 & _).
  split; [apply H1; vm_compute; reflexivity |].
  split; [eapply H2; [vm_compute; reflexivity | reflexivity | reflexivity
                     | split; vm_compute; reflexivity] |].
  split; [vm_compute; reflexivity |].
  eapply H3; [vm_compute; reflexivity | reflexivity | reflexivity
             | split; vm_compute; reflexivity].
Defined.

(** ** [_do_retrain] *)

(** Walks through the body of the [try], stage by stage; [close] ends the
    cases in which a stage raises. *)
Ltac retrain_walk close :=
  unfold retrain_body; run_unfold;
  match goal with
  | |- context [load_model_and_scaler None ?e ?w] =>
      let H := fresh "Hload" in
      let w1 := fresh "w1" in
      destruct (load_model_and_scaler None e w) as [w1 [? | ?]] eqn:H;
      pose proof (load_model_and_scaler_state _ _ _ _ _ H); subst w1;
      cbv beta iota zeta; [| close]
  end;
  match goal with
  | |- context [match training_data_file ?w with Some _ => _ | None => _ end] =>
      let H := fresh "Htable" in
      destruct (training_data_file w) eqn:H;
      [run_stage ReadIncremental; [close |] |]
  end;
  (run_stage WriteIncremental; [close |]);
  (run_stage ReadBase; [close |]);
  match goal with
  | |- context [match train_dataset ?w with Some _ => _ | None => _ end] =>
      let H := fresh "Hbase" in
      destruct (train_dataset w) eqn:H; cbv beta iota zeta; world_simpl; [| close]
  end;
  (run_stage FitScaler; [close |]);
  (run_stage FitModel; [close |]);
  (run_stage CrossValidate; [close |]);
  (run_stage Score; [close |]);
  (run_stage DumpModel; [close |]);
  (run_stage DumpScaler; [close |]);
  run_stage SaveMetadata.

(** What a retrain that returns has done. *)
Lemma retrain_body_returns d l e w w' r :
  retrain_body d l e w = (w', Returns r) ->
  exists base info,
    let name := _get_next_version_number w in
    train_dataset w = Some base /\
    r_version r = name /\
    r_training_samples r = len (base ++ appended_table d l w) /\
    r_incremental_samples r = len (appended_table d l w) /\
    training_samples info = len (base ++ appended_table d l w) /\
    incremental_samples info = Some (len (appended_table d l w)) /\
    model_path info = "model_" +:+ name +:+ ".joblib" /\
    scaler_path info = "scaler_" +:+ name +:+ ".joblib" /\
    metadata w' =
      {| current_version := name;
         versions := dict_set name info (versions (metadata w)) |} /\
    metadata_file w' = Some (Json (metadata w')) /\
    training_data_file w' = Some (appended_table d l w).
Proof.
  unfold appended_table, _get_next_version_number.
  retrain_walk ltac:(discriminate).
  all: try discriminate.
  all: intros [= <- <-]; world_simpl; do 2 eexists; cbv zeta;
    repeat split; reflexivity.
Qed.

(** What a retrain that raises has done. *)
Lemma retrain_body_raises d l e w w' x :
  retrain_body d l e w = (w', Raises x) ->
  ((metadata w' = metadata w /\ metadata_file w' = metadata_file w) \/
   exists msg info,
     fault e SaveMetadata = Some msg /\ x = LibraryError msg /\
     metadata w' =
       {| current_version := _get_next_version_number w;
          versions := dict_set (_get_next_version_number w) info
                        (versions (metadata w)) |} /\
     metadata_file w' =
       left_by_write SaveMetadata (Some Truncated) (metadata_file w) e /\
     model_path info = "model_" +:+ _get_next_version_number w +:+ ".joblib" /\
     scaler_path info = "scaler_" +:+ _get_next_version_number w +:+ ".joblib") /\
  (training_data_file w' = training_data_file w \/
   training_data_file w' = Some (appended_table d l w) \/
   exists msg,
     fault e WriteIncremental = Some msg /\ x = LibraryError msg /\
     training_data_file w' =
       left_by_write WriteIncremental
         (Some (take (written e) (appended_table d l w))) (training_data_file w) e) /\
  (append_made e w -> training_data_file w' = Some (appended_table d l w)).
Proof.
  unfold appended_table, append_made, _get_next_version_number.
  retrain_walk ltac:(
    intros [= <- <-]; world_simpl;
    split; [left; split; reflexivity |];
    split; [first [left; reflexivity | left; assumption
                  | right; left; reflexivity | right; right; rewrite ?Htable; eauto] |];
    intros ([? ?] & Hread & ?);
    first [reflexivity | congruence
          | specialize (Hread ltac:(congruence)); congruence]).
  all: try discriminate.
  all: intros [= <- <-]; world_simpl.
  all: split; [right; do 2 eexists; repeat split; reflexivity |].
  all: split; [right; left; reflexivity | reflexivity].
Qed.

(** A retrain returns when no call raises, the current artifacts load and
    the base table is there, whatever the request. *)
Lemma retrain_body_succeeds d l e w :
  quiet e ->
  (exists ms, load_model_and_scaler None e w = (w, Returns ms)) ->
  train_dataset w <> None ->
  exists w' r, retrain_body d l e w = (w', Returns r).
Proof.
  intros Hq [ms Hload] Hbase.
  unfold retrain_body. run_unfold. rewrite Hload. cbv beta iota zeta.
  destruct (train_dataset w) eqn:Hb; [| congruence].
  destruct (training_data_file w);
    repeat (first [rewrite Hq | rewrite Hb]; cbv beta iota zeta; world_simpl);
    eauto.
Qed.

Lemma _do_retrain_returns d l e w w' r :
  _do_retrain d l e w = (w', Returns r) <->
  retrain_body d l e w = (w', Returns r).
Proof.
  unfold _do_retrain, try_except, raise.
  destruct (retrain_body d l e w) as [w1 [r1 | x1]]; split; congruence.
Qed.

Lemma _do_retrain_raises d l e w w' x :
  _do_retrain d l e w = (w', Raises x) <->
  exists x0,
    retrain_body d l e w = (w', Raises x0) /\
    x = RuntimeError ("Retraining error: " +:+ Py.ascii_ignore (exn_str x0)).
Proof.
  unfold _do_retrain, try_except, raise.
  destruct (retrain_body d l e w) as [w1 [r1 | x1]]; split.
  - discriminate.
  - intros (x0 & H & _). discriminate.
  - intros [= <- <-]. eauto.
  - intros (x0 & [= <- <-] & ->). reflexivity.
Qed.

Lemma is_ascii_app a b :
  Py.is_ascii (a +:+ b) = Py.is_ascii a && Py.is_ascii b.
Proof.
  induction a as [| c a IH]; [reflexivity |].
  change (String c a +:+ b) with (String c (a +:+ b)).
  cbn [Py.is_ascii]. rewrite IH. now rewrite andb_assoc.
Qed.

Lemma is_ascii_ascii_ignore s : Py.is_ascii (Py.ascii_ignore s) = true.
Proof.
  induction s as [| c s IH]; [reflexivity |].
  cbn [Py.ascii_ignore]. destruct (N_of_ascii c <? 128)%N eqn:Hc; [| exact IH].
  cbn [Py.is_ascii]. now rewrite Hc, IH.
Qed.

Lemma len_app {A} (l1 l2 : list A) : len (l1 ++ l2) = len l1 + len l2.
Proof. unfold len. rewrite length_app. lia. Qed.

(** C1: after a retrain that returns, the name [V<k>] it returns is a new
    name that appears in [list_versions], [get_current_version] returns
    it, and the [training_samples] of its record is the row count of the
    base table plus that of the incremental table, the appended row
    included. *)
Theorem retrain_registers_new_version
    (new_data : gmap string float) (actual_label : Z) (e : env) (w w' : world)
    (r : retrain_result) :
  retrain_incremental new_data actual_label e w = (w', Returns r) ->
  exists k base info,
    r_version r = "V" +:+ Py.str k /\
    dict_contains (r_version r) (versions (metadata w)) = false /\
    r_version r ∈ List.map version (list_versions w') /\
    get_current_version w' = r_version r /\
    train_dataset w = Some base /\
    training_data_file w' =
      Some (default [] (training_data_file w) ++ [new_row new_data actual_label]) /\
    dict_get (r_version r) (versions (metadata w')) = Some info /\
    training_samples info =
      len base + (len (default [] (training_data_file w)) + 1) /\
    r_training_samples r = training_samples info.
Proof.
  unfold retrain_incremental. rewrite _do_retrain_returns. intros H.
  destruct (retrain_body_returns _ _ _ _ _ _ H)
    as (base & info & Hbase & Hname & Hrs & _ & Hts & _ & _ & _ & Hmeta & _ & Htab).
  cbv zeta in *. unfold _get_next_version_number in *.
  exists (next_num (versions (metadata w))), base, info.
  rewrite list_versions_name. unfold get_current_version.
  rewrite Hmeta, Hname. cbn [current_version versions].
  split; [reflexivity |].
  split; [apply dict_contains_false, next_name_fresh |].
  split; [apply dict_contains_keys, dict_keys_set; now left |].
  split; [reflexivity |]. split; [exact Hbase |]. split; [exact Htab |].
  split; [apply dict_get_set |].
  rewrite Hrs, Hts. unfold appended_table. rewrite !len_app.
  split; reflexivity.
Qed.

Lemma retrain_registers_new_version_witness :
  exists w' r,
    retrain_incremental sample_data 1 quiet_env first_attempt = (w', Returns r) /\
    r_version r = "V1" /\
    get_current_version w' = "V1" /\
    List.map version (list_versions w') = ["Original"; "V1"] /\
    r_training_samples r = 2295.
Proof.
  destruct (retrain_incremental sample_data 1 quiet_env first_attempt)
    as [w' [r | x]] eqn:Hrun.
  - destruct (retrain_registers_new_version _ _ _ _ _ _ Hrun)
      as (k & base & info & _ & _ & _ & Hcur & _).
    exists w', r. split; [reflexivity |]. rewrite Hcur.
    vm_compute in Hrun. injection Hrun as <- <-.
    repeat split; vm_compute; reflexivity.
  - vm_compute in Hrun. discriminate.
Defined.

(** C2, as amended: a retrain that meets an exception raises a
    [RuntimeError] whose message is ["Retraining error: "] followed by the
    ASCII characters of the original message.  The registry, in memory and
    in the metadata file, is as before unless the exception is that of the
    final write of the metadata file: then the registry in memory holds
    the new record and names it current, and the file is as it was when
    the write raised before opening it, cut short when it raised after.
    The row appended to the incremental table, once written, stays; a
    write of the table that raises after opening the file leaves the rows
    written by then. *)
Theorem retrain_failure_spec
    (new_data : gmap string float) (actual_label : Z) (e : env) (w w' : world)
    (x : exn) :
  retrain_incremental new_data actual_label e w = (w', Raises x) ->
  (exists x0,
     x = RuntimeError ("Retraining error: " +:+ Py.ascii_ignore (exn_str x0))) /\
  Py.is_ascii (exn_str x) = true /\
  ((metadata w' = metadata w /\ metadata_file w' = metadata_file w) \/
   exists msg info,
     fault e SaveMetadata = Some msg /\
     x = RuntimeError ("Retraining error: " +:+ Py.ascii_ignore msg) /\
     metadata w' =
       {| current_version := _get_next_version_number w;
          versions := dict_set (_get_next_version_number w) info
                        (versions (metadata w)) |} /\
     metadata_file w' =
       if opened e SaveMetadata then Some Truncated else metadata_file w) /\
  (training_data_file w' = training_data_file w \/
   training_data_file w' =
     Some (default [] (training_data_file w) ++ [new_row new_data actual_label]) \/
   exists msg,
     fault e WriteIncremental = Some msg /\
     opened e WriteIncremental = true /\
     x = RuntimeError ("Retraining error: " +:+ Py.ascii_ignore msg) /\
     training_data_file w' =
       Some (take (written e)
               (default [] (training_data_file w) ++ [new_row new_data actual_label]))) /\
  (append_made e w ->
   training_data_file w' =
     Some (default [] (training_data_file w) ++ [new_row new_data actual_label])).
Proof.
  unfold retrain_incremental. rewrite _do_retrain_raises. intros (x0 & H & ->).
  destruct (retrain_body_raises _ _ _ _ _ _ H) as (Hmeta & Htab & Happ).
  unfold appended_table, left_by_write in *.
  split; [eauto |].
  split; [cbn [exn_str]; rewrite is_ascii_app, is_ascii_ascii_ignore; reflexivity |].
  split; [| split; [| exact Happ]].
  - destruct Hmeta as [Hmeta | (msg & info & Hf & -> & Hm & Hfile & _)]; [now left |].
    right. exists msg, info. auto.
  - destruct Htab as [Htab | [Htab | (msg & Hf & -> & Htab)]];
      [now left | now right; left |].
    destruct (opened e WriteIncremental) eqn:Hopen; [| now left].
    right. right. exists msg. auto.
Qed.

Lemma retrain_failure_spec_witness :
  exists w',
    retrain_incremental sample_data 1 (failing_env FitModel accented_message) started =
      (w', Raises (RuntimeError "Retraining error: chec de l'ajustement")) /\
    metadata w' = metadata started /\
    metadata_file w' = metadata_file started /\
    training_data_file started = None /\
    training_data_file w' = Some [new_row sample_data 1].
Proof.
  destruct (retrain_incremental sample_data 1 (failing_env FitModel accented_message) started)
    as [w' [r | x]] eqn:Hrun.
  - vm_compute in Hrun. discriminate.
  - destruct (retrain_failure_spec _ _ _ _ _ _ Hrun)
      as (_ & _ & [[Hmeta Hfile] | (msg & info & Hf & _)] & _ & Happ).
    + exists w'. split; [| split; [exact Hmeta | split; [exact Hfile | split; [reflexivity |]]]].
      * vm_compute in Hrun. injection Hrun as <- <-. reflexivity.
      * apply Happ. split; [| split].
        -- eexists. vm_compute. reflexivity.
        -- intros Hne. exfalso. apply Hne. reflexivity.
        -- reflexivity.
    + vm_compute in Hf. discriminate.
Defined.

(** C2, as stated, fails when the final write of the metadata file
    raises: the retrain raises, yet the registry in memory holds the new
    record and names it current.  The run starts where an incremental
    table is there, so that the fit is reached with a numeric frame. *)
Lemma retrain_failure_mutates_registry :
  let run := retrain_incremental sample_data 1
               (failing_env SaveMetadata "[Errno 28] No space left on device")
               first_attempt in
  snd run =
    Raises (RuntimeError "Retraining error: [Errno 28] No space left on device") /\
  training_data_file first_attempt = Some [new_row sample_data 0] /\
  get_current_version first_attempt = "Original" /\
  get_current_version (fst run) = "V1" /\
  List.map version (list_versions first_attempt) = ["Original"] /\
  List.map version (list_versions (fst run)) = ["Original"; "V1"].
Proof. vm_compute. repeat split. Qed.

(** C3: the name a retrain mints is [V<k>] with [k] one more than the
    greatest number read from the registry's [V] names (1 when there is
    none), above the number of every [V<n>] key; it is not a key of the
    registry, whatever the registry; and two successive retrains that
    return give the names [V<k>] and [V<k+1>], which are distinct. *)
Theorem next_version_name_spec (w : world) :
  let vs := versions (metadata w) in
  let k := next_num vs in
  _get_next_version_number w = "V" +:+ Py.str k /\
  ((version_nums vs = [] /\ k = 1) \/
   (k - 1 ∈ version_nums vs /\ forall n, n ∈ version_nums vs -> n <= k - 1)) /\
  (forall n, dict_contains ("V" +:+ Py.str n) vs = true ->
             version_num ("V" +:+ Py.str n) = Some n /\ n < k) /\
  dict_contains (_get_next_version_number w) vs = false /\
  (forall d1 l1 e1 w1 r1 d2 l2 e2 w2 r2,
     retrain_incremental d1 l1 e1 w = (w1, Returns r1) ->
     retrain_incremental d2 l2 e2 w1 = (w2, Returns r2) ->
     r_version r1 = "V" +:+ Py.str k /\
     r_version r2 = "V" +:+ Py.str (k + 1) /\
     version_num (r_version r1) = Some k /\
     version_num (r_version r2) = Some (k + 1) /\
     k < k + 1 /\
     r_version r1 <> r_version r2).
Proof.
  cbv zeta. unfold _get_next_version_number.
  split; [reflexivity |]. split; [| split; [| split]].
  - unfold next_num. destruct (version_nums (versions (metadata w))) as [| x l].
    + now left.
    + right. replace (py_max x l + 1 - 1) with (py_max x l) by lia.
      split; [apply py_max_elem | apply py_max_upper].
  - intros n Hn. split; [apply version_num_name |].
    apply next_num_above, version_nums_key, dict_contains_keys, Hn.
  - apply dict_contains_false, next_name_fresh.
  - intros d1 l1 e1 w1 r1 d2 l2 e2 w2 r2 H1 H2.
    unfold retrain_incremental in *. rewrite _do_retrain_returns in H1, H2.
    destruct (retrain_body_returns _ _ _ _ _ _ H1)
      as (_ & info1 & _ & Hn1 & _ & _ & _ & _ & _ & _ & Hm1 & _).
    destruct (retrain_body_returns _ _ _ _ _ _ H2)
      as (_ & info2 & _ & Hn2 & _).
    cbv zeta in *. unfold _get_next_version_number in *.
    rewrite Hm1 in Hn2. cbn [versions] in Hn2.
    rewrite next_num_after_mint in Hn2.
    rewrite Hn1, Hn2, !version_num_name.
    repeat split; [lia |].
    intros Heq. apply name_injective in Heq. lia.
Qed.

Lemma next_version_name_spec_witness :
  exists w1 r1 w2 r2,
    retrain_incremental sample_data 1 quiet_env first_attempt = (w1, Returns r1) /\
    retrain_incremental sample_data 0 quiet_env w1 = (w2, Returns r2) /\
    r_version r1 = "V1" /\ r_version r2 = "V2".
Proof.
  destruct (retrain_incremental sample_data 1 quiet_env first_attempt)
    as [w1 [r1 | x1]] eqn:Hrun1; [| vm_compute in Hrun1; discriminate].
  destruct (retrain_incremental sample_data 0 quiet_env w1)
    as [w2 [r2 | x2]] eqn:Hrun2.
  - pose proof (next_version_name_spec first_attempt) as (_ & _ & _ & _ & Hsucc).
    destruct (Hsucc _ _ _ _ _ _ _ _ _ _ Hrun1 Hrun2) as (Hn1 & Hn2 & _).
    exists w1, r1, w2, r2. rewrite Hn1, Hn2.
    split; [reflexivity |]. split; [exact Hrun2 |].
    vm_compute. split; reflexivity.
  - vm_compute in Hrun1. injection Hrun1 as <- <-.
    vm_compute in Hrun2. discriminate.
Defined.

(** C10: a request that lacks features is not rejected.  Each feature the
    dictionary lacks is 0 in the row built from it, each feature it has
    keeps its value; the row is appended to the incremental table as soon
    as the append is reached; and the retrain returns whenever no call
    raises, the current artifacts load and the base table is there,
    whatever the dictionary holds. *)
Theorem retrain_missing_feature_is_zero
    (new_data : gmap string float) (actual_label : Z) (e : env) (w : world) :
  (forall name, name ∈ FEATURES ->
     row_column name (new_row new_data actual_label) =
       Some (default 0%float (new_data !! name))) /\
  (forall name, name ∈ FEATURES -> new_data !! name = None ->
     row_column name (new_row new_data actual_label) = Some 0%float) /\
  Potability (new_row new_data actual_label) = actual_label /\
  (append_made e w ->
   training_data_file (fst (retrain_incremental new_data actual_label e w)) =
     Some (default [] (training_data_file w) ++ [new_row new_data actual_label])) /\
  (quiet e ->
   (exists ms, load_model_and_scaler None e w = (w, Returns ms)) ->
   train_dataset w <> None ->
   exists w' r,
     retrain_incremental new_data actual_label e w = (w', Returns r) /\
     training_data_file w' =
       Some (default [] (training_data_file w) ++ [new_row new_data actual_label])).
Proof.
  assert (Hcol : forall name, name ∈ FEATURES ->
            row_column name (new_row new_data actual_label) =
              Some (default 0%float (new_data !! name))).
  { intros name Hname. unfold FEATURES in Hname.
    repeat (apply elem_of_cons in Hname; destruct Hname as [-> | Hname];
            [reflexivity |]).
    inversion Hname. }
  split; [exact Hcol |].
  split; [intros name Hname Hnone; rewrite (Hcol name Hname), Hnone; reflexivity |].
  split; [reflexivity |]. split.
  - intros Happ. unfold retrain_incremental.
    destruct (_do_retrain new_data actual_label e w) as [w' [r | x]] eqn:Hrun;
      cbn [fst].
    + apply _do_retrain_returns, retrain_body_returns in Hrun.
      destruct Hrun as (base & info & Hrun). cbv zeta in Hrun. apply Hrun.
    + apply _do_retrain_raises in Hrun. destruct Hrun as (x0 & Hrun & _).
      apply retrain_body_raises in Hrun. now apply Hrun.
  - intros Hq Hload Hbase.
    destruct (retrain_body_succeeds new_data actual_label e w Hq Hload Hbase)
      as (w' & r & Hrun).
    exists w', r. unfold retrain_incremental. rewrite _do_retrain_returns.
    split; [exact Hrun |].
    apply retrain_body_returns in Hrun.
    destruct Hrun as (base & info & Hrun). cbv zeta in Hrun. apply Hrun.
Qed.

Lemma retrain_missing_feature_is_zero_witness :
  exists w' r,
    retrain_incremental (<["ph" := 7%float]> ∅) 1 quiet_env first_attempt =
      (w', Returns r) /\
    training_data_file w' =
      Some [new_row sample_data 0; new_row (<["ph" := 7%float]> ∅) 1] /\
    row_column "ph" (new_row (<["ph" := 7%float]> ∅) 1) = Some 7%float /\
    row_column "Hardness" (new_row (<["ph" := 7%float]> ∅) 1) = Some 0%float /\
    row_column "Turbidity" (new_row (<["ph" := 7%float]> ∅) 1) = Some 0%float.
Proof.
  pose proof (retrain_missing_feature_is_zero (<["ph" := 7%float]> ∅) 1 quiet_env
                first_attempt) as (_ & Hzero & _ & _ & Hruns).
  destruct Hruns as (w' & r & Hrun & Htab).
  - intros s. reflexivity.
  - eexists. vm_compute. reflexivity.
  - discriminate.
  - exists w', r. split; [exact Hrun |]. split; [exact Htab |].
    split; [vm_compute; reflexivity |].
    split; apply Hzero; try (vm_compute; reflexivity);
      unfold FEATURES; set_solver.
Defined.

(** ** The current version is registered *)

Lemma dict_contains_del {V} k k' (d : dict V) :
  k' <> k -> dict_contains k' d = true -> dict_contains k' (dict_del k d) = true.
Proof.
  rewrite !dict_contains_keys, dict_keys_del. tauto.
Qed.

Lemma dict_contains_set {V} k v (d : dict V) :
  dict_contains k (dict_set k v d) = true.
Proof. unfold dict_contains. now rewrite dict_get_set. Qed.

Lemma registry_ok_initial created :
  current_registered (initial_metadata created).
Proof. reflexivity. Qed.

Lemma __init___ok e w :
  match metadata_file w with
  | Some (Json r) => current_registered r
  | _ => True
  end ->
  (metadata_file w = None \/ current_registered (metadata w)) ->
  registry_ok (fst (__init__ e w)).
Proof.
  unfold registry_ok, __init__, _load_metadata. run_unfold.
  destruct (metadata_file w) as [[r |] |] eqn:Hfile; intros Hr Hw.
  - destruct Hw as [Hw | Hw]; [discriminate |].
    run_stage LoadMetadata; cbn [fst]; world_simpl; rewrite ?Hfile; auto.
  - destruct Hw as [Hw | Hw]; [discriminate |].
    run_stage LoadMetadata; cbn [fst]; world_simpl; rewrite ?Hfile; auto.
  - run_stage SaveMetadata; cbn [fst]; world_simpl; run_cut; rewrite ?Hfile;
      auto using registry_ok_initial.
Qed.

Lemma switch_version_ok name e w :
  registry_ok w -> registry_ok (fst (switch_version name e w)).
Proof.
  unfold registry_ok, switch_version. run_unfold. intros [Hcur Hfile].
  destruct (dict_contains name (versions (metadata w))) eqn:Hin;
    cbn [negb]; cbv beta iota zeta; [| now split].
  run_stage SaveMetadata; cbn [fst]; world_simpl; run_cut; split; auto.
Qed.

Lemma delete_version_ok name e w :
  registry_ok w -> registry_ok (fst (delete_version name e w)).
Proof.
  unfold registry_ok, delete_version. intros [Hcur Hfile].
  destruct (String.eqb name "Original"); [now split |].
  run_unfold. destruct (String.eqb_spec name (current_version (metadata w)))
    as [| Hne]; [now split |].
  destruct (dict_get name _) as [info |]; [| now split].
  unfold path_exists. cbv beta iota zeta.
  assert (Hdel : current_registered
                   {| current_version := current_version (metadata w);
                      versions := dict_del name (versions (metadata w)) |}).
  { unfold current_registered. cbn [current_version versions].
    apply dict_contains_del; [congruence | exact Hcur]. }
  run_lookup; [run_stage UnlinkModel; [now split |] |];
    (run_lookup; [run_stage UnlinkScaler; [now split |] |]);
    run_stage SaveMetadata; cbn [fst]; world_simpl; run_cut; now split.
Qed.

Lemma retrain_incremental_ok d l e w :
  registry_ok w -> registry_ok (fst (retrain_incremental d l e w)).
Proof.
  unfold registry_ok, retrain_incremental. intros [Hcur Hfile].
  destruct (_do_retrain d l e w) as [w' [r | x]] eqn:Hrun; cbn [fst].
  - apply _do_retrain_returns, retrain_body_returns in Hrun.
    destruct Hrun as (base & info & Hrun). cbv zeta in Hrun.
    destruct Hrun as (_ & _ & _ & _ & _ & _ & _ & _ & Hmeta & Hf & _).
    rewrite Hf, Hmeta. unfold current_registered. cbn [current_version versions].
    split; apply dict_contains_set.
  - apply _do_retrain_raises in Hrun. destruct Hrun as (x0 & Hrun & _).
    apply retrain_body_raises in Hrun.
    destruct Hrun as ([[Hmeta Hf] | (msg & info & _ & _ & Hmeta & Hf & _)] & _);
      rewrite Hf, Hmeta; [now split |].
    run_cut; (split; [| first [exact I | assumption]]);
      unfold current_registered; cbn [current_version versions];
      apply dict_contains_set.
Qed.

Lemma run_op_ok o e w : registry_ok w -> registry_ok (run_op o e w).
Proof.
  intros Hok. destruct o; cbn [run_op].
  - destruct Hok as [Hcur Hfile]. apply __init___ok; [exact Hfile | now right].
  - now apply switch_version_ok.
  - now apply retrain_incremental_ok.
  - now apply delete_version_ok.
Qed.

Lemma run_ok ops : forall w, registry_ok w -> registry_ok (run ops w).
Proof.
  induction ops as [| [o e] ops IH]; intros w Hok; cbn [run]; [exact Hok |].
  apply IH, run_op_ok, Hok.
Qed.

(** C4: constructing the manager where there is no metadata file seeds a
    registry whose current version is registered; every operation
    (bootstrap, switch, retrain, delete), returning or raising, keeps the
    current version among the keys of the versions, in memory and in the
    metadata file; hence so does every sequence of operations. *)
Theorem current_version_always_registered
    (e0 : env) (w0 : world) (ops : list (op * env)) :
  metadata_file w0 = None ->
  registry_ok (fst (__init__ e0 w0)) /\
  (forall o e w, registry_ok w -> registry_ok (run_op o e w)) /\
  let w := run ((Bootstrap, e0) :: ops) w0 in
  dict_contains (get_current_version w) (versions (metadata w)) = true /\
  get_current_version w ∈ List.map version (list_versions w) /\
  match metadata_file w with
  | Some (Json r) => dict_contains (current_version r) (versions r) = true
  | _ => True
  end.
Proof.
  intros Hnone.
  assert (Hinit : registry_ok (fst (__init__ e0 w0))).
  { apply __init___ok; [now rewrite Hnone | now left]. }
  split; [exact Hinit |]. split; [apply run_op_ok |].
  cbv zeta. cbn [run run_op].
  destruct (run_ok ops _ Hinit) as [Hcur Hfile].
  split; [exact Hcur |]. split; [| exact Hfile].
  apply list_versions_name, Hcur.
Qed.

Lemma current_version_always_registered_witness :
  let w := run [(Bootstrap, quiet_env);
                (Retrain sample_data 0, failing_env FitModel "Unknown label type: unknown");
                (Retrain sample_data 1, quiet_env);
                (Retrain sample_data 0, failing_env SaveMetadata "disk full");
                (Switch "V1", quiet_env);
                (Delete "V2", quiet_env);
                (Delete "V1", quiet_env);
                (Switch "V2", quiet_env)] deployed in
  get_current_version w = "V1" /\
  List.map version (list_versions w) = ["Original"; "V1"] /\
  dict_contains (get_current_version w) (versions (metadata w)) = true.
Proof.
  pose proof (current_version_always_registered quiet_env deployed
                [(Retrain sample_data 0, failing_env FitModel "Unknown label type: unknown");
                 (Retrain sample_data 1, quiet_env);
                 (Retrain sample_data 0, failing_env SaveMetadata "disk full");
                 (Switch "V1", quiet_env);
                 (Delete "V2", quiet_env);
                 (Delete "V1", quiet_env);
                 (Switch "V2", quiet_env)] eq_refl) as (_ & _ & Hcur & _).
  cbv zeta in *. split; [vm_compute; reflexivity |].
  split; [vm_compute; reflexivity | exact Hcur].
Defined.

(** ** [list_versions] *)

Lemma sort_key_original : sort_key "Original" = (0, 0).
Proof. reflexivity. Qed.

Lemma sort_key_name n : sort_key ("V" +:+ Py.str n) = (1, n).
Proof.
  unfold sort_key. change (String.eqb ("V" +:+ Py.str n) "Original") with false.
  cbv iota. now rewrite replace_V_name, replace_V_str, int_str.
Qed.

(** C8, as amended: [list_versions] returns the views of the registry's
    entries, sorted by key, the entries of one key in registry order.  The
    key of ["Original"] is (0, 0) and comes first; a name that reads as the
    integer [n] once its ["V"] characters are removed, as [V<n>] does, has
    key (1, n), in ascending order of [n]; a name that does not read as an
    integer has key (2, 0) and comes last.  [is_current] is true exactly
    for the entry whose name is the current version. *)
Theorem list_versions_spec (w : world) :
  let key v := sort_key (version v) in
  let views := List.map (view_of (get_current_version w)) (versions (metadata w)) in
  list_versions w ≡ₚ views /\
  StronglySorted (fun a b => tuple_lt (key b) (key a) = false) (list_versions w) /\
  (forall k, List.filter (fun v => bool_decide (key v = k)) (list_versions w) =
             List.filter (fun v => bool_decide (key v = k)) views) /\
  sort_key "Original" = (0, 0) /\
  (forall n, sort_key ("V" +:+ Py.str n) = (1, n)) /\
  (forall name n, name <> "Original" -> Py.int (Py.replace_V name) = Some n ->
     sort_key name = (1, n)) /\
  (forall name, name <> "Original" -> Py.int (Py.replace_V name) = None ->
     sort_key name = (2, 0)) /\
  (forall n m, tuple_lt (0, 0) (1, n) = true /\ tuple_lt (1, n) (2, 0) = true /\
               tuple_lt (1, n) (1, m) = (n <? m)) /\
  Forall (fun v => is_current v = true <-> version v = get_current_version w)
    (list_versions w).
Proof.
  cbv zeta. unfold list_versions, get_current_version.
  split; [apply py_sort_perm |].
  split; [apply (py_sort_sorted (fun v => sort_key (version v))) |].
  split; [intros k; apply py_sort_stable |].
  split; [reflexivity |]. split; [apply sort_key_name |].
  split; [| split; [| split]].
  - intros name n Hne Hint. unfold sort_key.
    destruct (String.eqb_spec name "Original"); [congruence |]. now rewrite Hint.
  - intros name Hne Hint. unfold sort_key.
    destruct (String.eqb_spec name "Original"); [congruence |]. now rewrite Hint.
  - intros n m. unfold tuple_lt. cbn [fst snd]. repeat split; try reflexivity.
  - rewrite Forall_forall. intros v Hv.
    rewrite py_sort_elem in Hv. apply list_elem_of_fmap in Hv.
    destruct Hv as ([name info] & -> & _). cbn [view_of is_current version fst].
    destruct (String.eqb_spec name (current_version (metadata w))); split;
      congruence.
Qed.

(** C8, as stated, fails for a name made of digits only: it matches
    neither ["Original"] nor [V<n>] (the next-number computation skips it),
    yet it is listed among the numbered versions, before ["V9"]. *)
Lemma list_versions_digits_not_last :
  List.map version (list_versions hand_edited) = ["Original"; "7"; "V9"] /\
  List.map (fun v => sort_key (version v)) (list_versions hand_edited) =
    [(0, 0); (1, 7); (1, 9)] /\
  Py.startswith_V "7" = false /\
  version_num "7" = None /\
  version_num "V9" = Some 9.
Proof. vm_compute. repeat split. Qed.

Lemma list_versions_spec_witness :
  List.map version (list_versions retrained_twice) = ["Original"; "V1"; "V2"] /\
  List.map is_current (list_versions retrained_twice) = [false; false; true] /\
  sort_key "V 3" = (1, 3) /\
  sort_key "beta" = (2, 0).
Proof.
  pose proof (list_versions_spec retrained_twice) as (_ & _ & _ & _ & _ & Hnum & Hbad & _).
  split; [vm_compute; reflexivity |]. split; [vm_compute; reflexivity |].
  split; [apply Hnum; [discriminate | reflexivity] |].
  apply Hbad; [discriminate | reflexivity].
Defined.

(** ** [predict] *)

Lemma predict_unfold features :
  predict features =
  (w <- get_world ;;
   (match model w with
    | None =>
        try_except load_model
          (fun e => raise (HTTPException 503 ("Model not available: " +:+ exn_str e)))
    | Some _ => ret tt
    end) ;;
   try_except (predict_one features)
     (fun e => raise (HTTPException 500 ("Prediction failed: " +:+ exn_str e))))%py.
Proof. reflexivity. Qed.

(** One prediction reads the two globals and nothing else, and leaves the
    state. *)
Lemma predict_one_reads_globals features e1 e2 w1 w2 :
  model w1 = model w2 -> scaler w1 = scaler w2 ->
  fst (predict_one features e1 w1) = w1 /\
  snd (predict_one features e1 w1) = snd (predict_one features e2 w2).
Proof.
  intros Hm Hs. unfold predict_one, call_method. run_unfold.
  rewrite Hm, Hs.
  destruct (scaler w2) as [s |]; cbv beta iota zeta.
  - destruct (transform_method s) as [t |]; cbv beta iota zeta; [| now split].
    destruct (t (input_array features)) as [x | err]; cbv beta iota zeta;
      [| now split].
    destruct (model w2) as [m |]; cbv beta iota zeta; [| now split].
    destruct (predict_method m) as [p |]; cbv beta iota zeta; [| now split].
    destruct (p x) as [label | err]; cbv beta iota zeta; [| now split].
    destruct (predict_proba_method m) as [proba |]; cbv beta iota zeta;
      [| now split].
    destruct (proba x) as [probs | err]; cbv beta iota zeta; [| now split].
    destruct (py_index probs label); now split.
  - destruct (model w2) as [m |]; cbv beta iota zeta; [| now split].
    destruct (predict_method m) as [p |]; cbv beta iota zeta; [| now split].
    destruct (p (input_array features)) as [label | err]; cbv beta iota zeta;
      [| now split].
    destruct (predict_proba_method m) as [proba |]; cbv beta iota zeta;
      [| now split].
    destruct (proba (input_array features)) as [probs | err]; cbv beta iota zeta;
      [| now split].
    destruct (py_index probs label); now split.
Qed.

Lemma predict_one_state features e w :
  predict_one features e w = (w, snd (predict_one features e w)).
Proof.
  destruct (predict_one_reads_globals features e e w w eq_refl eq_refl) as [Hw _].
  rewrite <- Hw at 2. now destruct (predict_one features e w).
Qed.

(** With a model loaded, [predict] is one prediction, its exception
    wrapped. *)
Lemma predict_loaded features e w m :
  model w = Some m ->
  predict features e w =
  (w, match snd (predict_one features e w) with
      | Returns resp => Returns resp
      | Raises x => Raises (HTTPException 500 ("Prediction failed: " +:+ exn_str x))
      end).
Proof.
  intros Hm. rewrite predict_unfold. unfold bind, try_except, get_world, ret, raise.
  rewrite Hm. rewrite (predict_one_state features e w).
  now destruct (snd (predict_one features e w)).
Qed.

Lemma model_input_unique w features x x' :
  model_input w features x -> model_input w features x' -> x = x'.
Proof.
  unfold model_input. destruct (scaler w) as [s |]; [| congruence].
  intros (t & Ht & Hx) (t' & Ht' & Hx'). congruence.
Qed.

(** When one prediction returns. *)
Lemma predict_one_returns features e w m resp :
  model w = Some m ->
  snd (predict_one features e w) = Returns resp <->
  exists x p,
    model_input w features x /\
    predict_method m = Some p /\
    p x = Returns (potability resp) /\
    potability_label resp =
      (if potability resp =? 1 then "Potable" else "Not Potable") /\
    match predict_proba_method m with
    | Some proba =>
        exists probabilities,
          proba x = Returns probabilities /\
          py_index probabilities (potability resp) = Returns (confidence resp)
    | None => confidence resp = 1%float
    end.
Proof.
  intros Hm. unfold predict_one, bind, get_world.
  set (sc := (match scaler w with
              | Some s => call_method "transform" (transform_method s)
                            (input_array features)
              | None => ret (input_array features)
              end) e w).
  assert (Hin : forall x, sc = (w, Returns x) <-> model_input w features x).
  { intros x. subst sc. unfold model_input, call_method, lift_outcome, raise, ret.
    destruct (scaler w) as [s |].
    - destruct (transform_method s) as [t |]; split.
      + intros [= H]. eauto.
      + intros (t' & [= <-] & ->). reflexivity.
      + discriminate.
      + intros (t' & H & _). discriminate.
    - split; [now intros [= <-] | now intros ->]. }
  assert (Hst : fst sc = w).
  { subst sc. unfold call_method, lift_outcome, raise, ret.
    destruct (scaler w) as [s |]; [destruct (transform_method s) |]; reflexivity. }
  clearbody sc. destruct sc as [w1 [x | err]]; cbn [fst] in Hst; subst w1.
  - pose proof (proj1 (Hin x) eq_refl) as Hscale. rewrite Hm. unfold ret at 1.
    unfold call_method, lift_outcome, raise, ret.
    destruct (predict_method m) as [p |] eqn:Hp.
    + destruct (p x) as [label | err] eqn:Hpx.
      * destruct (predict_proba_method m) as [proba |] eqn:Hpp.
        -- destruct (proba x) as [probs | err] eqn:Hpr.
           ++ destruct (py_index probs label) as [c | err] eqn:Hidx; cbn [snd]; split.
              ** intros [= <-]. cbn [potability potability_label confidence].
                 exists x, p. repeat split; eauto.
              ** intros (x' & p' & Hx' & [= <-] & Hpx' & Hlab & probs' & Hpr' & Hidx').
                 pose proof (model_input_unique _ _ _ _ Hscale Hx'). subst x'.
                 destruct resp as [pot lab conf]. cbn [potability potability_label confidence] in *.
                 assert (pot = label) by congruence. subst pot.
                 assert (probs' = probs) by congruence. subst probs'.
                 assert (conf = c) by congruence. subst conf lab. reflexivity.
              ** discriminate.
              ** intros (x' & p' & Hx' & [= <-] & Hpx' & Hlab & probs' & Hpr' & Hidx').
                 pose proof (model_input_unique _ _ _ _ Hscale Hx'). subst x'.
                 assert (potability resp = label) by congruence.
                 assert (probs' = probs) by congruence. subst probs'. congruence.
           ++ cbn [snd]. split; [discriminate |].
              intros (x' & p' & Hx' & [= <-] & Hpx' & Hlab & probs' & Hpr' & Hidx').
              pose proof (model_input_unique _ _ _ _ Hscale Hx'). subst x'. congruence.
        -- cbn [snd]. split.
           ++ intros [= <-]. cbn [potability potability_label confidence].
              exists x, p. repeat split; eauto.
           ++ intros (x' & p' & Hx' & [= <-] & Hpx' & Hlab & Hconf).
              pose proof (model_input_unique _ _ _ _ Hscale Hx'). subst x'.
              destruct resp as [pot lab conf]. cbn [potability potability_label confidence] in *.
              assert (pot = label) by congruence. subst pot conf lab. reflexivity.
      * cbn [snd]. split; [discriminate |].
        intros (x' & p' & Hx' & [= <-] & Hpx' & _).
        pose proof (model_input_unique _ _ _ _ Hscale Hx'). subst x'. congruence.
    + cbn [snd]. split; [discriminate |].
      intros (x' & p' & _ & H & _). discriminate.
  - cbn [snd]. split; [discriminate |].
    intros (x & p & Hx & _). apply Hin in Hx. discriminate.
Qed.

Lemma py_index_elem a i c : py_index a i = Returns c -> c ∈ a.
Proof.
  unfold py_index. destruct (_ && _); [| discriminate].
  destruct (nth_error a _) as [y |] eqn:Hn; [| discriminate].
  intros [= <-]. apply list_elem_of_In. eapply nth_error_In, Hn.
Qed.

(** C7, as amended: with a model loaded, [predict] hands the nine
    features of the request, in the order of the columns of the training
    table, to the scaler when there is one, and the result to the model.
    It returns exactly when the scaler, the model's [predict] and its
    [predict_proba] return and the label indexes the probability output;
    the label is then the model's answer, the confidence the entry of the
    probability output at that label, or 1.0 when the model has no
    [predict_proba].  Otherwise it raises an [HTTPException] of status 500
    and leaves the state.  The bounds of the request play no part; the
    confidence lies between 0 and 1 when the entries of the model's
    probability output do. *)
Theorem predict_spec
    (features : WaterQualityFeatures.t) (e : env) (w : world) (m : pyobject) :
  model w = Some m ->
  input_array features =
    [WaterQualityFeatures.ph features;
     WaterQualityFeatures.Hardness features;
     WaterQualityFeatures.Solids features;
     WaterQualityFeatures.Chloramines features;
     WaterQualityFeatures.Sulfate features;
     WaterQualityFeatures.Conductivity features;
     WaterQualityFeatures.Organic_carbon features;
     WaterQualityFeatures.Trihalomethanes features;
     WaterQualityFeatures.Turbidity features] /\
  List.map Some (input_array features) =
    List.map (fun name => row_column name (request_row features 0)) FEATURES /\
  (forall resp,
     predict features e w = (w, Returns resp) <->
     exists x p,
       model_input w features x /\
       predict_method m = Some p /\
       p x = Returns (potability resp) /\
       potability_label resp =
         (if potability resp =? 1 then "Potable" else "Not Potable") /\
       match predict_proba_method m with
       | Some proba =>
           exists probabilities,
             proba x = Returns probabilities /\
             py_index probabilities (potability resp) = Returns (confidence resp)
       | None => confidence resp = 1%float
       end) /\
  (forall w' x, predict features e w = (w', Raises x) ->
     w' = w /\ exists detail, x = HTTPException 500 ("Prediction failed: " +:+ detail)) /\
  (forall resp x,
     predict features e w = (w, Returns resp) ->
     model_input w features x ->
     match predict_proba_method m with
     | Some proba =>
         forall probabilities,
           proba x = Returns probabilities -> Forall probability probabilities ->
           probability (confidence resp)
     | None => probability (confidence resp)
     end).
Proof.
  intros Hm.
  assert (Hret : forall resp,
            predict features e w = (w, Returns resp) <->
            snd (predict_one features e w) = Returns resp).
  { intros resp. rewrite (predict_loaded _ _ _ m Hm).
    destruct (snd (predict_one features e w)); split; congruence. }
  split; [reflexivity |]. split; [reflexivity |].
  split; [| split].
  - intros resp. rewrite Hret. now apply predict_one_returns.
  - intros w' x. rewrite (predict_loaded _ _ _ m Hm).
    destruct (snd (predict_one features e w)); intros [= <- <-]. eauto.
  - intros resp x Hrun Hx. apply Hret, (predict_one_returns _ _ _ m) in Hrun;
      [| exact Hm].
    destruct Hrun as (x' & p & Hx' & _ & _ & _ & Hconf).
    pose proof (model_input_unique _ _ _ _ Hx Hx'). subst x'.
    destruct (predict_proba_method m) as [proba |].
    + intros probs Hpr Hall. destruct Hconf as (probs' & Hpr' & Hidx).
      assert (probs' = probs) by congruence. subst probs'.
      apply py_index_elem in Hidx. rewrite Forall_forall in Hall. now apply Hall.
    + rewrite Hconf. split; reflexivity.
Qed.

Lemma predict_spec_witness :
  (exists resp,
     predict sample_features quiet_env serving = (serving, Returns resp) /\
     potability resp = 1 /\ confidence resp = 0.75%float) /\
  (exists resp,
     predict sample_features quiet_env serving_hard = (serving_hard, Returns resp) /\
     potability resp = 0 /\ confidence resp = 1%float).
Proof.
  split.
  - destruct (predict_spec sample_features quiet_env serving sample_classifier eq_refl)
      as (_ & _ & Hret & _).
    exists {| potability := 1; potability_label := "Potable";
              confidence := 0.75%float |}.
    split; [| split; reflexivity].
    apply Hret. exists (input_array sample_features), (fun _ => Returns 1).
    cbn [potability potability_label confidence].
    split; [eexists; split; reflexivity |].
    split; [reflexivity |]. split; [reflexivity |]. split; [reflexivity |].
    eexists. split; reflexivity.
  - destruct (predict_spec sample_features quiet_env serving_hard hard_classifier eq_refl)
      as (_ & _ & Hret & _).
    exists {| potability := 0; potability_label := "Not Potable";
              confidence := 1%float |}.
    split; [| split; reflexivity].
    apply Hret. exists (input_array sample_features), (fun _ => Returns 0).
    cbn [potability potability_label confidence].
    split; [eexists; split; reflexivity |].
    split; [reflexivity |]. split; [reflexivity |]. split; reflexivity.
Defined.

(** C7, as stated, fails for a request that is valid and not finite: the
    bounds of the request model hold of an infinite [Solids], the scaler
    rejects the input, and [predict] raises status 500 where the same
    process answers a finite request. *)
Lemma predict_valid_request_raises :
  valid_features unbounded_features = true /\
  model serving_checked = Some sample_classifier /\
  (exists resp,
     predict sample_features quiet_env serving_checked =
       (serving_checked, Returns resp) /\
     potability resp = 1) /\
  predict unbounded_features quiet_env serving_checked =
    (serving_checked,
     Raises (HTTPException 500
       "Prediction failed: Input X contains infinity or a value too large for dtype('float64').")).
Proof.
  split; [reflexivity |]. split; [vm_compute; reflexivity |].
  split; [eexists; split; [vm_compute; reflexivity | reflexivity] |].
  vm_compute. reflexivity.
Qed.

(** * Further properties *)

(** ** Construction and restart *)

(** X1: constructing the manager where there is no metadata file gives
    the registry with the single record ["Original"] (2293 training
    samples), which is current; [list_versions] is that one entry, flagged
    current.  The registry is written to the metadata file, unless the
    write raises, in which case the constructor raises: no file is left
    when the write raised before opening the file; when it raised after,
    the file is left cut short, and every later construction raises. *)
Theorem init_without_metadata_file (e : env) (w : world) :
  metadata_file w = None ->
  let w' := fst (__init__ e w) in
  metadata w' = initial_metadata (now e) /\
  get_current_version w' = "Original" /\
  List.map version (list_versions w') = ["Original"] /\
  List.map is_current (list_versions w') = [true] /\
  List.map v_training_samples (list_versions w') = [2293] /\
  (fault e SaveMetadata = None ->
   __init__ e w = (w', Returns tt) /\
   metadata_file w' = Some (Json (initial_metadata (now e)))) /\
  (forall msg, fault e SaveMetadata = Some msg ->
   __init__ e w = (w', Raises (LibraryError msg)) /\
   metadata_file w' = (if opened e SaveMetadata then Some Truncated else None) /\
   (opened e SaveMetadata = true ->
    forall e', exists x, __init__ e' w' = (w', Raises x))).
Proof.
  intros Hnone. cbv zeta.
  unfold __init__, _load_metadata. run_unfold. rewrite Hnone.
  cbv beta iota zeta.
  destruct (fault e SaveMetadata) as [msg |] eqn:Hsave; cbn [fst]; world_simpl.
  - do 5 (split; [reflexivity |]). split; [discriminate |].
    intros msg' [= <-]. unfold left_by_write. rewrite Hnone.
    split; [reflexivity |]. split; [reflexivity |].
    intros -> e'. destruct (fault e' LoadMetadata); eauto.
  - do 5 (split; [reflexivity |]). split; [| discriminate].
    intros _. split; reflexivity.
Qed.

Lemma init_without_metadata_file_witness :
  List.map version (list_versions started) = ["Original"] /\
  metadata_file started = Some (Json (initial_metadata "2024-01-01T00:00:00")) /\
  let cut :=
    fst (__init__ (failing_env SaveMetadata "[Errno 28] No space left on device")
           deployed) in
  metadata_file cut = Some Truncated /\
  exists x, __init__ quiet_env cut = (cut, Raises x).
Proof.
  pose proof (init_without_metadata_file quiet_env deployed eq_refl)
    as (_ & _ & Hlist & _ & _ & Hsaved & _).
  pose proof (init_without_metadata_file
                (failing_env SaveMetadata "[Errno 28] No space left on device")
                deployed eq_refl) as (_ & _ & _ & _ & _ & _ & Hcut).
  cbv zeta in *. split; [exact Hlist |].
  destruct (Hsaved eq_refl) as [_ Hfile]. split; [exact Hfile |].
  destruct (Hcut _ eq_refl) as (_ & Hleft & Hagain).
  split; [exact Hleft | apply Hagain; reflexivity].
Defined.

Lemma set_metadata_same w : set_metadata (metadata w) w = w.
Proof. now destruct w. Qed.

Lemma registry_eta (r : registry) :
  {| current_version := current_version r; versions := versions r |} = r.
Proof. now destruct r. Qed.

Lemma switch_version_returns name e w w' b :
  switch_version name e w = (w', Returns b) ->
  (b = false /\ w' = w /\ dict_contains name (versions (metadata w)) = false) \/
  (b = true /\ dict_contains name (versions (metadata w)) = true /\
   w' = (let r := {| current_version := name; versions := versions (metadata w) |} in
         set_metadata_file (Some (Json r)) (set_metadata r w))).
Proof.
  unfold switch_version. run_unfold.
  destruct (dict_contains name (versions (metadata w))) eqn:Hin; cbn [negb];
    cbv beta iota zeta.
  - run_stage SaveMetadata; [discriminate |].
    intros [= <- <-]. right. auto.
  - intros [= <- <-]. left. auto.
Qed.

Lemma delete_version_returns name e w w' b :
  delete_version name e w = (w', Returns b) ->
  (b = false /\ w' = w) \/
  (b = true /\ name <> "Original" /\ name <> current_version (metadata w) /\
   dict_contains name (versions (metadata w)) = true /\
   metadata w' =
     {| current_version := current_version (metadata w);
        versions := dict_del name (versions (metadata w)) |} /\
   metadata_file w' = Some (Json (metadata w')) /\
   training_data_file w' = training_data_file w /\
   train_dataset w' = train_dataset w /\
   model w' = model w /\ scaler w' = scaler w).
Proof.
  unfold delete_version.
  destruct (String.eqb_spec name "Original") as [| Hno];
    [intros [= <- <-]; now left |].
  run_unfold.
  destruct (String.eqb_spec name (current_version (metadata w))) as [| Hnc];
    [intros [= <- <-]; now left |].
  destruct (dict_get name (versions (metadata w))) as [info |] eqn:Hget;
    [| intros [= <- <-]; now left].
  apply dict_get_Some_contains in Hget.
  unfold path_exists. cbv beta iota zeta.
  run_lookup; [run_stage UnlinkModel; [discriminate |] |];
    (run_lookup; [run_stage UnlinkScaler; [discriminate |] |]);
    (run_stage SaveMetadata; [discriminate |]);
    intros [= <- <-]; right; world_simpl; repeat split; auto.
Qed.

(** X2: the metadata file follows the registry.  When [switch_version] or
    [delete_version] returns true, when a retrain returns, and when the
    constructor returns, the metadata file holds the registry in memory;
    when they return false the state is untouched.  Constructing the
    manager again from such a state (the file being readable) changes
    nothing: a restart finds the same registry. *)
Theorem metadata_file_follows_registry (e : env) (w w' : world) :
  (forall name b, switch_version name e w = (w', Returns b) ->
     if b then in_sync w' else w' = w) /\
  (forall name b, delete_version name e w = (w', Returns b) ->
     if b then in_sync w' else w' = w) /\
  (forall d l r, retrain_incremental d l e w = (w', Returns r) -> in_sync w') /\
  (__init__ e w = (w', Returns tt) -> in_sync w') /\
  (in_sync w -> fault e LoadMetadata = None -> __init__ e w = (w, Returns tt)).
Proof.
  unfold in_sync. split; [| split; [| split; [| split]]].
  - intros name b H. apply switch_version_returns in H.
    destruct H as [(-> & -> & _) | (-> & _ & ->)]; reflexivity.
  - intros name b H. apply delete_version_returns in H.
    destruct H as [(-> & ->) | (-> & _ & _ & _ & _ & Hf & _)]; [reflexivity | exact Hf].
  - intros d l r H. unfold retrain_incremental in H.
    apply _do_retrain_returns, retrain_body_returns in H.
    destruct H as (base & info & H). cbv zeta in H. apply H.
  - unfold __init__, _load_metadata. run_unfold.
    destruct (metadata_file w) as [[r |] |] eqn:Hfile.
    + run_stage LoadMetadata; [discriminate |]. intros [= <-]. world_simpl.
      exact Hfile.
    + run_stage LoadMetadata; discriminate.
    + run_stage SaveMetadata; [discriminate |]. intros [= <-]. reflexivity.
  - intros Hsync Hload. unfold __init__, _load_metadata. run_unfold.
    rewrite Hsync. cbv beta iota zeta. rewrite Hload. cbv beta iota zeta.
    now rewrite set_metadata_same.
Qed.

Lemma metadata_file_follows_registry_witness :
  in_sync switched_back /\
  __init__ quiet_env switched_back = (switched_back, Returns tt).
Proof.
  pose proof (metadata_file_follows_registry quiet_env retrained_twice switched_back)
    as (Hswitch & _).
  pose proof (metadata_file_follows_registry quiet_env switched_back switched_back)
    as (_ & _ & _ & _ & Hrestart).
  assert (Hsync : in_sync switched_back).
  { apply (Hswitch "Original" true). vm_compute. reflexivity. }
  split; [exact Hsync |]. apply Hrestart; [exact Hsync | reflexivity].
Defined.

(** ** The names of the versions *)

Lemma dict_keys_del_filter {V} k (d : dict V) :
  dict_keys (dict_del k d) = List.filter (fun k' => negb (String.eqb k k')) (dict_keys d).
Proof.
  unfold dict_keys, dict_del.
  induction d as [| [k0 v0] d IH]; cbn [List.filter List.map fst]; [reflexivity |].
  destruct (String.eqb k k0); cbn [negb List.map fst]; now rewrite IH.
Qed.

Lemma dict_keys_set_fresh {V} k v (d : dict V) :
  k ∉ dict_keys d -> dict_keys (dict_set k v d) = dict_keys d ++ [k].
Proof.
  intros Hk. rewrite (dict_set_fresh _ _ _ Hk). unfold dict_keys.
  now rewrite List.map_app.
Qed.

Lemma version_num_original : version_num "Original" = None.
Proof. reflexivity. Qed.

Lemma minted_name_next vs : 1 <= next_num vs -> minted_name ("V" +:+ Py.str (next_num vs)).
Proof. intros H. right. eauto. Qed.

Lemma next_num_positive vs : Forall minted_name (dict_keys vs) -> 1 <= next_num vs.
Proof.
  intros Hm. unfold next_num.
  destruct (version_nums vs) as [| x l] eqn:Hnums; [lia |].
  pose proof (py_max_le x l).
  assert (Hx : x ∈ version_nums vs) by (rewrite Hnums; left).
  unfold version_nums in Hx. apply list_elem_of_omap in Hx.
  destruct Hx as (k & Hk & Hnum).
  rewrite Forall_forall in Hm. destruct (Hm k Hk) as [-> | (n & Hn & ->)].
  - rewrite version_num_original in Hnum. discriminate.
  - rewrite version_num_name in Hnum. injection Hnum as <-. lia.
Qed.

Lemma names_ok_initial created : names_ok (initial_metadata created).
Proof.
  unfold names_ok, dict_keys. cbn [initial_metadata versions List.map fst].
  split; [apply NoDup_singleton |]. split; [left |].
  constructor; [now left | constructor].
Qed.

Lemma names_ok_versions r r' : versions r' = versions r -> names_ok r -> names_ok r'.
Proof. unfold names_ok. now intros ->. Qed.

Lemma names_ok_del r name c :
  name <> "Original" -> names_ok r ->
  names_ok {| current_version := c; versions := dict_del name (versions r) |}.
Proof.
  unfold names_ok. cbn [versions]. intros Hne (Hnd & Horig & Hm).
  split; [| split].
  - rewrite dict_keys_del_filter.
    apply NoDup_ListNoDup, List.NoDup_filter, NoDup_ListNoDup, Hnd.
  - apply dict_keys_del. split; [congruence | exact Horig].
  - rewrite Forall_forall in Hm |- *. intros k Hk.
    apply dict_keys_del in Hk. apply Hm, Hk.
Qed.

Lemma names_ok_mint r info c :
  names_ok r ->
  names_ok {| current_version := c;
              versions := dict_set ("V" +:+ Py.str (next_num (versions r))) info
                            (versions r) |}.
Proof.
  unfold names_ok. cbn [versions]. intros (Hnd & Horig & Hm).
  pose proof (next_name_fresh (versions r)) as Hfresh.
  rewrite (dict_keys_set_fresh _ _ _ Hfresh).
  split; [| split].
  - apply NoDup_app. split; [exact Hnd |]. split; [| apply NoDup_singleton].
    intros k Hk Hk'. apply list_elem_of_singleton in Hk'. congruence.
  - apply elem_of_app. now left.
  - apply Forall_app. split; [exact Hm |].
    constructor; [| constructor]. apply minted_name_next, next_num_positive, Hm.
Qed.

Lemma __init___names e w :
  match metadata_file w with
  | Some (Json r) => names_ok r
  | _ => True
  end ->
  (metadata_file w = None \/ names_ok (metadata w)) ->
  names_kept (fst (__init__ e w)).
Proof.
  unfold names_kept, __init__, _load_metadata. run_unfold.
  destruct (metadata_file w) as [[r |] |] eqn:Hfile; intros Hr Hw.
  - destruct Hw as [Hw | Hw]; [discriminate |].
    run_stage LoadMetadata; cbn [fst]; world_simpl; rewrite ?Hfile; auto.
  - destruct Hw as [Hw | Hw]; [discriminate |].
    run_stage LoadMetadata; cbn [fst]; world_simpl; rewrite ?Hfile; auto.
  - run_stage SaveMetadata; cbn [fst]; world_simpl; run_cut; rewrite ?Hfile;
      auto using names_ok_initial.
Qed.

Lemma switch_version_names name e w :
  names_kept w -> names_kept (fst (switch_version name e w)).
Proof.
  unfold names_kept, switch_version. run_unfold. intros [Hmem Hfile].
  destruct (dict_contains name (versions (metadata w))) eqn:Hin;
    cbn [negb]; cbv beta iota zeta; [| now split].
  assert (names_ok {| current_version := name; versions := versions (metadata w) |})
    by (now apply (names_ok_versions (metadata w))).
  run_stage SaveMetadata; cbn [fst]; world_simpl; run_cut; split; auto.
Qed.

Lemma delete_version_names name e w :
  names_kept w -> names_kept (fst (delete_version name e w)).
Proof.
  unfold names_kept, delete_version. intros [Hmem Hfile].
  destruct (String.eqb_spec name "Original") as [| Hno]; [now split |].
  run_unfold. destruct (String.eqb name (current_version (metadata w)));
    [now split |].
  destruct (dict_get name _) as [info |]; [| now split].
  unfold path_exists. cbv beta iota zeta.
  pose proof (names_ok_del (metadata w) name (current_version (metadata w)) Hno Hmem)
    as Hdel.
  run_lookup; [run_stage UnlinkModel; [now split |] |];
    (run_lookup; [run_stage UnlinkScaler; [now split |] |]);
    run_stage SaveMetadata; cbn [fst]; world_simpl; run_cut; now split.
Qed.

Lemma retrain_incremental_names d l e w :
  names_kept w -> names_kept (fst (retrain_incremental d l e w)).
Proof.
  unfold names_kept, retrain_incremental. intros [Hmem Hfile].
  destruct (_do_retrain d l e w) as [w' [r | x]] eqn:Hrun; cbn [fst].
  - apply _do_retrain_returns, retrain_body_returns in Hrun.
    destruct Hrun as (base & info & Hrun). cbv zeta in Hrun.
    destruct Hrun as (_ & _ & _ & _ & _ & _ & _ & _ & Hmeta & Hf & _).
    rewrite Hf, Hmeta. unfold _get_next_version_number.
    split; now apply names_ok_mint.
  - apply _do_retrain_raises in Hrun. destruct Hrun as (x0 & Hrun & _).
    apply retrain_body_raises in Hrun.
    destruct Hrun as ([[Hmeta Hf] | (msg & info & _ & _ & Hmeta & Hf & _)] & _);
      rewrite Hf, Hmeta; [now split |].
    unfold _get_next_version_number.
    run_cut; (split; [now apply names_ok_mint | first [exact I | assumption]]).
Qed.

Lemma run_op_names o e w : names_kept w -> names_kept (run_op o e w).
Proof.
  intros Hok. destruct o; cbn [run_op].
  - destruct Hok as [Hmem Hfile]. apply __init___names; [exact Hfile | now right].
  - now apply switch_version_names.
  - now apply retrain_incremental_names.
  - now apply delete_version_names.
Qed.

Lemma run_names ops : forall w, names_kept w -> names_kept (run ops w).
Proof.
  induction ops as [| [o e] ops IH]; intros w Hok; cbn [run]; [exact Hok |].
  apply IH, run_op_names, Hok.
Qed.

Lemma run_from_bootstrap_names e0 w0 ops :
  metadata_file w0 = None -> names_kept (run ((Bootstrap, e0) :: ops) w0).
Proof.
  intros Hnone. cbn [run run_op]. apply run_names, __init___names.
  - now rewrite Hnone.
  - now left.
Qed.

Lemma run_from_bootstrap_ok e0 w0 ops :
  metadata_file w0 = None -> registry_ok (run ((Bootstrap, e0) :: ops) w0).
Proof.
  intros Hnone. cbn [run run_op]. apply run_ok, __init___ok.
  - now rewrite Hnone.
  - now left.
Qed.

(** X3: in every state the manager reaches from a construction without a
    metadata file, by whatever operations, returning or raising: the
    names [list_versions] shows are distinct, ["Original"] is among them
    (it is never deleted), and every other name is [V<n>] for a positive
    [n]. *)
Theorem version_names_kept (e0 : env) (w0 : world) (ops : list (op * env)) :
  metadata_file w0 = None ->
  let names := List.map version (list_versions (run ((Bootstrap, e0) :: ops) w0)) in
  NoDup names /\
  "Original" ∈ names /\
  (forall name, name ∈ names -> name <> "Original" ->
     exists n, 1 <= n /\ name = "V" +:+ Py.str n /\ version_num name = Some n).
Proof.
  intros Hnone. cbv zeta.
  destruct (run_from_bootstrap_names e0 w0 ops Hnone) as [(Hnd & Horig & Hm) _].
  rewrite list_versions_names. split; [exact Hnd |]. split; [exact Horig |].
  intros name Hname Hne. rewrite Forall_forall in Hm.
  rewrite list_versions_names in Hname.
  destruct (Hm name Hname) as [-> | (n & Hn & ->)]; [congruence |].
  exists n. split; [exact Hn |]. split; [reflexivity | apply version_num_name].
Qed.

Lemma version_names_kept_witness :
  let w := run [(Bootstrap, quiet_env);
                (Retrain sample_data 0, failing_env FitModel "Unknown label type: unknown");
                (Retrain sample_data 1, quiet_env);
                (Delete "Original", quiet_env);
                (Retrain sample_data 0, failing_env SaveMetadata "disk full");
                (Switch "V1", quiet_env);
                (Delete "V2", quiet_env)] deployed in
  List.map version (list_versions w) = ["Original"; "V1"] /\
  "Original" ∈ List.map version (list_versions w).
Proof.
  pose proof (version_names_kept quiet_env deployed
                [(Retrain sample_data 0, failing_env FitModel "Unknown label type: unknown");
                 (Retrain sample_data 1, quiet_env);
                 (Delete "Original", quiet_env);
                 (Retrain sample_data 0, failing_env SaveMetadata "disk full");
                 (Switch "V1", quiet_env);
                 (Delete "V2", quiet_env)] eq_refl) as (_ & Horig & _).
  cbv zeta in *. split; [vm_compute; reflexivity | exact Horig].
Defined.

(** ** The list of a registry the manager has built *)

Lemma sort_insert_filter_length {A} (key : A -> Z * Z) (f : A -> bool) x l :
  length (List.filter f (sort_insert key x l)) = length (List.filter f (x :: l)).
Proof.
  induction l as [| y l IH]; cbn [sort_insert]; [reflexivity |].
  destruct (tuple_lt (key y) (key x)); [| reflexivity].
  cbn [List.filter] in *. destruct (f y), (f x); cbn [length] in *; lia.
Qed.

Lemma py_sort_filter_length {A} (key : A -> Z * Z) (f : A -> bool) l :
  length (List.filter f (py_sort key l)) = length (List.filter f l).
Proof.
  induction l as [| x l IH]; cbn [py_sort]; [reflexivity |].
  rewrite sort_insert_filter_length. cbn [List.filter].
  destruct (f x); cbn [length]; now rewrite IH.
Qed.

Lemma current_views_absent c (vs : dict version_info) :
  c ∉ dict_keys vs ->
  List.filter is_current (List.map (view_of c) vs) = [].
Proof.
  unfold dict_keys.
  induction vs as [| [k v] vs IH]; cbn [List.map List.filter fst]; [reflexivity |].
  rewrite not_elem_of_cons. intros [Hne Hk].
  cbn [view_of is_current fst]. destruct (String.eqb_spec k c); [congruence |].
  now apply IH.
Qed.

Lemma current_views_once c (vs : dict version_info) :
  NoDup (dict_keys vs) -> c ∈ dict_keys vs ->
  length (List.filter is_current (List.map (view_of c) vs)) = 1%nat.
Proof.
  unfold dict_keys.
  induction vs as [| [k v] vs IH]; cbn [List.map List.filter fst].
  - intros _ H. inversion H.
  - rewrite NoDup_cons, elem_of_cons. intros [Hk Hnd] Hc.
    cbn [view_of is_current fst]. destruct (String.eqb_spec k c) as [-> | Hne].
    + cbn [length]. now rewrite (current_views_absent c vs Hk).
    + destruct Hc as [-> | Hc]; [congruence |]. now apply IH.
Qed.

Lemma minted_names_ascending (names : list string) :
  NoDup names -> "Original" ∉ names -> Forall minted_name names ->
  StronglySorted (fun a b => tuple_le (sort_key a) (sort_key b)) names ->
  exists ns, names = List.map (fun n => "V" +:+ Py.str n) ns /\
             StronglySorted Z.lt ns /\ Forall (Z.le 1) ns.
Proof.
  induction names as [| x names IH]; intros Hnd Horig Hm Hs.
  - exists []. repeat split; constructor.
  - apply NoDup_cons in Hnd. destruct Hnd as [Hx Hnd].
    apply not_elem_of_cons in Horig. destruct Horig as [Hxo Horig].
    inversion Hm as [| ? ? Hmx Hmrest]; subst.
    apply StronglySorted_inv in Hs. destruct Hs as [Hsrest Hle].
    destruct (IH Hnd Horig Hmrest Hsrest) as (ns & -> & Hsorted & Hpos).
    destruct Hmx as [-> | (n & Hn & ->)]; [congruence |].
    exists (n :: ns). split; [reflexivity |]. split; [| now constructor].
    constructor; [exact Hsorted |].
    rewrite Forall_forall in Hle. apply Forall_forall. intros m Hmem.
    assert (Hin : "V" +:+ Py.str m ∈ List.map (fun n => "V" +:+ Py.str n) ns).
    { apply list_elem_of_fmap. eauto. }
    specialize (Hle _ Hin). rewrite !sort_key_name in Hle.
    unfold tuple_le, tuple_lt in Hle. cbn [fst snd] in Hle.
    assert (n <> m) by (intros ->; contradiction).
    lia.
Qed.

Lemma minted_names_shape (names : list string) :
  NoDup names -> "Original" ∈ names -> Forall minted_name names ->
  StronglySorted (fun a b => tuple_le (sort_key a) (sort_key b)) names ->
  exists ns, names = "Original" :: List.map (fun n => "V" +:+ Py.str n) ns /\
             StronglySorted Z.lt ns /\ Forall (Z.le 1) ns.
Proof.
  intros Hnd Horig Hm Hs. destruct names as [| x names]; [inversion Horig |].
  apply NoDup_cons in Hnd. destruct Hnd as [Hx Hnd].
  inversion Hm as [| ? ? Hmx Hmrest]; subst.
  apply StronglySorted_inv in Hs. destruct Hs as [Hsrest Hle].
  assert (Hxo : x = "Original").
  { destruct Hmx as [-> | (n & Hn & ->)]; [reflexivity |].
    apply elem_of_cons in Horig. destruct Horig as [Heq | Hin]; [discriminate |].
    rewrite Forall_forall in Hle. specialize (Hle _ Hin).
    rewrite sort_key_name, sort_key_original in Hle. discriminate. }
  subst x.
  destruct (minted_names_ascending names Hnd Hx Hmrest Hsrest) as (ns & -> & H).
  exists ns. split; [reflexivity | exact H].
Qed.

Lemma list_versions_sorted_names w :
  StronglySorted (fun a b => tuple_le (sort_key a) (sort_key b))
    (List.map version (list_versions w)).
Proof.
  unfold list_versions.
  pose proof (py_sort_sorted (fun v => sort_key (version v))
                (List.map (view_of (current_version (metadata w)))
                          (versions (metadata w)))) as Hs.
  induction Hs as [| v l Hl IH Hv]; cbn [List.map]; constructor.
  - exact IH.
  - rewrite Forall_forall in Hv. apply Forall_forall. intros name Hname.
    apply list_elem_of_fmap in Hname. destruct Hname as (v' & -> & Hv').
    apply (Hv v' Hv').
Qed.

(** X4: in every state the manager reaches from a construction without a
    metadata file, [list_versions] is ["Original"] followed by the [V<n>]
    entries in strictly ascending order of [n], and exactly one entry is
    flagged current. *)
Theorem list_versions_of_built_registry
    (e0 : env) (w0 : world) (ops : list (op * env)) :
  metadata_file w0 = None ->
  let w := run ((Bootstrap, e0) :: ops) w0 in
  (exists ns,
     List.map version (list_versions w) =
       "Original" :: List.map (fun n => "V" +:+ Py.str n) ns /\
     StronglySorted Z.lt ns /\ Forall (Z.le 1) ns) /\
  length (List.filter is_current (list_versions w)) = 1%nat.
Proof.
  intros Hnone. cbv zeta.
  destruct (run_from_bootstrap_names e0 w0 ops Hnone) as [(Hnd & Horig & Hm) _].
  destruct (run_from_bootstrap_ok e0 w0 ops Hnone) as [Hcur _].
  set (w := run ((Bootstrap, e0) :: ops) w0) in *. split.
  - apply minted_names_shape.
    + now rewrite list_versions_names.
    + now rewrite list_versions_names.
    + now rewrite list_versions_names.
    + apply list_versions_sorted_names.
  - unfold list_versions. rewrite py_sort_filter_length.
    apply current_views_once; [exact Hnd |].
    apply dict_contains_keys, Hcur.
Qed.

Lemma list_versions_of_built_registry_witness :
  let w := run [(Bootstrap, quiet_env);
                (Retrain sample_data 0, failing_env FitModel "Unknown label type: unknown");
                (Retrain sample_data 1, quiet_env);
                (Retrain sample_data 0, quiet_env);
                (Retrain sample_data 1, quiet_env);
                (Switch "V1", quiet_env);
                (Delete "V2", quiet_env)] deployed in
  List.map version (list_versions w) = ["Original"; "V1"; "V3"] /\
  List.map is_current (list_versions w) = [false; true; false] /\
  length (List.filter is_current (list_versions w)) = 1%nat.
Proof.
  pose proof (list_versions_of_built_registry quiet_env deployed
                [(Retrain sample_data 0, failing_env FitModel "Unknown label type: unknown");
                 (Retrain sample_data 1, quiet_env);
                 (Retrain sample_data 0, quiet_env);
                 (Retrain sample_data 1, quiet_env);
                 (Switch "V1", quiet_env);
                 (Delete "V2", quiet_env)] eq_refl) as (_ & Hone).
  cbv zeta in *. split; [vm_compute; reflexivity |].
  split; [vm_compute; reflexivity | exact Hone].
Defined.

(** ** What a retrain leaves *)

Lemma append_inj_r (s a b : string) : s +:+ a = s +:+ b -> a = b.
Proof.
  induction s as [| c s IH]; [trivial |].
  change (String c s +:+ a) with (String c (s +:+ a)).
  change (String c s +:+ b) with (String c (s +:+ b)).
  intros [= H]. now apply IH.
Qed.

Lemma model_file_not_scaler_file name name' : model_file name <> scaler_file name'.
Proof.
  unfold model_file, scaler_file, path_join. intros H.
  apply append_inj_r, append_inj_r in H. discriminate.
Qed.

Lemma name_not_original n : "V" +:+ Py.str n <> "Original".
Proof. intros H. apply (f_equal Py.startswith_V) in H. discriminate. Qed.

Lemma dict_get_set_ne {V} k k' (v : V) d :
  k' <> k -> dict_get k' (dict_set k v d) = dict_get k' d.
Proof.
  intros Hne. induction d as [| [k0 v0] d IH]; cbn [dict_set dict_get].
  - destruct (String.eqb_spec k' k); [congruence | reflexivity].
  - destruct (String.eqb_spec k k0) as [-> | Hk]; cbn [dict_get].
    + destruct (String.eqb_spec k' k0); [congruence | reflexivity].
    + now rewrite IH.
Qed.

Lemma dict_del_absent {V} k (d : dict V) : k ∉ dict_keys d -> dict_del k d = d.
Proof.
  unfold dict_keys, dict_del.
  induction d as [| [k0 v0] d IH]; cbn [List.filter List.map fst]; [reflexivity |].
  rewrite not_elem_of_cons. intros [Hne Hk].
  destruct (String.eqb_spec k k0); [congruence |]. cbn [negb]. now rewrite IH.
Qed.

Lemma dict_del_set_fresh {V} k (v : V) d :
  k ∉ dict_keys d -> dict_del k (dict_set k v d) = d.
Proof.
  intros Hk. rewrite (dict_set_fresh _ _ _ Hk). unfold dict_del.
  rewrite List.filter_app. cbn [List.filter fst]. rewrite String.eqb_refl.
  cbn [negb]. rewrite app_nil_r. now apply dict_del_absent.
Qed.

(** The files and the rest of the state after a retrain that returns. *)
Lemma retrain_body_files d l e w w' r :
  retrain_body d l e w = (w', Returns r) ->
  exists base,
    let name := _get_next_version_number w in
    train_dataset w = Some base /\
    joblib_files w' =
      <[scaler_file name := fitted_scaler e (combined_table d l base w)]>
        (<[model_file name := fitted_model e (combined_table d l base w)]>
           (joblib_files w)) /\
    train_dataset w' = train_dataset w /\
    model w' = model w /\ scaler w' = scaler w /\
    r_accuracy r = train_accuracy e (combined_table d l base w) /\
    r_cv_accuracy r = cv_mean e (combined_table d l base w).
Proof.
  unfold combined_table, appended_table, model_file, scaler_file,
    _get_next_version_number.
  retrain_walk ltac:(discriminate).
  all: try discriminate.
  all: intros [= <- <-]; world_simpl; eexists; cbv zeta;
    repeat split; first [reflexivity | assumption].
Qed.

(** X5: after a retrain that returns, loading the version it made gives
    back exactly the model and the scaler fitted by that retrain on the
    base rows followed by the incremental rows, and that version is the
    one loaded by default. *)
Theorem retrain_then_load
    (new_data : gmap string float) (actual_label : Z) (e e' : env) (w w' : world)
    (r : retrain_result) :
  retrain_incremental new_data actual_label e w = (w', Returns r) ->
  fault e' LoadModel = None -> fault e' LoadScaler = None ->
  exists base,
    train_dataset w = Some base /\
    let combined :=
      base ++ default [] (training_data_file w) ++ [new_row new_data actual_label] in
    load_model_and_scaler (Some (r_version r)) e' w' =
      (w', Returns (fitted_model e combined, fitted_scaler e combined)) /\
    load_model_and_scaler None e' w' =
      (w', Returns (fitted_model e combined, fitted_scaler e combined)).
Proof.
  unfold retrain_incremental. rewrite _do_retrain_returns. intros H Hlm Hls.
  destruct (retrain_body_returns _ _ _ _ _ _ H)
    as (base0 & info & _ & Hname & _ & _ & _ & _ & Hmp & Hsp & Hmeta & _).
  destruct (retrain_body_files _ _ _ _ _ _ H) as (base & Hbase & Hfiles & _).
  cbv zeta in *. unfold _get_next_version_number in *.
  set (name := "V" +:+ Py.str (next_num (versions (metadata w)))) in *.
  unfold combined_table, appended_table in Hfiles.
  exists base. split; [exact Hbase |].
  assert (Hload : load_model_and_scaler (Some name) e' w' =
            (w', Returns (fitted_model e (base ++ default [] (training_data_file w)
                                            ++ [new_row new_data actual_label]),
                          fitted_scaler e (base ++ default [] (training_data_file w)
                                             ++ [new_row new_data actual_label])))).
  { apply (load_model_and_scaler_found name info); try assumption.
    - rewrite Hmeta. cbn [versions]. apply dict_get_set.
    - cbv zeta. change (String.eqb name "Original") with false. cbv iota.
      rewrite Hmp, Hsp, Hfiles. fold (model_file name) (scaler_file name).
      split.
      + rewrite lookup_insert_ne by (apply not_eq_sym, model_file_not_scaler_file).
        apply lookup_insert_eq.
      + apply lookup_insert_eq. }
  split; [now rewrite Hname |].
  unfold load_model_and_scaler in *. run_unfold. world_simpl.
  rewrite Hmeta in *. cbn [current_version versions] in *. exact Hload.
Qed.

Lemma retrain_then_load_witness :
  load_model_and_scaler (Some "V1") quiet_env retrained =
    (retrained, Returns (sample_classifier, sample_scaler)).
Proof.
  destruct (retrain_incremental sample_data 1 quiet_env first_attempt)
    as [w' [r | x]] eqn:Hrun.
  - destruct (retrain_then_load _ _ _ quiet_env _ _ _ Hrun eq_refl eq_refl)
      as (base & _ & Hload & _).
    cbv zeta in Hload. vm_compute in Hrun. injection Hrun as <- <-.
    vm_compute. reflexivity.
  - vm_compute in Hrun. discriminate.
Defined.

Lemma list_versions_length w :
  length (list_versions w) = length (versions (metadata w)).
Proof.
  unfold list_versions. rewrite (Permutation_length (py_sort_perm _ _)).
  apply length_map.
Qed.

(** X6: a retrain that returns only adds.  Every version registered
    before keeps its record, the list grows by one entry, every joblib
    artifact other than the two of the new version is as before, and the
    base table and the loaded model and scaler of the serving process are
    untouched.  (The metadata file and the incremental table are
    rewritten.) *)
Theorem retrain_only_adds
    (new_data : gmap string float) (actual_label : Z) (e : env) (w w' : world)
    (r : retrain_result) :
  retrain_incremental new_data actual_label e w = (w', Returns r) ->
  (forall name, name <> r_version r ->
     dict_get name (versions (metadata w')) = dict_get name (versions (metadata w))) /\
  (forall name, dict_contains name (versions (metadata w)) = true ->
     name ∈ List.map version (list_versions w')) /\
  length (list_versions w') = S (length (list_versions w)) /\
  (forall path, path <> model_file (r_version r) ->
     path <> scaler_file (r_version r) ->
     joblib_files w' !! path = joblib_files w !! path) /\
  train_dataset w' = train_dataset w /\
  model w' = model w /\ scaler w' = scaler w.
Proof.
  unfold retrain_incremental. rewrite _do_retrain_returns. intros H.
  destruct (retrain_body_returns _ _ _ _ _ _ H)
    as (base0 & info & _ & Hname & _ & _ & _ & _ & _ & _ & Hmeta & _).
  destruct (retrain_body_files _ _ _ _ _ _ H)
    as (base & _ & Hfiles & Hbase & Hm & Hs & _).
  cbv zeta in *. rewrite Hname. unfold _get_next_version_number in *.
  pose proof (next_name_fresh (versions (metadata w))) as Hfresh.
  split; [| split; [| split; [| split]]].
  - intros name Hne. rewrite Hmeta. cbn [versions]. now apply dict_get_set_ne.
  - intros name Hin. apply list_versions_name. rewrite Hmeta. cbn [versions].
    apply dict_contains_keys, dict_keys_set. right. now apply dict_contains_keys.
  - rewrite !list_versions_length, Hmeta. cbn [versions].
    rewrite (dict_set_fresh _ _ _ Hfresh), length_app. cbn [length]. lia.
  - intros path Hpm Hps. rewrite Hfiles.
    rewrite lookup_insert_ne by congruence. now rewrite lookup_insert_ne by congruence.
  - auto.
Qed.

Lemma retrain_only_adds_witness :
  dict_get "V1" (versions (metadata retrained_twice)) =
    dict_get "V1" (versions (metadata retrained)) /\
  joblib_files retrained_twice !! MODEL_PATH = joblib_files retrained !! MODEL_PATH /\
  length (list_versions retrained_twice) = 3%nat.
Proof.
  destruct (retrain_incremental sample_data 1 quiet_env retrained)
    as [w' [r | x]] eqn:Hrun.
  - destruct (retrain_only_adds _ _ _ _ _ _ Hrun) as (Hrec & _ & _ & Hfile & _).
    vm_compute in Hrun. injection Hrun as <- <-.
    split; [apply Hrec; discriminate |].
    split; [apply Hfile; discriminate | vm_compute; reflexivity].
  - vm_compute in Hrun. discriminate.
Defined.

(** X7: switching back and deleting the new version undoes the registry
    part of a retrain, not the rest.  After a retrain that returns,
    switching to the version that was current and deleting the new one
    both return true and leave the registry exactly as it was before the
    retrain, with no file at the new version's two paths; the appended
    row stays in the incremental table; and the next retrain mints the
    same name again. *)
Theorem delete_undoes_retrain
    (new_data : gmap string float) (actual_label : Z) (e1 e2 e3 : env)
    (w w1 : world) (r : retrain_result) :
  retrain_incremental new_data actual_label e1 w = (w1, Returns r) ->
  dict_contains (current_version (metadata w)) (versions (metadata w)) = true ->
  fault e2 SaveMetadata = None ->
  fault e3 UnlinkModel = None -> fault e3 UnlinkScaler = None ->
  fault e3 SaveMetadata = None ->
  exists w2 w3,
    switch_version (current_version (metadata w)) e2 w1 = (w2, Returns true) /\
    delete_version (r_version r) e3 w2 = (w3, Returns true) /\
    metadata w3 = metadata w /\
    joblib_files w3 !! model_file (r_version r) = None /\
    joblib_files w3 !! scaler_file (r_version r) = None /\
    training_data_file w3 =
      Some (default [] (training_data_file w) ++ [new_row new_data actual_label]) /\
    _get_next_version_number w3 = r_version r.
Proof.
  unfold retrain_incremental. rewrite _do_retrain_returns.
  intros H Hcur Hs2 Hum Hus Hs3.
  destruct (retrain_body_returns _ _ _ _ _ _ H)
    as (base & info & _ & Hname & _ & _ & _ & _ & Hmp & Hsp & Hmeta & _ & Htab).
  cbv zeta in *. unfold _get_next_version_number in *.
  set (name := "V" +:+ Py.str (next_num (versions (metadata w)))) in *.
  set (c := current_version (metadata w)) in *.
  pose proof (next_name_fresh (versions (metadata w))) as Hfresh. fold name in Hfresh.
  assert (Hne : name <> c).
  { intros Heq. apply dict_contains_keys in Hcur. congruence. }
  assert (Hsw : switch_version c e2 w1 =
            (let r := {| current_version := c; versions := versions (metadata w1) |} in
             set_metadata_file (Some (Json r)) (set_metadata r w1), Returns true)).
  { apply switch_version_known; [| exact Hs2].
    rewrite Hmeta. cbn [versions]. apply dict_contains_keys, dict_keys_set.
    right. now apply dict_contains_keys. }
  cbv zeta in Hsw. eexists. rewrite Hname.
  edestruct (delete_version_removes name info e3) as (w3 & Hdel & Hfm & Hfs & Hm3 & _);
    [apply name_not_original | | | exact Hum | exact Hus | exact Hs3 |].
  3: { exists w3. split; [exact Hsw |]. split; [exact Hdel |].
       pose proof (delete_version_returns _ _ _ _ _ Hdel) as Hret.
       destruct Hret as [(Hb & _) | (_ & _ & _ & _ & _ & _ & Ht3 & _)];
         [discriminate |].
       rewrite Hmp in Hfm. rewrite Hsp in Hfs.
       revert Hm3 Ht3. world_simpl. rewrite Hmeta. cbn [versions].
       rewrite (dict_del_set_fresh _ _ _ Hfresh). unfold c.
       rewrite registry_eta. intros Hm3 Ht3.
       split; [exact Hm3 |]. split; [exact Hfm |]. split; [exact Hfs |].
       split; [now rewrite Ht3 |]. now rewrite Hm3. }
  - world_simpl. exact Hne.
  - world_simpl. rewrite Hmeta. cbn [versions]. apply dict_get_set.
Qed.

Lemma delete_undoes_retrain_witness :
  exists w2 w3,
    switch_version "Original" quiet_env retrained = (w2, Returns true) /\
    delete_version "V1" quiet_env w2 = (w3, Returns true) /\
    metadata w3 = metadata first_attempt /\
    training_data_file w3 = Some [new_row sample_data 0; new_row sample_data 1] /\
    _get_next_version_number w3 = "V1".
Proof.
  destruct (retrain_incremental sample_data 1 quiet_env first_attempt)
    as [w1 [r | x]] eqn:Hrun.
  - destruct (delete_undoes_retrain _ _ _ quiet_env quiet_env _ _ _ Hrun)
      as (w2 & w3 & Hsw & Hdel & Hmeta & _ & _ & Htab & Hnext);
      try reflexivity.
    vm_compute in Hrun. injection Hrun as <- <-.
    exists w2, w3. split; [exact Hsw |]. split; [exact Hdel |].
    split; [exact Hmeta |]. split; [exact Htab | exact Hnext].
  - vm_compute in Hrun. discriminate.
Defined.

(** ** The incremental table *)

Lemma paths_ok_initial created : paths_ok (initial_metadata created).
Proof.
  unfold paths_ok. cbn [initial_metadata versions].
  constructor; [now left | constructor].
Qed.

Lemma paths_ok_versions r r' : versions r' = versions r -> paths_ok r -> paths_ok r'.
Proof. unfold paths_ok. now intros ->. Qed.

Lemma paths_ok_del r name c :
  paths_ok r ->
  paths_ok {| current_version := c; versions := dict_del name (versions r) |}.
Proof.
  unfold paths_ok, dict_del. cbn [versions]. intros H.
  apply List.Forall_forall. intros kv Hin. apply List.filter_In in Hin.
  destruct Hin as [Hin _]. revert kv Hin. now apply List.Forall_forall.
Qed.

Lemma Forall_dict_set {V} (P : string * V -> Prop) k v (d : dict V) :
  Forall P d -> P (k, v) -> Forall P (dict_set k v d).
Proof.
  intros Hd Hk. induction d as [| [k0 v0] d IH]; cbn [dict_set].
  - constructor; [exact Hk | constructor].
  - inversion Hd; subst. destruct (String.eqb_spec k k0) as [-> | Hne].
    + constructor; assumption.
    + constructor; [assumption | now apply IH].
Qed.

Lemma paths_ok_mint r name c info :
  model_path info = "model_" +:+ name +:+ ".joblib" ->
  scaler_path info = "scaler_" +:+ name +:+ ".joblib" ->
  paths_ok r ->
  paths_ok {| current_version := c; versions := dict_set name info (versions r) |}.
Proof.
  unfold paths_ok. cbn [versions]. intros Hm Hs H.
  apply Forall_dict_set; [exact H |]. right. now split.
Qed.

Lemma __init___paths e w :
  match metadata_file w with
  | Some (Json r) => paths_ok r
  | _ => True
  end ->
  (metadata_file w = None \/ paths_ok (metadata w)) ->
  paths_kept (fst (__init__ e w)).
Proof.
  unfold paths_kept, __init__, _load_metadata. run_unfold.
  destruct (metadata_file w) as [[r |] |] eqn:Hfile; intros Hr Hw.
  - destruct Hw as [Hw | Hw]; [discriminate |].
    run_stage LoadMetadata; cbn [fst]; world_simpl; rewrite ?Hfile; auto.
  - destruct Hw as [Hw | Hw]; [discriminate |].
    run_stage LoadMetadata; cbn [fst]; world_simpl; rewrite ?Hfile; auto.
  - run_stage SaveMetadata; cbn [fst]; world_simpl; run_cut; rewrite ?Hfile;
      auto using paths_ok_initial.
Qed.

Lemma switch_version_paths name e w :
  paths_kept w -> paths_kept (fst (switch_version name e w)).
Proof.
  unfold paths_kept, switch_version. run_unfold. intros [Hmem Hfile].
  destruct (dict_contains name (versions (metadata w))) eqn:Hin;
    cbn [negb]; cbv beta iota zeta; [| now split].
  assert (paths_ok {| current_version := name; versions := versions (metadata w) |})
    by (now apply (paths_ok_versions (metadata w))).
  run_stage SaveMetadata; cbn [fst]; world_simpl; run_cut; split; auto.
Qed.

Lemma delete_version_paths name e w :
  paths_kept w -> paths_kept (fst (delete_version name e w)).
Proof.
  unfold paths_kept, delete_version. intros [Hmem Hfile].
  destruct (String.eqb name "Original"); [now split |].
  run_unfold. destruct (String.eqb name (current_version (metadata w)));
    [now split |].
  destruct (dict_get name _) as [info |]; [| now split].
  unfold path_exists. cbv beta iota zeta.
  pose proof (paths_ok_del (metadata w) name (current_version (metadata w)) Hmem)
    as Hdel.
  run_lookup; [run_stage UnlinkModel; [now split |] |];
    (run_lookup; [run_stage UnlinkScaler; [now split |] |]);
    run_stage SaveMetadata; cbn [fst]; world_simpl; run_cut; now split.
Qed.

Lemma retrain_incremental_paths d l e w :
  paths_kept w -> paths_kept (fst (retrain_incremental d l e w)).
Proof.
  unfold paths_kept, retrain_incremental. intros [Hmem Hfile].
  destruct (_do_retrain d l e w) as [w' [r | x]] eqn:Hrun; cbn [fst].
  - apply _do_retrain_returns, retrain_body_returns in Hrun.
    destruct Hrun as (base & info & Hrun). cbv zeta in Hrun.
    destruct Hrun as (_ & _ & _ & _ & _ & _ & Hmp & Hsp & Hmeta & Hf & _).
    rewrite Hf, Hmeta. split; now apply paths_ok_mint.
  - apply _do_retrain_raises in Hrun. destruct Hrun as (x0 & Hrun & _).
    apply retrain_body_raises in Hrun.
    destruct Hrun as ([[Hmeta Hf] | (msg & info & _ & _ & Hmeta & Hf & Hmp & Hsp)] & _);
      rewrite Hf, Hmeta; [now split |].
    run_cut; (split; [now apply paths_ok_mint | first [exact I | assumption]]).
Qed.

Lemma run_op_paths o e w : paths_kept w -> paths_kept (run_op o e w).
Proof.
  intros Hok. destruct o; cbn [run_op].
  - destruct Hok as [Hmem Hfile]. apply __init___paths; [exact Hfile | now right].
  - now apply switch_version_paths.
  - now apply retrain_incremental_paths.
  - now apply delete_version_paths.
Qed.

Lemma run_paths ops : forall w, paths_kept w -> paths_kept (run ops w).
Proof.
  induction ops as [| [o e] ops IH]; intros w Hok; cbn [run]; [exact Hok |].
  apply IH, run_op_paths, Hok.
Qed.

Lemma run_from_bootstrap_paths e0 w0 ops :
  metadata_file w0 = None -> paths_kept (run ((Bootstrap, e0) :: ops) w0).
Proof.
  intros Hnone. cbn [run run_op]. apply run_paths, __init___paths.
  - now rewrite Hnone.
  - now left.
Qed.

Lemma dict_get_In {V} k (v : V) d : dict_get k d = Some v -> List.In (k, v) d.
Proof.
  induction d as [| [k0 v0] d IH]; cbn [dict_get]; [discriminate |].
  destruct (String.eqb_spec k k0) as [-> | Hne].
  - intros [= ->]. now left.
  - intros H. right. now apply IH.
Qed.

Lemma model_file_not_bookkeeping name :
  model_file name <> training_data_file_path /\
  model_file name <> metadata_file_path /\
  scaler_file name <> training_data_file_path /\
  scaler_file name <> metadata_file_path.
Proof.
  unfold model_file, scaler_file, training_data_file_path, metadata_file_path,
    path_join.
  repeat split; intros H; apply append_inj_r, append_inj_r in H; discriminate.
Qed.

Lemma switch_version_table name e w :
  training_data_file (fst (switch_version name e w)) = training_data_file w.
Proof.
  unfold switch_version. run_unfold.
  destruct (dict_contains name (versions (metadata w))); cbn [negb];
    cbv beta iota zeta; [| reflexivity].
  run_stage SaveMetadata; reflexivity.
Qed.

Lemma delete_version_table name e w :
  training_data_file (fst (delete_version name e w)) = training_data_file w.
Proof.
  unfold delete_version.
  destruct (String.eqb name "Original"); [reflexivity |].
  run_unfold. destruct (String.eqb name (current_version (metadata w)));
    [reflexivity |].
  destruct (dict_get name _) as [info |]; [| reflexivity].
  unfold path_exists. cbv beta iota zeta.
  run_lookup; [run_stage UnlinkModel; [reflexivity |] |];
    (run_lookup; [run_stage UnlinkScaler; [reflexivity |] |]);
    run_stage SaveMetadata; reflexivity.
Qed.

Lemma __init___table e w :
  training_data_file (fst (__init__ e w)) = training_data_file w.
Proof.
  unfold __init__, _load_metadata. run_unfold.
  destruct (metadata_file w) as [[r |] |].
  - run_stage LoadMetadata; reflexivity.
  - run_stage LoadMetadata; reflexivity.
  - run_stage SaveMetadata; reflexivity.
Qed.

Lemma retrain_incremental_table d l e w :
  table_written_whole e ->
  let w' := fst (retrain_incremental d l e w) in
  training_data_file w' = training_data_file w \/
  training_data_file w' = Some (incremental_rows w ++ [new_row d l]).
Proof.
  intros Hwhole. cbv zeta. unfold retrain_incremental, incremental_rows.
  destruct (_do_retrain d l e w) as [w' [r | x]] eqn:Hrun; cbn [fst].
  - apply _do_retrain_returns, retrain_body_returns in Hrun.
    destruct Hrun as (base & info & Hrun). cbv zeta in Hrun. right. apply Hrun.
  - apply _do_retrain_raises in Hrun. destruct Hrun as (x0 & Hrun & _).
    apply retrain_body_raises in Hrun.
    destruct Hrun as (_ & [Htab | [Htab | (msg & Hf & _ & Htab)]] & _);
      [now left | now right |].
    left. rewrite Htab. unfold left_by_write.
    destruct Hwhole as [Hw | ->]; [congruence | reflexivity].
Qed.

Lemma run_op_table o e w :
  table_written_whole e ->
  incremental_rows (run_op o e w) = incremental_rows w \/
  exists d l, o = Retrain d l /\
    training_data_file (run_op o e w) = Some (incremental_rows w ++ [new_row d l]).
Proof.
  intros Hwhole.
  unfold incremental_rows. destruct o as [| name | d l | name]; cbn [run_op].
  - left. now rewrite __init___table.
  - left. now rewrite switch_version_table.
  - destruct (retrain_incremental_table d l e w Hwhole) as [H | H]; cbv zeta in H.
    + left. now rewrite H.
    + right. eauto.
  - left. now rewrite delete_version_table.
Qed.

Lemma run_table ops : forall w,
  Forall (fun oe => table_written_whole (snd oe)) ops ->
  exists added,
    incremental_rows (run ops w) = incremental_rows w ++ added /\
    sublist added (retrain_rows ops).
Proof.
  induction ops as [| [o e] ops IH]; intros w Hall; cbn [run].
  - exists []. rewrite app_nil_r. split; [reflexivity | constructor].
  - apply Forall_cons in Hall. destruct Hall as [He Hall]. cbn [snd] in He.
    destruct (IH (run_op o e w) Hall) as (added & Hrows & Hsub).
    destruct (run_op_table o e w He) as [Hsame | (d & l & -> & Hnew)].
    + exists added. rewrite Hrows, Hsame. split; [reflexivity |].
      unfold retrain_rows in *. cbn [omap list_omap fst].
      destruct o; try exact Hsub. now apply sublist_cons.
    + exists (new_row d l :: added). rewrite Hrows.
      unfold incremental_rows at 1. rewrite Hnew. cbn [from_option id].
      rewrite <- app_assoc. split; [reflexivity |].
      unfold retrain_rows in *. cbn [omap list_omap fst]. now apply sublist_skip.
Qed.

(** A write of the table that is cut short leaves the rows written by
    then. *)
Lemma retrain_incremental_cut d l e w ms msg :
  load_model_and_scaler None e w = (w, Returns ms) ->
  (training_data_file w <> None -> fault e ReadIncremental = None) ->
  fault e WriteIncremental = Some msg ->
  opened e WriteIncremental = true ->
  training_data_file (fst (retrain_incremental d l e w)) =
    Some (take (written e) (incremental_rows w ++ [new_row d l])).
Proof.
  intros Hload Hread Hwrite Hopen.
  unfold retrain_incremental, _do_retrain, try_except, retrain_body, incremental_rows.
  run_unfold. rewrite Hload. cbv beta iota zeta.
  destruct (training_data_file w) as [t |] eqn:Htab.
  - rewrite Hread by discriminate. cbv beta iota zeta. rewrite Hwrite.
    cbv beta iota zeta. cbn [fst]. world_simpl. unfold left_by_write.
    now rewrite Hopen.
  - cbv beta iota zeta. rewrite Hwrite.
    cbv beta iota zeta. cbn [fst]. world_simpl. unfold left_by_write.
    now rewrite Hopen.
Qed.

(** X8: the incremental table of a registry the manager has built is
    append-only as long as no write of the table is cut short.  From a
    construction without a metadata file, over any sequence of operations,
    returning or raising, whose writes of the table return or raise before
    the file is opened: the rows the table had stay in place at the front;
    the rows added behind them are rows built from retrain requests of the
    sequence, in the order of the requests, at most one per request; no
    operation other than a retrain touches the table; and the files a
    deletion removes are those of a version, never the table or the
    metadata file.  A write of the table that raises after opening the
    file leaves only the rows written by then. *)
Theorem incremental_table_append_only
    (e0 : env) (w0 : world) (ops : list (op * env)) :
  metadata_file w0 = None ->
  Forall (fun oe => table_written_whole (snd oe)) ops ->
  let w := run ((Bootstrap, e0) :: ops) w0 in
  (exists added,
     incremental_rows w = incremental_rows w0 ++ added /\
     sublist added (retrain_rows ops)) /\
  (forall o e, (forall d l, o <> Retrain d l) ->
     training_data_file (run_op o e w) = training_data_file w) /\
  (forall name info,
     dict_get name (versions (metadata w)) = Some info -> name <> "Original" ->
     path_join versions_dir (model_path info) = model_file name /\
     path_join versions_dir (scaler_path info) = scaler_file name /\
     model_file name <> training_data_file_path /\
     model_file name <> metadata_file_path /\
     scaler_file name <> training_data_file_path /\
     scaler_file name <> metadata_file_path) /\
  (forall d l e ms msg,
     load_model_and_scaler None e w = (w, Returns ms) ->
     (training_data_file w <> None -> fault e ReadIncremental = None) ->
     fault e WriteIncremental = Some msg ->
     opened e WriteIncremental = true ->
     training_data_file (fst (retrain_incremental d l e w)) =
       Some (take (written e) (incremental_rows w ++ [new_row d l]))).
Proof.
  intros Hnone Hall. cbv zeta.
  pose proof (run_from_bootstrap_paths e0 w0 ops Hnone) as [Hpaths _].
  cbn [run run_op] in *.
  set (w := run ops (fst (__init__ e0 w0))) in *.
  split; [| split; [| split]].
  - destruct (run_table ops (fst (__init__ e0 w0)) Hall) as (added & Hrows & Hsub).
    exists added. split; [| exact Hsub]. fold w in Hrows. rewrite Hrows.
    unfold incremental_rows. now rewrite __init___table.
  - intros o e Hnot. destruct o as [| name | d l | name]; cbn [run_op].
    + apply __init___table.
    + apply switch_version_table.
    + now destruct (Hnot d l).
    + apply delete_version_table.
  - intros name info Hget Hne. apply dict_get_In in Hget.
    unfold paths_ok in Hpaths. rewrite List.Forall_forall in Hpaths.
    destruct (Hpaths _ Hget) as [Ho | [Hmp Hsp]]; cbn [fst snd] in *;
      [congruence |].
    rewrite Hmp, Hsp. fold (model_file name) (scaler_file name).
    split; [reflexivity |]. split; [reflexivity |].
    apply model_file_not_bookkeeping.
  - intros d l e ms msg. apply retrain_incremental_cut.
Qed.

Lemma incremental_table_append_only_witness :
  let ops := [(Retrain sample_data 1, failing_env FitModel "out of memory");
              (Switch "Original", quiet_env);
              (Retrain sample_data 1, quiet_env);
              (Delete "V1", quiet_env);
              (Retrain sample_data 0, failing_env LoadModel "unreadable")] in
  let w := run ((Bootstrap, quiet_env) :: ops) deployed in
  incremental_rows deployed = [] /\
  incremental_rows w = [new_row sample_data 1; new_row sample_data 1] /\
  List.map version (list_versions w) = ["Original"; "V1"] /\
  training_data_file
    (fst (retrain_incremental sample_data 0
            (failing_env WriteIncremental "[Errno 28] No space left on device") w)) =
    Some [].
Proof.
  pose proof (incremental_table_append_only quiet_env deployed
                [(Retrain sample_data 1, failing_env FitModel "out of memory");
                 (Switch "Original", quiet_env);
                 (Retrain sample_data 1, quiet_env);
                 (Delete "V1", quiet_env);
                 (Retrain sample_data 0, failing_env LoadModel "unreadable")]
                eq_refl) as Hspec.
  cbv zeta in *.
  destruct Hspec as (_ & _ & _ & Hcut).
  - repeat constructor.
  - split; [reflexivity |]. split; [vm_compute; reflexivity |].
    split; [vm_compute; reflexivity |].
    erewrite Hcut; [vm_compute; reflexivity | vm_compute; reflexivity
                   | intros _; reflexivity | reflexivity | reflexivity].
Defined.

(** ** The handlers *)

(** [load_model], case by case. *)
Lemma load_model_cases e w :
  load_model e w =
  match snd (load_model_and_scaler (Some (get_current_version w)) e w) with
  | Returns ms => (set_globals (Some (fst ms)) (Some (snd ms)) w, Returns tt)
  | Raises _ =>
      match joblib_files w !! MODEL_PATH with
      | None =>
          (w, Raises (FileNotFoundError
                        ("Model file not found at " +:+ MODEL_PATH +:+
                         ". Please train the model first by running: dvc repro")))
      | Some m0 =>
          match fault e LoadModel with
          | Some msg => (w, Raises (LibraryError msg))
          | None =>
              match joblib_files w !! SCALER_PATH with
              | None => (set_model (Some m0) w, Returns tt)
              | Some s0 =>
                  match fault e LoadScaler with
                  | Some msg => (set_model (Some m0) w, Raises (LibraryError msg))
                  | None =>
                      (set_scaler (Some s0) (set_model (Some m0) w), Returns tt)
                  end
              end
          end
      end
  end.
Proof.
  unfold load_model, try_except, bind, get_world.
  destruct (load_model_and_scaler (Some (get_current_version w)) e w)
    as [w1 [ms | x]] eqn:Hload;
    pose proof (load_model_and_scaler_state _ _ _ _ _ Hload); subst w1;
    cbn [snd]; [reflexivity |].
  unfold path_exists, joblib_load. run_unfold. unfold set_model, set_scaler.
  destruct (joblib_files w !! MODEL_PATH) as [m0 |] eqn:Hm0; cbn [negb];
    cbv beta iota zeta; [| reflexivity].
  destruct (fault e LoadModel); cbv beta iota zeta; [reflexivity |].
  rewrite Hm0. cbv beta iota zeta. world_simpl.
  destruct (joblib_files w !! SCALER_PATH) as [s0 |] eqn:Hs0; cbv beta iota zeta;
    [| reflexivity].
  destruct (fault e LoadScaler); cbv beta iota zeta; world_simpl;
    rewrite ?Hs0; reflexivity.
Qed.

(** What [load_model] has done when it returns. *)
Lemma load_model_returns e w w' :
  load_model e w = (w', Returns tt) ->
  model w' <> None /\
  metadata w' = metadata w /\ metadata_file w' = metadata_file w /\
  joblib_files w' = joblib_files w /\
  training_data_file w' = training_data_file w /\
  ((exists m s,
      load_model_and_scaler (Some (get_current_version w)) e w = (w, Returns (m, s)) /\
      model w' = Some m /\ scaler w' = Some s) \/
   (exists x m0,
      load_model_and_scaler (Some (get_current_version w)) e w = (w, Raises x) /\
      joblib_files w !! MODEL_PATH = Some m0 /\ model w' = Some m0 /\
      scaler w' = match joblib_files w !! SCALER_PATH with
                  | Some s0 => Some s0
                  | None => scaler w
                  end)).
Proof.
  rewrite load_model_cases.
  destruct (load_model_and_scaler (Some (get_current_version w)) e w)
    as [w1 [[m s] | x0]] eqn:Hload;
    pose proof (load_model_and_scaler_state _ _ _ _ _ Hload); subst w1; cbn [snd fst].
  - intros [= <-]. world_simpl.
    split; [discriminate |]. do 4 (split; [reflexivity |]). left. eauto.
  - destruct (joblib_files w !! MODEL_PATH) as [m0 |] eqn:Hm0; [| discriminate].
    destruct (fault e LoadModel); [discriminate |].
    destruct (joblib_files w !! SCALER_PATH) as [s0 |] eqn:Hs0.
    + destruct (fault e LoadScaler); [discriminate |].
      intros [= <-]. unfold set_model, set_scaler. world_simpl.
      split; [discriminate |]. do 4 (split; [reflexivity |]). right.
      exists x0, m0. auto.
    + intros [= <-]. unfold set_model. world_simpl.
      split; [discriminate |]. do 4 (split; [reflexivity |]). right.
      exists x0, m0. auto.
Qed.

(** X9: when [load_model] returns, a model is loaded, and the registry
    and the files are untouched.  It is the model and scaler of the
    current version when those load; when they do not (the version's
    files are missing or unreadable), it is the base model at
    [models/model.joblib], with the base scaler if that file exists and
    otherwise the scaler that was loaded before.  It raises only when
    loading the current version has raised too. *)
Theorem load_model_spec (e : env) (w w' : world) :
  (load_model e w = (w', Returns tt) ->
   model w' <> None /\
   metadata w' = metadata w /\ metadata_file w' = metadata_file w /\
   joblib_files w' = joblib_files w /\
   training_data_file w' = training_data_file w /\
   ((exists m s,
       load_model_and_scaler (Some (get_current_version w)) e w = (w, Returns (m, s)) /\
       model w' = Some m /\ scaler w' = Some s) \/
    (exists x m0,
       load_model_and_scaler (Some (get_current_version w)) e w = (w, Raises x) /\
       joblib_files w !! MODEL_PATH = Some m0 /\ model w' = Some m0 /\
       scaler w' = match joblib_files w !! SCALER_PATH with
                   | Some s0 => Some s0
                   | None => scaler w
                   end))) /\
  (forall x, load_model e w = (w', Raises x) ->
   exists x0,
     load_model_and_scaler (Some (get_current_version w)) e w = (w, Raises x0)).
Proof.
  split; [apply load_model_returns |].
  intros x. rewrite load_model_cases.
  destruct (load_model_and_scaler (Some (get_current_version w)) e w)
    as [w1 [ms | x0]] eqn:Hload;
    pose proof (load_model_and_scaler_state _ _ _ _ _ Hload); subst w1; cbn [snd].
  - discriminate.
  - eauto.
Qed.

Lemma load_model_spec_witness :
  get_current_version files_lost = "V1" /\
  exists w',
    load_model quiet_env files_lost = (w', Returns tt) /\
    model w' = joblib_files files_lost !! MODEL_PATH /\
    model w' <> None.
Proof.
  split; [vm_compute; reflexivity |].
  destruct (load_model quiet_env files_lost) as [w' [[] | x]] eqn:Hrun.
  - destruct (load_model_spec quiet_env files_lost w') as [Hret _].
    destruct (Hret Hrun) as (Hsome & _).
    exists w'. split; [reflexivity |]. split; [| exact Hsome].
    vm_compute in Hrun. injection Hrun as <-. vm_compute. reflexivity.
  - vm_compute in Hrun. discriminate.
Defined.



(** ** [predict_batch] *)

Lemma predict_loop_returns fs : forall acc e w w' rs,
  predict_loop fs acc e w = (w', Returns rs) <->
  w' = w /\
  exists rs', rs = acc ++ rs' /\
    Forall2 (fun f r => snd (predict_one f e w) = Returns r) fs rs'.
Proof.
  induction fs as [| f fs IH]; intros acc e w w' rs; cbn [predict_loop].
  - unfold ret. split.
    + intros [= <- <-]. split; [reflexivity |]. exists [].
      rewrite app_nil_r. split; [reflexivity | constructor].
    + intros (-> & rs' & -> & H). inversion H; subst. now rewrite app_nil_r.
  - unfold bind. rewrite (predict_one_state f e w).
    destruct (snd (predict_one f e w)) as [r | x] eqn:Hone.
    + rewrite IH. split.
      * intros (-> & rs' & -> & H). split; [reflexivity |].
        exists (r :: rs'). rewrite <- app_assoc. split; [reflexivity |].
        now constructor.
      * intros (-> & rs' & -> & H). inversion H as [| ? r0 ? rs0 Hr Hrest]; subst.
        assert (r0 = r) by congruence. subst r0.
        split; [reflexivity |]. exists rs0.
        rewrite <- app_assoc. now split.
    + split; [discriminate |].
      intros (_ & rs' & _ & H). inversion H; subst. congruence.
Qed.

Lemma predict_loop_state fs : forall acc e w,
  fst (predict_loop fs acc e w) = w.
Proof.
  induction fs as [| f fs IH]; intros acc e w; cbn [predict_loop]; [reflexivity |].
  unfold bind. rewrite (predict_one_state f e w).
  destruct (snd (predict_one f e w)); [apply IH | reflexivity].
Qed.

(** X11: with a model loaded, [predict_batch] answers each request as
    [predict] does.  It returns exactly when [predict] returns for every
    request of the list, the responses being those of [predict] in the
    order of the requests and [count] their number; otherwise it raises
    an [HTTPException] of status 500 for the whole batch.  The state is
    left as it is either way. *)
Theorem predict_batch_spec
    (features_list : list WaterQualityFeatures.t) (e : env) (w : world) (m : pyobject) :
  model w = Some m ->
  fst (predict_batch features_list e w) = w /\
  (forall resp,
     snd (predict_batch features_list e w) = Returns resp <->
     Forall2 (fun f r => predict f e w = (w, Returns r))
       features_list (predictions resp) /\
     count resp = len features_list) /\
  (forall x, snd (predict_batch features_list e w) = Raises x ->
     exists detail, x = HTTPException 500 detail).
Proof.
  intros Hm.
  assert (Hrow : forall f r, predict f e w = (w, Returns r) <->
                             snd (predict_one f e w) = Returns r).
  { intros f r. rewrite (predict_loaded _ _ _ m Hm).
    destruct (snd (predict_one f e w)); split; congruence. }
  unfold predict_batch, bind, try_except, get_world, ret, raise. rewrite Hm.
  destruct (predict_loop features_list [] e w) as [w1 [rs | x]] eqn:Hloop.
  - apply predict_loop_returns in Hloop. destruct Hloop as (-> & rs' & -> & Hall).
    cbn [app fst snd]. split; [reflexivity |]. split; [| discriminate].
    intros resp. split.
    + intros [= <-]. cbn [predictions count]. split.
      * eapply Forall2_impl; [exact Hall |]. intros f r. apply Hrow.
      * unfold len. now rewrite (Forall2_length _ _ _ Hall).
    + intros [Hresp Hcount]. destruct resp as [ps c]. cbn [predictions count] in *.
      assert (ps = rs').
      { clear Hcount. revert ps Hresp.
        induction Hall as [| f r fs rs0 Hr Hrest IH]; intros ps Hps;
          inversion Hps as [| ? r' ? ps' Hr' Hrest']; subst; [reflexivity |].
        apply Hrow in Hr'. f_equal; [congruence | now apply IH]. }
      subst ps. f_equal. f_equal. subst c. unfold len.
      now rewrite (Forall2_length _ _ _ Hall).
  - pose proof (predict_loop_state features_list [] e w) as Hst.
    rewrite Hloop in Hst. cbn [fst] in Hst. subst w1. cbn [fst snd].
    split; [reflexivity |]. split; [| intros x0 [= <-]; eauto].
    intros resp. split; [discriminate |]. intros [Hresp _]. exfalso.
    assert (Hret : predict_loop features_list [] e w = (w, Returns ([] ++ predictions resp))).
    { apply predict_loop_returns. split; [reflexivity |]. eexists. split; [reflexivity |].
      eapply Forall2_impl; [exact Hresp |]. intros f r. apply Hrow. }
    congruence.
Qed.

Lemma predict_batch_spec_witness :
  exists resp,
    predict_batch [sample_features; sample_features] quiet_env serving =
      (serving, Returns resp) /\
    count resp = 2 /\
    List.map potability (predictions resp) = [1; 1] /\
    List.map confidence (predictions resp) = [0.75%float; 0.75%float].
Proof.
  destruct (predict_batch_spec [sample_features; sample_features] quiet_env serving
              sample_classifier eq_refl) as (Hst & _ & _).
  destruct (predict_batch [sample_features; sample_features] quiet_env serving)
    as [w' [resp | x]] eqn:Hrun.
  - cbn [fst] in Hst. subst w'. exists resp. split; [reflexivity |].
    vm_compute in Hrun. injection Hrun as <-. repeat split; reflexivity.
  - vm_compute in Hrun. discriminate.
Defined.

(** ** The version handlers *)

Lemma load_model_raises e w w' x :
  load_model e w = (w', Raises x) ->
  (exists msg, x = FileNotFoundError msg) \/ (exists msg, x = LibraryError msg).
Proof.
  rewrite load_model_cases.
  destruct (snd (load_model_and_scaler _ e w)); [discriminate |].
  destruct (joblib_files w !! MODEL_PATH); [| intros [= <- <-]; eauto].
  destruct (fault e LoadModel); [intros [= <- <-]; eauto |].
  destruct (joblib_files w !! SCALER_PATH); [| discriminate].
  destruct (fault e LoadScaler); [intros [= <- <-]; eauto | discriminate].
Qed.

Lemma switch_version_raises name e w w' x :
  switch_version name e w = (w', Raises x) -> exists msg, x = LibraryError msg.
Proof.
  unfold switch_version. run_unfold.
  destruct (dict_contains name (versions (metadata w))); cbn [negb];
    cbv beta iota zeta; [| discriminate].
  run_stage SaveMetadata; [| discriminate]. intros [= <- <-]. eauto.
Qed.

(** X12: the switch handler answers an unknown version with an
    [HTTPException] of status 404 and leaves the state; whatever it
    raises is an [HTTPException] of status 404 or 500; and when it
    returns, the requested version is registered and current, the
    registry is in the metadata file with the same versions as before,
    and a model is loaded. *)
Theorem switch_model_version_spec (request_version : string) (e : env) (w : world) :
  (dict_contains request_version (versions (metadata w)) = false ->
   switch_model_version request_version e w =
   (w, Raises (HTTPException 404 ("Version '" +:+ request_version +:+ "' not found")))) /\
  (forall w' x, switch_model_version request_version e w = (w', Raises x) ->
     exists status_code detail,
       x = HTTPException status_code detail /\
       (status_code = 404 \/ status_code = 500)) /\
  (forall w' resp, switch_model_version request_version e w = (w', Returns resp) ->
     dict_contains request_version (versions (metadata w)) = true /\
     sr_success resp = true /\
     sr_current_version resp = request_version /\
     get_current_version w' = request_version /\
     versions (metadata w') = versions (metadata w) /\
     in_sync w' /\
     model w' <> None).
Proof.
  unfold switch_model_version, try_except, bind, get_world, ret.
  destruct (switch_version request_version e w) as [w1 [b | x1]] eqn:Hsw.
  - apply switch_version_returns in Hsw.
    destruct Hsw as [(-> & -> & Hno) | (-> & Hyes & Hw1)]; cbn [negb];
      cbv beta iota zeta.
    + unfold reraise_http. cbv beta iota zeta. unfold raise. cbv beta iota zeta.
      split; [reflexivity |].
      split; [intros w' x [= <- <-]; eauto |]. discriminate.
    + split; [congruence |].
      destruct (load_model e w1) as [w2 [[] | x2]] eqn:Hload.
      * split; [discriminate |].
        intros w' resp [= <- <-]. cbn [sr_success sr_current_version].
        destruct (load_model_returns e w1 w2 Hload) as (Hsome & Hmeta & Hfile & _).
        unfold in_sync, get_current_version. rewrite Hmeta, Hfile, Hw1.
        cbv zeta. world_simpl. repeat split; auto.
      * destruct (load_model_raises _ _ _ _ Hload) as [[msg ->] | [msg ->]];
          unfold reraise_http; cbv beta iota zeta; unfold raise; cbv beta iota zeta;
          (split; [| discriminate]);
          intros w' x [= <- <-]; eauto.
  - destruct (switch_version_raises _ _ _ _ _ Hsw) as [msg ->].
    unfold reraise_http. cbv beta iota zeta. unfold raise. cbv beta iota zeta. split.
    + intros Hno. rewrite (switch_version_unknown _ e w Hno) in Hsw. discriminate.
    + split; [| discriminate]. intros w' x [= <- <-]. eauto.
Qed.

Lemma switch_model_version_spec_witness :
  switch_model_version "V7" quiet_env serving =
    (serving, Raises (HTTPException 404 "Version 'V7' not found")) /\
  exists w' resp,
    switch_model_version "Original" quiet_env serving = (w', Returns resp) /\
    get_current_version serving = "V1" /\
    get_current_version w' = "Original".
Proof.
  pose proof (switch_model_version_spec "V7" quiet_env serving) as (H404 & _).
  pose proof (switch_model_version_spec "Original" quiet_env serving) as (_ & _ & Hok).
  split; [apply H404; vm_compute; reflexivity |].
  destruct (switch_model_version "Original" quiet_env serving) as [w' [resp | x]] eqn:Hrun.
  - destruct (Hok w' resp eq_refl) as (_ & _ & _ & Hcur & _).
    exists w', resp. split; [reflexivity |]. split; [vm_compute; reflexivity | exact Hcur].
  - vm_compute in Hrun. discriminate.
Defined.

(** X13: in every state the manager reaches from a construction without
    a metadata file, by whatever operations, returning or raising, the
    current-model handler does not raise and leaves the state; its [info]
    is the entry of [list_versions] named by the current version, the one
    entry flagged current, and is never null. *)
Theorem get_current_model_spec
    (e0 : env) (w0 : world) (ops : list (op * env)) (e : env) :
  metadata_file w0 = None ->
  let w := run ((Bootstrap, e0) :: ops) w0 in
  exists resp v,
    get_current_model e w = (w, Returns resp) /\
    cm_version resp = get_current_version w /\
    cm_info resp = Some v /\
    v ∈ list_versions w /\
    version v = get_current_version w /\
    is_current v = true /\
    forall v', v' ∈ list_versions w -> is_current v' = true ->
               version v' = version v.
Proof.
  intros Hnone. cbv zeta.
  destruct (run_from_bootstrap_ok e0 w0 ops Hnone) as [Hcur _].
  set (w := run ((Bootstrap, e0) :: ops) w0) in *.
  unfold get_current_model, try_except, bind, get_world, ret.
  set (cur := get_current_version w).
  assert (Hflag : forall v', v' ∈ list_versions w -> is_current v' = true ->
                    version v' = cur).
  { intros v' Hv' Hc. unfold list_versions in Hv'. rewrite py_sort_elem in Hv'.
    apply list_elem_of_fmap in Hv'. destruct Hv' as ([k info] & -> & _).
    cbn [view_of is_current version fst] in *. now apply String.eqb_eq in Hc. }
  fold (get_current_version w) in Hcur. fold cur in Hcur.
  apply list_versions_name, list_elem_of_fmap in Hcur.
  destruct Hcur as (v0 & Hv0 & Hmem).
  destruct (List.find (fun v => String.eqb (version v) cur) (list_versions w))
    as [v |] eqn:Hfind.
  - apply List.find_some in Hfind. destruct Hfind as [Hv Heq].
    apply String.eqb_eq in Heq. apply list_elem_of_In in Hv.
    eexists. exists v. cbn [cm_version cm_info].
    split; [reflexivity |]. split; [reflexivity |]. split; [reflexivity |].
    split; [exact Hv |]. split; [exact Heq |]. split.
    + unfold list_versions in Hv. rewrite py_sort_elem in Hv.
      apply list_elem_of_fmap in Hv. destruct Hv as ([k info] & -> & _).
      cbn [view_of is_current version fst] in *. subst k. apply String.eqb_refl.
    + intros v' Hv' Hc. rewrite Heq. now apply Hflag.
  - apply list_elem_of_In in Hmem.
    pose proof (List.find_none _ _ Hfind v0 Hmem) as Hno. cbv beta in Hno.
    rewrite <- Hv0, String.eqb_refl in Hno. discriminate.
Qed.

Lemma get_current_model_spec_witness :
  let w := run [(Bootstrap, quiet_env);
                (Retrain sample_data 0, failing_env FitModel "Unknown label type: unknown");
                (Retrain sample_data 1, quiet_env);
                (Retrain sample_data 1, quiet_env)] deployed in
  exists resp,
    get_current_model quiet_env w = (w, Returns resp) /\
    cm_version resp = "V2" /\
    option_map v_training_samples (cm_info resp) = Some 2296.
Proof.
  destruct (get_current_model_spec quiet_env deployed
              [(Retrain sample_data 0, failing_env FitModel "Unknown label type: unknown");
               (Retrain sample_data 1, quiet_env);
               (Retrain sample_data 1, quiet_env)] quiet_env eq_refl)
    as (resp & v & Hrun & _).
  cbv zeta in *. exists resp. split; [exact Hrun |].
  vm_compute in Hrun. injection Hrun as <-. split; reflexivity.
Defined.

(** ** The retrain handler *)

Lemma new_row_water_data q l : new_row (water_data q) l = request_row q l.
Proof. reflexivity. Qed.

Lemma load_model_metadata e w :
  metadata (fst (load_model e w)) = metadata w /\
  training_data_file (fst (load_model e w)) = training_data_file w.
Proof.
  rewrite load_model_cases.
  destruct (snd (load_model_and_scaler _ e w)); [now split |].
  destruct (joblib_files w !! MODEL_PATH); [| now split].
  destruct (fault e LoadModel); [now split |].
  destruct (joblib_files w !! SCALER_PATH); [| now split].
  destruct (fault e LoadScaler); now split.
Qed.

(** X14: the retrain handler raises nothing but an [HTTPException] of
    status 500, whose detail is ["Retraining failed: "] followed by ASCII
    characters only.  When it returns, the manager's retrain has returned
    and a model is loaded; the response names the new version, which is
    current, with the manager's sample count; and the row appended to the
    incremental table holds exactly the nine features and the label of
    the request.  When the retrain returns but the reload raises, the
    handler answers 500 although the new version is registered and
    current. *)
Theorem retrain_model_spec (request : RetrainRequest) (e : env) (w : world) :
  (forall w' x, retrain_model request e w = (w', Raises x) ->
     exists detail,
       x = HTTPException 500 ("Retraining failed: " +:+ detail) /\
       Py.is_ascii detail = true) /\
  (forall w' resp, retrain_model request e w = (w', Returns resp) ->
     exists w1 r,
       retrain_incremental (water_data (water_quality request))
         (actual_potability request) e w = (w1, Returns r) /\
       load_model e w1 = (w', Returns tt) /\
       rr_version resp = r_version r /\
       get_current_version w' = rr_version resp /\
       rr_training_samples resp = r_training_samples r /\
       rr_incremental_samples resp = len (incremental_rows w) + 1 /\
       training_data_file w' =
         Some (incremental_rows w ++
               [request_row (water_quality request) (actual_potability request)]) /\
       model w' <> None) /\
  (forall w1 r w2 x1,
     retrain_incremental (water_data (water_quality request))
       (actual_potability request) e w = (w1, Returns r) ->
     load_model e w1 = (w2, Raises x1) ->
     exists detail,
       retrain_model request e w = (w2, Raises (HTTPException 500 detail)) /\
       get_current_version w2 = r_version r /\
       r_version r ∈ List.map version (list_versions w2)).
Proof.
  unfold retrain_model, try_except, bind, ret, raise. cbv beta iota zeta.
  destruct (retrain_incremental (water_data (water_quality request))
              (actual_potability request) e w) as [w1 [r | x0]] eqn:Hre.
  - pose proof Hre as Hbody. unfold retrain_incremental in Hbody.
    apply _do_retrain_returns, retrain_body_returns in Hbody.
    destruct Hbody as (base & info & Hbody). cbv zeta in Hbody.
    destruct Hbody as (_ & Hname & _ & Hinc & _ & _ & _ & _ & Hmeta & _ & Htab).
    destruct (load_model_metadata e w1) as [Hlm Hlt].
    destruct (load_model e w1) as [w2 [[] | x1]] eqn:Hload; cbn [fst] in Hlm, Hlt.
    + split; [discriminate |]. split.
      * intros w' resp [= <- <-].
        cbn [rr_version rr_training_samples rr_incremental_samples].
        exists w1, r. split; [reflexivity |]. split; [exact Hload |].
        split; [reflexivity |].
        unfold get_current_version. rewrite Hlm, Hmeta. cbn [current_version].
        split; [now rewrite Hname |]. split; [reflexivity |].
        rewrite Hinc, Hlt, Htab. unfold appended_table, incremental_rows.
        rewrite len_app, new_row_water_data. split; [reflexivity |].
        split; [reflexivity |].
        apply (load_model_returns e w1 w2 Hload).
      * intros w1' r' w2' x1' [= <- <-] Hl. congruence.
    + split; [| split; [discriminate |]].
      * intros w' x [= <- <-]. eexists. split; [reflexivity |].
        apply is_ascii_ascii_ignore.
      * intros w1' r' w2' x1' [= <- <-] Hl. rewrite Hload in Hl.
        injection Hl as <- <-. eexists. split; [reflexivity |].
        unfold get_current_version. rewrite Hlm, Hmeta. cbn [current_version].
        split; [now rewrite Hname |].
        apply list_versions_name. rewrite Hlm, Hmeta, Hname. cbn [versions].
        apply dict_contains_set.
  - split; [| split; discriminate].
    intros w' x [= <- <-]. eexists. split; [reflexivity |].
    apply is_ascii_ascii_ignore.
Qed.

Lemma retrain_model_spec_witness :
  exists w' resp,
    retrain_model {| water_quality := sample_features; actual_potability := 1 |}
      quiet_env serving = (w', Returns resp) /\
    rr_version resp = "V2" /\
    get_current_version w' = "V2" /\
    rr_training_samples resp = 2296.
Proof.
  destruct (retrain_model {| water_quality := sample_features; actual_potability := 1 |}
              quiet_env serving) as [w' [resp | x]] eqn:Hrun.
  - destruct (retrain_model_spec {| water_quality := sample_features;
                                    actual_potability := 1 |} quiet_env serving)
      as (_ & Hret & _).
    destruct (Hret w' resp Hrun) as (w1 & r & _ & _ & _ & Hcur & _).
    exists w', resp. split; [reflexivity |]. rewrite Hcur.
    vm_compute in Hrun. injection Hrun as <- <-. repeat split; reflexivity.
  - vm_compute in Hrun. discriminate.
Defined.

(** ** A retrain that cannot start *)

(** X15: a retrain first loads the current version.  When that load
    raises (the version is not registered, a file is missing or
    unreadable), the retrain raises the wrapped error and changes nothing:
    no row is appended.  A missing base table, by contrast, is met only
    after the append: the retrain raises, the registry is as before, and
    the row is in the incremental table. *)
Theorem retrain_cannot_start
    (new_data : gmap string float) (actual_label : Z) (e : env) (w : world) :
  (forall x, load_model_and_scaler None e w = (w, Raises x) ->
     retrain_incremental new_data actual_label e w =
     (w, Raises (RuntimeError ("Retraining error: " +:+ Py.ascii_ignore (exn_str x))))) /\
  (forall ms, load_model_and_scaler None e w = (w, Returns ms) ->
     quiet e -> train_dataset w = None ->
     exists w',
       retrain_incremental new_data actual_label e w =
       (w', Raises (RuntimeError
          "Retraining error: [Errno 2] No such file or directory: 'Data-set/train_dataset.csv'")) /\
       metadata w' = metadata w /\ metadata_file w' = metadata_file w /\
       joblib_files w' = joblib_files w /\
       training_data_file w' =
         Some (incremental_rows w ++ [new_row new_data actual_label])).
Proof.
  split.
  - intros x Hload. unfold retrain_incremental, _do_retrain, try_except, retrain_body.
    unfold bind at 1. rewrite Hload. reflexivity.
  - intros ms Hload Hq Hbase.
    unfold retrain_incremental, _do_retrain, try_except, retrain_body, incremental_rows.
    run_unfold. rewrite Hload. cbv beta iota zeta.
    destruct (training_data_file w);
      repeat (first [rewrite Hq | rewrite Hbase]; cbv beta iota zeta; world_simpl);
      eexists; repeat split.
Qed.

Lemma retrain_cannot_start_witness :
  retrain_incremental sample_data 1 quiet_env base_model_lost =
  (base_model_lost,
   Raises (RuntimeError
     "Retraining error: [Errno 2] No such file or directory: 'models/model.joblib'")).
Proof.
  pose proof (retrain_cannot_start sample_data 1 quiet_env base_model_lost) as [Hstop _].
  apply (Hstop (FileNotFoundError
                  "[Errno 2] No such file or directory: 'models/model.joblib'")).
  vm_compute. reflexivity.
Defined.
